(** * Snapshot consolidation and republish: a shallow embedding

    The development follows the four source files of the repository:

    - [load_public.py]: the combined [INSERT ... SELECT] statement (the
      two "latest" common table expressions, the left join and the
      [ORDER BY]) and the transactional wrapper [load_to_snowflake];
    - [main.py]: the orchestrator running the three phases;
    - [github_repo_etl.py]: the GitHub ingestion ([get_repo_metrics],
      [insert_metrics], [main]);
    - [pypi_etl.py]: its table, [load_config] and [get_pypi_stats],
      an extraction from an external analytics store; its [main] is a
      parameter of the orchestrator.

    Relations are lists of records in storage order.  SQL integers and
    timestamps are points of [Z]; nullable columns are [option]s.  The
    identity [name] and the two columns the Resolver maximises are
    never null: both ingestion scripts always bind a value to them. *)

From Stdlib Require Import List String ZArith Bool Lia Permutation.
From Stdlib Require Import Sorting.Mergesort Sorting.Sorted Orders DecimalString.
Import ListNotations.
Local Open Scope string_scope.
Local Open Scope Z_scope.

(* ================================================================= *)
(** ** The three relations *)

(** [github_repo_metrics], with the sixteen columns written by
    [insert_metrics] in [github_repo_etl.py].  The columns that
    [get_repo_metrics] can set to [None] are nullable. *)
Module Github.
Record row : Type := mk {
  name : string;
  github_owner : string;
  github_repository_name : string;
  stars : Z;
  forks : Z;
  watchers : Z;
  open_issues : Z;
  language : option string;
  size_kb : Z;
  created_at : option string;
  updated_at : option string;
  collected_at : Z;
  total_contributors : option Z;
  total_commits : option Z;
  commits_last_year : option Z;
  commits_last_month : option Z
}.
End Github.

(** [pypi_download_stats], with the five columns written by
    [pypi_etl.load_to_snowflake].  There is no collection timestamp. *)
Module Pypi.
Record row : Type := mk {
  name : string;
  pypi_name : string;
  total_downloads_alltime : Z;
  downloads_last_month : Z;
  downloads_last_year : Z
}.
End Pypi.

(** [public.tech_metrics], in the column order of the [INSERT] list of
    [load_public.py].  The registry-sourced columns are nullable: the
    left join fills them with [NULL] when there is no match. *)
Module Public.
Record row : Type := mk {
  name : string;
  github_owner : string;
  github_repository_name : string;
  pypi_name : option string;
  language : option string;
  stars : Z;
  forks : Z;
  watchers : Z;
  open_issues : Z;
  size_kb : Z;
  created_at : option string;
  updated_at : option string;
  total_contributors : option Z;
  total_commits : option Z;
  total_downloads_alltime : option Z;
  commits_last_year : option Z;
  downloads_last_year : option Z;
  commits_last_month : option Z;
  downloads_last_month : option Z
}.
End Public.

(* ================================================================= *)
(** ** Snapshot Resolver: the two [latest_*] common table expressions

    Both have the same shape,
    [SELECT t.* FROM t INNER JOIN (SELECT name, MAX(m) FROM t GROUP BY name) latest
     ON t.name = latest.name AND t.m = latest.max_m],
    so the shape is embedded once, over the row type, its [name] column
    and the column [m] that is maximised. *)
Section Resolver.
Variable R : Type.
Variable key : R -> string.
Variable marker : R -> Z.

(** One step of the aggregation: fold the value [v] into the group of
    [n], opening the group when it does not exist yet. *)
Fixpoint upsert_max (n : string) (v : Z) (groups : list (string * Z)) : list (string * Z) :=
  match groups with
  | [] => [(n, v)]
  | (n', m) :: rest =>
      if String.eqb n n' then (n', Z.max m v) :: rest
      else (n', m) :: upsert_max n v rest
  end.

(** [SELECT name, MAX(marker) FROM rows GROUP BY name]. *)
Fixpoint max_by_group (rows : list R) : list (string * Z) :=
  match rows with
  | [] => []
  | r :: rest => upsert_max (key r) (marker r) (max_by_group rest)
  end.

(** The [ON] condition of the inner join. *)
Definition on_latest (r : R) (g : string * Z) : bool :=
  String.eqb (key r) (fst g) && Z.eqb (marker r) (snd g).

(** The inner join, as a nested loop over the table and the derived
    table; only the columns of the table are selected. *)
Definition latest (rows : list R) : list R :=
  flat_map
    (fun r => flat_map (fun g => if on_latest r g then [r] else [])
                       (max_by_group rows))
    rows.

(** The value a derived table holds for [n], if it has a group for it. *)
Fixpoint assoc (n : string) (groups : list (string * Z)) : option Z :=
  match groups with
  | [] => None
  | (n', m) :: rest => if String.eqb n n' then Some m else assoc n rest
  end.

(** The largest marker among the rows of identity [n], read off the
    table directly; [None] when the identity is absent. *)
Fixpoint max_of (n : string) (rows : list R) : option Z :=
  match rows with
  | [] => None
  | r :: rest =>
      if String.eqb n (key r) then
        Some match max_of n rest with
             | Some m => Z.max m (marker r)
             | None => marker r
             end
      else max_of n rest
  end.

(** [r] carries the largest marker among the rows of its identity. *)
Definition is_max_in (rows : list R) (r : R) : bool :=
  forallb (fun r' => negb (String.eqb (key r') (key r)) || Z.leb (marker r') (marker r)) rows.

(** The rows of identity [n]. *)
Definition of_identity (n : string) (rows : list R) : list R :=
  filter (fun r => String.eqb (key r) n) rows.

End Resolver.

Arguments max_by_group {R} key marker rows.
Arguments on_latest {R} key marker r g.
Arguments max_of {R} key marker n rows.
Arguments latest {R} key marker rows.
Arguments is_max_in {R} key marker rows r.
Arguments of_identity {R} key n rows.

(** [latest_github]: the maximum of [collected_at] per [name]. *)
Definition latest_github (github_repo_metrics : list Github.row) : list Github.row :=
  latest Github.name Github.collected_at github_repo_metrics.

(** [latest_pypi]: the maximum of [downloads_last_year] per [name]. *)
Definition latest_pypi (pypi_download_stats : list Pypi.row) : list Pypi.row :=
  latest Pypi.name Pypi.downloads_last_year pypi_download_stats.

(* ================================================================= *)
(** ** Consolidator: the left join, the projection and the ordering *)

(** The select list, for a GitHub row and the registry row joined to it
    ([None] when the left join found none). *)
Definition select_row (g : Github.row) (p : option Pypi.row) : Public.row :=
  Public.mk
    (Github.name g)
    (Github.github_owner g)
    (Github.github_repository_name g)
    (option_map Pypi.pypi_name p)
    (Github.language g)
    (Github.stars g)
    (Github.forks g)
    (Github.watchers g)
    (Github.open_issues g)
    (Github.size_kb g)
    (Github.created_at g)
    (Github.updated_at g)
    (Github.total_contributors g)
    (Github.total_commits g)
    (option_map Pypi.total_downloads_alltime p)
    (Github.commits_last_year g)
    (option_map Pypi.downloads_last_year p)
    (Github.commits_last_month g)
    (option_map Pypi.downloads_last_month p).

(** [FROM g LEFT JOIN p ON g.name = p.name]: every left row is paired
    with each matching right row, or once with [NULL]s when none
    matches. *)
Definition left_join (gs : list Github.row) (ps : list Pypi.row) : list (Github.row * option Pypi.row) :=
  flat_map
    (fun g =>
       match filter (fun p => String.eqb (Github.name g) (Pypi.name p)) ps with
       | [] => [(g, None)]
       | matches => map (fun p => (g, Some p)) matches
       end)
    gs.

(** [ORDER BY g.name]: strings compare by their bytes, position by
    position. *)
Module NameOrder <: TotalLeBool.
Definition t : Type := Public.row.
Definition leb (a b : t) : bool := String.leb (Public.name a) (Public.name b).
Lemma leb_total : forall a b : t, leb a b = true \/ leb b a = true.
Proof. intros a b. apply String.leb_total. Qed.
End NameOrder.

Module NameSort := Sort NameOrder.

(** The [SELECT] of [load_public.py] over the two latest sets. *)
Definition consolidate (gs : list Github.row) (ps : list Pypi.row) : list Public.row :=
  NameSort.sort (map (fun gp => select_row (fst gp) (snd gp)) (left_join gs ps)).

(** The whole query: what [INSERT INTO public.tech_metrics ... WITH ...
    SELECT ...] inserts, from the two snapshot relations. *)
Definition combined_query (github_repo_metrics : list Github.row) (pypi_download_stats : list Pypi.row) : list Public.row :=
  consolidate (latest_github github_repo_metrics) (latest_pypi pypi_download_stats).

(* ================================================================= *)
(** ** Effects: exceptions over a threaded state

    Python code that raises, catches and cleans up is embedded in a
    state-and-exception monad.  A computation that raises keeps the
    state it reached: what was done before the [raise] stays done. *)

Inductive exn : Type :=
| Exception (msg : string)
| SystemExit (code : Z)
| KeyboardInterrupt.

Inductive result (A : Type) : Type :=
| Returned (a : A)
| Raised (e : exn).
Arguments Returned {A} a.
Arguments Raised {A} e.

Definition Eff (S A : Type) : Type := S -> result A * S.

Definition ret {S A : Type} (a : A) : Eff S A := fun s => (Returned a, s).

Definition raise {S A : Type} (e : exn) : Eff S A := fun s => (Raised e, s).

Definition bind {S A B : Type} (m : Eff S A) (k : A -> Eff S B) : Eff S B :=
  fun s =>
    match m s with
    | (Returned a, s') => k a s'
    | (Raised e, s') => (Raised e, s')
    end.

Declare Scope eff_scope.
Delimit Scope eff_scope with eff.
Notation "x <- m ;; k" := (bind m (fun x => k))
  (at level 100, m at next level, right associativity) : eff_scope.
Notation "m ;; k" := (bind m (fun _ => k))
  (at level 100, right associativity) : eff_scope.
Local Open Scope eff_scope.

(** [try: body except Exception as e: handler e].  [SystemExit] and
    [KeyboardInterrupt] do not derive from [Exception] and pass
    through. *)
Definition try_except {S A : Type} (body : Eff S A) (handler : string -> Eff S A) : Eff S A :=
  fun s =>
    match body s with
    | (Raised (Exception msg), s') => handler msg s'
    | other => other
    end.

(** [try: body finally: cleanup].  The cleanup runs on every exit path;
    the outcome of the body stands unless the cleanup itself raises. *)
Definition try_finally {S A : Type} (body : Eff S A) (cleanup : Eff S unit) : Eff S A :=
  fun s =>
    match body s with
    | (r, s') =>
        match cleanup s' with
        | (Returned _, s'') => (r, s'')
        | (Raised e, s'') => (Raised e, s'')
        end
    end.

(** A loop [for x in xs: body x]. *)
Fixpoint for_each {S A : Type} (xs : list A) (body : A -> Eff S unit) : Eff S unit :=
  match xs with
  | [] => ret tt
  | x :: rest => body x ;; for_each rest body
  end.

(** What the interpreter reports to the operating system when a script
    ends with the given outcome.  The status of a process is one byte:
    of the code given to [exit] the low eight bits are kept. *)
Definition exit_status {A : Type} (r : result A) : Z :=
  match r with
  | Returned _ => 0
  | Raised (SystemExit code) => code mod 256
  | Raised (Exception _) => 1
  | Raised KeyboardInterrupt => 130
  end.

(* ================================================================= *)
(** ** The warehouse and a connection to it *)

Record Database : Type := {
  github_repo_metrics : list Github.row;
  pypi_download_stats : list Pypi.row;
  tech_metrics : list Public.row
}.

Inductive statement : Type :=
| TruncatePublic
| InsertSelectPublic
| InsertGithub (r : Github.row).

Inductive call : Type :=
| Connect
| Execute (s : statement)
| Commit
| Rollback
| CursorClose
| ConnectionClose.

(** The state threaded through the scripts: the committed contents of
    the warehouse (what any other session reads), the state as seen by
    the script's open connection, the number of clock readings taken,
    the calls made to the connector and the lines printed. *)
Record World : Type := {
  committed : Database;
  working : Database;
  ticks : nat;
  calls : list call;
  stdout : list string
}.

(** The [snowflake] dictionary of a configuration: six values read
    with [os.getenv], each possibly unset. *)
Record SnowflakeConfig : Type := {
  user : option string;
  password : option string;
  account : option string;
  warehouse : option string;
  database : option string;
  schema : option string
}.

(** An entry of the [libraries] list of [config.json]. *)
Record Library : Type := {
  lib_name : string;
  lib_github_owner : string;
  lib_github_repo : string;
  lib_pypi_package : string
}.

Record Response (A : Type) : Type := {
  status_code : Z;
  json : A
}.
Arguments status_code {A} r.
Arguments json {A} r.

(** The fields [get_repo_metrics] reads from the repository document;
    [None] stands for an absent key, for which [data.get(k, 0)] gives
    the default.  A key that is present holds a number for the counts
    and a string for the others: documents in which a key is present
    with a JSON [null] are not among the inputs embedded here. *)
Record RepoData : Type := {
  stargazers_count : option Z;
  forks_count : option Z;
  watchers_count : option Z;
  open_issues_count : option Z;
  repo_language : option string;
  size : option Z;
  repo_created_at : option string;
  repo_updated_at : option string
}.

(** Everything the scripts read from outside.  Neither script sets the
    commit mode of its connection, so the mode is whatever the connector
    and the account give: [autocommit] tells whether every statement
    commits on its own, [truncate_commits] whether [TRUNCATE TABLE]
    commits the open transaction as data definition statements do.
    [fails] injects failures: the message of the error with which a
    call to the connector fails, if it does.  It is consulted by
    [connect], [execute], [commit] and [rollback]; the two [close]
    calls are taken to go through.  [config_json] is the [libraries]
    list of [config.json], [None] when the file is missing; the three
    [get_*] fields answer the three GitHub requests for a token, an
    owner and a repository, the two statistics documents as the list
    of the [total] of each entry, [None] for an entry without the key;
    [now] gives the successive readings of the clock. *)
Record Env : Type := {
  autocommit : bool;
  truncate_commits : bool;
  fails : call -> option string;
  config_json : option (list Library);
  getenv : string -> option string;
  get_repo : option string -> string -> string -> Response RepoData;
  get_contributors : option string -> string -> string -> Response (list (option Z));
  get_commit_activity : option string -> string -> string -> Response (list (option Z));
  now : nat -> Z
}.

Definition M (A : Type) : Type := Eff World A.

Definition print (line : string) : M unit :=
  fun w => (Returned tt,
            {| committed := committed w; working := working w; ticks := ticks w;
               calls := calls w; stdout := (stdout w ++ [line])%list |}).

Definition record_call (c : call) (w : World) : World :=
  {| committed := committed w; working := working w; ticks := ticks w;
     calls := (calls w ++ [c])%list; stdout := stdout w |}.

Definition set_databases (durable session : Database) (w : World) : World :=
  {| committed := durable; working := session; ticks := ticks w;
     calls := calls w; stdout := stdout w |}.

(** [datetime.now()]. *)
Definition datetime_now (env : Env) : M Z :=
  fun w => (Returned (now env (ticks w)),
            {| committed := committed w; working := working w; ticks := S (ticks w);
               calls := calls w; stdout := stdout w |}).

(** The effect of a statement on the tables, and its [rowcount]. *)
Definition apply_statement (s : statement) (d : Database) : Database :=
  match s with
  | TruncatePublic =>
      {| github_repo_metrics := github_repo_metrics d;
         pypi_download_stats := pypi_download_stats d;
         tech_metrics := [] |}
  | InsertSelectPublic =>
      {| github_repo_metrics := github_repo_metrics d;
         pypi_download_stats := pypi_download_stats d;
         tech_metrics :=
           (tech_metrics d ++ combined_query (github_repo_metrics d) (pypi_download_stats d))%list |}
  | InsertGithub r =>
      {| github_repo_metrics := (github_repo_metrics d ++ [r])%list;
         pypi_download_stats := pypi_download_stats d;
         tech_metrics := tech_metrics d |}
  end.

Definition rowcount (s : statement) (d : Database) : nat :=
  match s with
  | TruncatePublic => 0%nat
  | InsertSelectPublic =>
      List.length (combined_query (github_repo_metrics d) (pypi_download_stats d))
  | InsertGithub _ => 1%nat
  end.

Definition commits_at_once (env : Env) (s : statement) : bool :=
  autocommit env ||
  match s with
  | TruncatePublic => truncate_commits env
  | _ => false
  end.

(** [snowflake.connector.connect(...)]: the session starts from the
    committed state. *)
Definition connect (env : Env) (snowflake_config : SnowflakeConfig) : M unit :=
  fun w =>
    let w := record_call Connect w in
    match fails env Connect with
    | Some msg => (Raised (Exception msg), w)
    | None => (Returned tt, set_databases (committed w) (committed w) w)
    end.

(** [cursor.execute(sql)]: a statement that fails changes nothing; one
    that succeeds changes the session's state, and the committed state
    too when it commits at once. *)
Definition execute (env : Env) (s : statement) : M nat :=
  fun w =>
    let w := record_call (Execute s) w in
    match fails env (Execute s) with
    | Some msg => (Raised (Exception msg), w)
    | None =>
        let d := apply_statement s (working w) in
        (Returned (rowcount s (working w)),
         set_databases (if commits_at_once env s then d else committed w) d w)
    end.

(** [conn.commit()]. *)
Definition commit (env : Env) : M unit :=
  fun w =>
    let w := record_call Commit w in
    match fails env Commit with
    | Some msg => (Raised (Exception msg), w)
    | None => (Returned tt, set_databases (working w) (working w) w)
    end.

(** [conn.rollback()]: back to the committed state; a rollback that
    fails undoes nothing. *)
Definition rollback (env : Env) : M unit :=
  fun w =>
    let w := record_call Rollback w in
    match fails env Rollback with
    | Some msg => (Raised (Exception msg), w)
    | None => (Returned tt, set_databases (committed w) (committed w) w)
    end.

Definition cursor_close : M unit :=
  fun w => (Returned tt, record_call CursorClose w).

(** [conn.close()]: uncommitted work of the session is lost. *)
Definition conn_close : M unit :=
  fun w =>
    let w := record_call ConnectionClose w in
    (Returned tt, set_databases (committed w) (committed w) w).

(** [exit(1)]. *)
Definition exit {A : Type} (code : Z) : M A := raise (SystemExit code).

(** Truth value of [os.getenv(k)]: unset and empty are both false. *)
Definition truthy (v : option string) : bool :=
  match v with
  | Some s => negb (String.eqb s "")
  | None => false
  end.

(** The [snowflake] dictionary both [load_config] functions build. *)
Definition snowflake_of_env (env : Env) : SnowflakeConfig :=
  {| user := getenv env "SNOWFLAKE_USER";
     password := getenv env "SNOWFLAKE_PASSWORD";
     account := getenv env "SNOWFLAKE_ACCOUNT";
     warehouse := getenv env "SNOWFLAKE_WAREHOUSE";
     database := getenv env "SNOWFLAKE_DATABASE";
     schema := getenv env "SNOWFLAKE_SCHEMA" |}.

(** [all(config['snowflake'].values())]. *)
Definition all_set (snowflake_config : SnowflakeConfig) : bool :=
  truthy (user snowflake_config) && truthy (password snowflake_config) &&
  truthy (account snowflake_config) && truthy (warehouse snowflake_config) &&
  truthy (database snowflake_config) && truthy (schema snowflake_config).

(** Decimal rendering of a count, as an f-string does it. *)
Definition show_nat (n : nat) : string := NilZero.string_of_uint (Nat.to_uint n).

Definition show_Z (z : Z) : string := NilZero.string_of_int (Z.to_int z).

(* ================================================================= *)
(** ** [load_public.py] *)
Module load_public.

(** [load_config]: the configuration file must exist and the six
    warehouse credentials must be set; otherwise the script exits with
    code 1.  The configuration holds the credentials only. *)
Definition load_config (env : Env) : M SnowflakeConfig :=
  match config_json env with
  | None => print "Error: config.json not found" ;; exit 1
  | Some _ =>
      let snowflake := snowflake_of_env env in
      if negb (all_set snowflake) then
        (print "Error: Missing Snowflake environment variables. Required:" ;;
         print "SNOWFLAKE_USER, SNOWFLAKE_PASSWORD, SNOWFLAKE_ACCOUNT, SNOWFLAKE_WAREHOUSE, SNOWFLAKE_DATABASE, SNOWFLAKE_SCHEMA" ;;
         exit 1)
      else ret snowflake
  end.

(** The body of the [try] block. *)
Definition publish_body (env : Env) : M unit :=
  execute env TruncatePublic ;;
  inserted_count <- execute env InsertSelectPublic ;;
  commit env ;;
  print ("Successfully inserted " ++ show_nat inserted_count ++ " records into public.tech_metrics").

(** The [except Exception as e] block; the bare [raise] raises the
    exception that was caught.  When [conn.rollback()] raises, its
    error leaves the block in place of the one that was caught. *)
Definition publish_handler (env : Env) (e : string) : M unit :=
  print ("Error in loading data mart: " ++ e) ;;
  print "Rolling back..." ;;
  rollback env ;;
  print "Rollback complete" ;;
  raise (Exception e).

(** [load_to_snowflake]: the connection is opened before the [try]. *)
Definition load_to_snowflake (env : Env) (snowflake_config : SnowflakeConfig) : M unit :=
  connect env snowflake_config ;;
  try_finally
    (try_except (publish_body env) (publish_handler env))
    (cursor_close ;; conn_close).

Definition main (env : Env) : M unit :=
  config <- load_config env ;;
  load_to_snowflake env config ;;
  print "Data mart succesfully loaded!".

End load_public.

(* ================================================================= *)
(** ** [github_repo_etl.py] *)
Module github_repo_etl.

(** The [metrics] dictionary built by [get_repo_metrics]. *)
Record Metrics : Type := {
  library_name : string;
  owner : string;
  repo_name : string;
  stars : Z;
  forks : Z;
  watchers : Z;
  open_issues : Z;
  language : option string;
  size_kb : Z;
  created_at : option string;
  updated_at : option string;
  collected_at : Z;
  total_contributors : option Z;
  total_commits : option Z;
  commits_last_year : option Z;
  commits_last_month : option Z
}.

(** The [config] dictionary of this script. *)
Record Config : Type := {
  github_token : option string;
  libraries : list Library;
  snowflake : SnowflakeConfig
}.

Definition load_config (env : Env) : M Config :=
  match config_json env with
  | None => print "Error: config.json not found" ;; exit 1
  | Some config_data =>
      let config :=
        {| github_token := getenv env "GITHUB_TOKEN";
           libraries := config_data;
           snowflake := snowflake_of_env env |} in
      if negb (truthy (github_token config)) then
        (print "Error: GITHUB_TOKEN not found in environment variables" ;; exit 1)
      else if negb (all_set (snowflake config)) then
        (print "Error: Missing Snowflake environment variables. Required:" ;;
         print "SNOWFLAKE_USER, SNOWFLAKE_PASSWORD, SNOWFLAKE_ACCOUNT, SNOWFLAKE_WAREHOUSE, SNOWFLAKE_DATABASE, SNOWFLAKE_SCHEMA" ;;
         exit 1)
      else ret config
  end.

(** [d.get(k, 0)] on a count. *)
Definition get_or_zero (v : option Z) : Z :=
  match v with
  | Some z => z
  | None => 0
  end.

(** [sum(x.get('total', 0) for x in xs)]. *)
Definition sum_total (xs : list (option Z)) : Z :=
  fold_left Z.add (map get_or_zero xs) 0.

(** [xs[-4:] if len(xs) >= 4 else xs]. *)
Definition recent_weeks (xs : list (option Z)) : list (option Z) :=
  if (4 <=? List.length xs)%nat then skipn (List.length xs - 4) xs else xs.

Definition get_repo_metrics (env : Env) (library_name owner repo : string) (github_token : option string) : M (option Metrics) :=
  let headers := github_token in
  let response := get_repo env headers owner repo in
  if negb (status_code response =? 200) then
    (print ("Error fetching " ++ owner ++ "/" ++ repo ++ ": " ++ show_Z (status_code response)) ;;
     ret None)
  else
    let data := json response in
    collected <- datetime_now env ;;
    print "Fetching contributor stats..." ;;
    let response := get_contributors env headers owner repo in
    contributors_part <-
      (if negb (status_code response =? 200) then
         (print ("    Error fetching contributor stats: " ++ show_Z (status_code response)) ;;
          ret (None, None))
       else
         let contributors := json response in
         ret (Some (Z.of_nat (List.length contributors)), Some (sum_total contributors))) ;;
    print "Fetching granular commit activity stats..." ;;
    let response := get_commit_activity env headers owner repo in
    commits_part <-
      (if negb (status_code response =? 200) then
         (print ("    Error fetching commit activity stats: " ++ show_Z (status_code response)) ;;
          ret (None, None))
       else
         let commit_activity := json response in
         ret (Some (sum_total commit_activity), Some (sum_total (recent_weeks commit_activity)))) ;;
    print (owner ++ "/" ++ repo ++ " finished!") ;;
    ret (Some {|
      library_name := library_name;
      owner := owner;
      repo_name := repo;
      stars := get_or_zero (stargazers_count data);
      forks := get_or_zero (forks_count data);
      watchers := get_or_zero (watchers_count data);
      open_issues := get_or_zero (open_issues_count data);
      language := repo_language data;
      size_kb := get_or_zero (size data);
      created_at := repo_created_at data;
      updated_at := repo_updated_at data;
      collected_at := collected;
      total_contributors := fst contributors_part;
      total_commits := snd contributors_part;
      commits_last_year := fst commits_part;
      commits_last_month := snd commits_part
    |}).

(** The tuple bound to the sixteen placeholders of the [INSERT]. *)
Definition row_of (metrics : Metrics) : Github.row :=
  Github.mk
    (library_name metrics)
    (owner metrics)
    (repo_name metrics)
    (stars metrics)
    (forks metrics)
    (watchers metrics)
    (open_issues metrics)
    (language metrics)
    (size_kb metrics)
    (created_at metrics)
    (updated_at metrics)
    (collected_at metrics)
    (total_contributors metrics)
    (total_commits metrics)
    (commits_last_year metrics)
    (commits_last_month metrics).

Definition insert_metrics (env : Env) (metrics_list : list Metrics) (snowflake_config : SnowflakeConfig) : M unit :=
  match metrics_list with
  | [] => print "No metrics to insert"
  | _ =>
      connect env snowflake_config ;;
      for_each metrics_list (fun metrics => execute env (InsertGithub (row_of metrics)) ;; ret tt) ;;
      commit env ;;
      cursor_close ;;
      conn_close ;;
      print ("Inserted " ++ show_nat (List.length metrics_list) ++ " records into Snowflake")
  end.

(** The loop of [main], with the list it accumulates. *)
Fixpoint collect_metrics (env : Env) (config : Config) (libraries : list Library) (all_metrics : list Metrics) : M (list Metrics) :=
  match libraries with
  | [] => ret all_metrics
  | library :: rest =>
      print ("Fetching metrics for " ++ lib_name library ++ " (" ++ lib_github_owner library
             ++ "/" ++ lib_github_repo library ++ ")...") ;;
      metrics <- get_repo_metrics env (lib_name library) (lib_github_owner library)
                   (lib_github_repo library) (github_token config) ;;
      collect_metrics env config rest
        match metrics with
        | Some m => (all_metrics ++ [m])%list
        | None => all_metrics
        end
  end.

Definition main (env : Env) : M unit :=
  config <- load_config env ;;
  all_metrics <- collect_metrics env config (libraries config) [] ;;
  insert_metrics env all_metrics (snowflake config) ;;
  print "ETL for Github Complete!".

End github_repo_etl.

(* ================================================================= *)
(** ** [main.py], the orchestrator

    The orchestrator keeps its own log; the three phases it calls are
    the [main] functions of the imported modules and act on the world
    only. *)
Module main_py.

Inductive level : Type := INFO | WARNING | ERROR.

Record Process : Type := {
  world : World;
  etl_orchestrator_log : list (level * string)
}.

Definition Script (A : Type) : Type := Eff Process A.

Definition lift {A : Type} (m : M A) : Script A :=
  fun p =>
    match m (world p) with
    | (r, w) => (r, {| world := w; etl_orchestrator_log := etl_orchestrator_log p |})
    end.

Definition log (l : level) (msg : string) : Script unit :=
  fun p => (Returned tt,
            {| world := world p;
               etl_orchestrator_log := (etl_orchestrator_log p ++ [(l, msg)])%list |}).

(** [traceback.format_exc()], up to the frames it lists. *)
Definition traceback : string := "Traceback (most recent call last):".

(** [s * n]. *)
Fixpoint times (s : string) (n : nat) : string :=
  match n with
  | O => ""
  | S n' => s ++ times s n'
  end.

Definition newline : string := String (Ascii.ascii_of_nat 10) "".

Definition sys_exit {A : Type} (code : Z) : Script A := raise (SystemExit code).

Record Results : Type := {
  github_success : bool;
  pypi_success : bool;
  combine_success : bool
}.

(** [all(results.values())]. *)
Definition all_values (results : Results) : bool :=
  github_success results && pypi_success results && combine_success results.

Definition status_word (ok : bool) : string := if ok then "SUCCESS" else "FAILED".

(** The names of the failed processes, in the order of the dictionary. *)
Definition failed_processes (results : Results) : list string :=
  ((if github_success results then [] else ["GITHUB"]) ++
   (if pypi_success results then [] else ["PYPI"]) ++
   (if combine_success results then [] else ["COMBINE"]))%list.

Section Orchestrator.
Variable env : Env.
(** [github_repo_etl.main], [pypi_etl.main] and [load_public.main]. *)
Variable github_main : M unit.
Variable pypi_main : M unit.
Variable load_public_main : M unit.

Definition run_github_etl : Script bool :=
  log INFO "Starting GitHub ETL process..." ;;
  try_except
    (lift github_main ;;
     log INFO "GitHub ETL completed successfully" ;;
     ret true)
    (fun e =>
       log ERROR ("GitHub ETL failed: " ++ e) ;;
       log ERROR traceback ;;
       ret false).

Definition run_pypi_etl : Script bool :=
  log INFO "Starting PyPI ETL process..." ;;
  try_except
    (lift pypi_main ;;
     log INFO "PyPI ETL completed successfully" ;;
     ret true)
    (fun e =>
       log ERROR ("PyPI ETL failed: " ++ e) ;;
       log ERROR traceback ;;
       ret false).

Definition run_load_public : Script bool :=
  log INFO "Starting metrics combination ETL process..." ;;
  try_except
    (lift load_public_main ;;
     log INFO "Metrics combination ETL completed successfully" ;;
     ret true)
    (fun e =>
       log ERROR ("Metrics combination ETL failed: " ++ e) ;;
       log ERROR traceback ;;
       ret false).

Definition main : Script unit :=
  start_time <- lift (datetime_now env) ;;
  log INFO (times "=" 60) ;;
  log INFO "Starting ETL Orchestrator" ;;
  log INFO ("Start time: " ++ show_Z start_time) ;;
  log INFO (times "=" 60) ;;
  log INFO (newline ++ times "=" 40) ;;
  log INFO "PHASE 1: GitHub Repository Metrics" ;;
  log INFO (times "=" 40) ;;
  github <- run_github_etl ;;
  log INFO (newline ++ times "=" 40) ;;
  log INFO "PHASE 2: PyPI Download Statistics" ;;
  log INFO (times "=" 40) ;;
  pypi <- run_pypi_etl ;;
  log INFO (newline ++ times "=" 40) ;;
  log INFO "PHASE 3: Combining Metrics into Public Table" ;;
  log INFO (times "=" 40) ;;
  combine <- run_load_public ;;
  let results :=
    {| github_success := github; pypi_success := pypi; combine_success := combine |} in
  end_time <- lift (datetime_now env) ;;
  log INFO (newline ++ times "=" 60) ;;
  log INFO "ETL ORCHESTRATOR SUMMARY" ;;
  log INFO (times "=" 60) ;;
  log INFO ("Start time: " ++ show_Z start_time) ;;
  log INFO ("End time: " ++ show_Z end_time) ;;
  log INFO ("Total duration: " ++ show_Z (end_time - start_time)) ;;
  log INFO "" ;;
  log INFO "Process Results:" ;;
  log INFO ("  GitHub ETL: " ++ status_word (github_success results)) ;;
  log INFO ("  PyPI ETL: " ++ status_word (pypi_success results)) ;;
  log INFO ("  Load Public ETL: " ++ status_word (combine_success results)) ;;
  let overall_success := all_values results in
  log INFO "" ;;
  log INFO ("Overall Status: " ++ (if overall_success then "SUCCESS" else "PARTIAL/FAILED")) ;;
  (if negb overall_success then
     (log WARNING "Some ETL processes failed. Check the logs above for details." ;;
      log WARNING ("Failed processes: " ++ String.concat ", " (failed_processes results)))
   else ret tt) ;;
  log INFO (times "=" 60) ;;
  sys_exit (if overall_success then 0 else 1).

(** The [if __name__ == "__main__"] block. *)
Definition script : Script unit :=
  fun p =>
    match main p with
    | (Raised KeyboardInterrupt, p') =>
        (lift (print (newline ++ "ETL process interrupted by user")) ;; sys_exit 1) p'
    | (Raised (Exception e), p') =>
        (lift (print ("Unexpected error in main orchestrator: " ++ e)) ;;
         lift (print traceback) ;;
         sys_exit 1) p'
    | other => other
    end.

End Orchestrator.
End main_py.

(* ================================================================= *)
(** ** Observations and sample data *)

(** The registry-sourced columns of a published row. *)
Definition registry_fields (o : Public.row) : option string * option Z * option Z * option Z :=
  (Public.pypi_name o, Public.total_downloads_alltime o,
   Public.downloads_last_year o, Public.downloads_last_month o).

(** The published rows of identity [n]. *)
Definition published_for (n : string) (rows : list Public.row) : list Public.row :=
  filter (fun o => String.eqb (Public.name o) n) rows.

(** A GitHub snapshot of library [n] with [s] stars taken at time [t]. *)
Definition github_snapshot (n : string) (s t : Z) : Github.row :=
  Github.mk n "owner" n s 0 0 0 None 0 None None t None None None None.

(** A registry snapshot of library [n] with [y] downloads in the
    trailing year and [a] downloads in all. *)
Definition pypi_snapshot (n : string) (a y : Z) : Pypi.row :=
  Pypi.mk n n a 0 y.

(** Library A pulled twice, at times 1 and 2. *)
Definition github_history : list Github.row :=
  [github_snapshot "A" 5 1; github_snapshot "A" 10 2].

(** Libraries A and B in the registry; B is unknown to GitHub. *)
Definition pypi_history : list Pypi.row :=
  [pypi_snapshot "A" 900 900; pypi_snapshot "A" 1000 1000; pypi_snapshot "B" 50 50].

(** Library A pulled twice at the same instant. *)
Definition github_tied : list Github.row :=
  [github_snapshot "A" 5 7; github_snapshot "A" 10 7].

(** Library A extracted twice with the same trailing-year count. *)
Definition pypi_tied : list Pypi.row :=
  [pypi_snapshot "A" 1000 300; pypi_snapshot "A" 1100 300].

(** The message of the first step of the [try] block that fails, in
    the order in which the steps run. *)
Definition first_failure (env : Env) : option string :=
  match fails env (Execute TruncatePublic) with
  | Some msg => Some msg
  | None =>
      match fails env (Execute InsertSelectPublic) with
      | Some msg => Some msg
      | None => fails env Commit
      end
  end.

(** An outcome that does not escape a [try] with [except Exception]:
    a normal return, or an [Exception], which the handler catches. *)
Definition caught {A : Type} (r : result A) : Prop :=
  match r with
  | Returned _ => True
  | Raised (Exception _) => True
  | Raised _ => False
  end.

Definition succeeded {A : Type} (r : result A) : bool :=
  match r with
  | Returned _ => true
  | Raised _ => false
  end.

(** The published table as any reader of the warehouse sees it. *)
Definition published (w : World) : list Public.row := tech_metrics (committed w).

(** The initial repository request for a library, sent with the given
    token, returned 200. *)
Definition repo_found (env : Env) (token : option string) (library : Library) : bool :=
  status_code (get_repo env token (lib_github_owner library) (lib_github_repo library)) =? 200.

(** Two worlds with the same warehouse, session and connector calls. *)
Definition same_store (w w' : World) : Prop :=
  committed w' = committed w /\ working w' = working w /\ calls w' = calls w.

(** A warehouse holding the sample histories and one published row. *)
Definition sample_database : Database :=
  {| github_repo_metrics := github_history;
     pypi_download_stats := pypi_history;
     tech_metrics := [select_row (github_snapshot "A" 5 1) None] |}.

Definition sample_world : World :=
  {| committed := sample_database; working := sample_database;
     ticks := 0; calls := []; stdout := [] |}.

Definition numpy : Library :=
  {| lib_name := "numpy"; lib_github_owner := "numpy";
     lib_github_repo := "numpy"; lib_pypi_package := "numpy" |}.

Definition ghost : Library :=
  {| lib_name := "ghost"; lib_github_owner := "nobody";
     lib_github_repo := "ghost"; lib_pypi_package := "ghost" |}.

Definition empty_repo : RepoData :=
  {| stargazers_count := None; forks_count := None; watchers_count := None;
     open_issues_count := None; repo_language := None; size := None;
     repo_created_at := None; repo_updated_at := None |}.

(** An environment with the configuration in place, in which GitHub
    knows the repository [numpy/numpy] only; the commit mode and the
    injected failures are left open. *)
Definition sample_env (auto : bool) (failures : call -> option string) : Env :=
  {| autocommit := auto;
     truncate_commits := false;
     fails := failures;
     config_json := Some [numpy; ghost];
     getenv := fun _ => Some "set";
     get_repo := fun _ owner _ =>
       if String.eqb owner "numpy"
       then {| status_code := 200;
               json := {| stargazers_count := Some 30; forks_count := Some 4;
                          watchers_count := Some 30; open_issues_count := Some 2;
                          repo_language := Some "Python"; size := Some 100;
                          repo_created_at := Some "2010-09-13T23:02:39Z";
                          repo_updated_at := Some "2025-08-01T00:00:00Z" |} |}
       else {| status_code := 404; json := empty_repo |};
     get_contributors := fun _ _ _ => {| status_code := 202; json := [] |};
     get_commit_activity := fun _ _ _ =>
       {| status_code := 200; json := [Some 1; Some 2; None; Some 4; Some 5] |};
     now := fun n => Z.of_nat n |}.

Definition sample_process : main_py.Process :=
  {| main_py.world := sample_world; main_py.etl_orchestrator_log := [] |}.

(** A phase that does nothing, and one that fails at once. *)
Definition quiet_phase : M unit := ret tt.

Definition failing_phase : M unit := raise (Exception "rate limit exceeded").

Definition sample_credentials : SnowflakeConfig :=
  {| user := Some "set"; password := Some "set"; account := Some "set";
     warehouse := Some "set"; database := Some "set"; schema := Some "set" |}.

Definition no_failure (c : call) : option string := None.

(** The connection is lost while the [INSERT ... SELECT] runs. *)
Definition insert_fails (c : call) : option string :=
  match c with
  | Execute InsertSelectPublic => Some "connection lost"
  | _ => None
  end.

(* ================================================================= *)
(** ** [pypi_etl.py]: configuration and extraction

    The analytics store is outside the repository.  Building a client
    for a project either raises or yields the client, and a client
    answers a query by raising or by its rows: this is what the
    function [bigquery_client] given to [get_pypi_stats] tells. *)
Module pypi_etl.

(** The [config] dictionary of this script. *)
Record Config : Type := {
  gcp_project : option string;
  gcp_credentials : option string;
  libraries : list Library;
  snowflake : SnowflakeConfig
}.

Definition load_config (env : Env) : M Config :=
  match config_json env with
  | None => print "Error: config.json not found" ;; exit 1
  | Some config_data =>
      let config :=
        {| gcp_project := getenv env "GOOGLE_CLOUD_PROJECT";
           gcp_credentials := getenv env "GOOGLE_APPLICATION_CREDENTIALS";
           libraries := config_data;
           snowflake := snowflake_of_env env |} in
      if negb (truthy (gcp_project config)) then
        (print "Error: GOOGLE_CLOUD_PROJECT not found in environment variables" ;; exit 1)
      else if negb (truthy (gcp_credentials config)) then
        (print "Error: GOOGLE_APPLICATION_CREDENTIALS not found in environment variables" ;; exit 1)
      else if negb (all_set (snowflake config)) then
        (print "Error: Missing Snowflake environment variables. Required:" ;;
         print "SNOWFLAKE_USER, SNOWFLAKE_PASSWORD, SNOWFLAKE_ACCOUNT, SNOWFLAKE_WAREHOUSE, SNOWFLAKE_DATABASE, SNOWFLAKE_SCHEMA" ;;
         exit 1)
      else ret config
  end.

(** A row of the query result. *)
Record QueryRow : Type := {
  q_pypi_name : string;
  q_total_downloads_alltime : Z;
  q_downloads_last_month : Z;
  q_downloads_last_year : Z
}.

(** A row of the data frame once the [name] column is attached; the
    name is missing ([NaN]) for a package the mapping does not know. *)
Record FrameRow : Type := {
  pypi_name : string;
  total_downloads_alltime : Z;
  downloads_last_month : Z;
  downloads_last_year : Z;
  name : option string
}.

(** [d[k] = v] on a dictionary kept in insertion order. *)
Fixpoint dict_set (k v : string) (d : list (string * string)) : list (string * string) :=
  match d with
  | [] => [(k, v)]
  | (k', v') :: rest =>
      if String.eqb k k' then (k', v) :: rest
      else (k', v') :: dict_set k v rest
  end.

(** [d.get(k)]. *)
Fixpoint dict_get (k : string) (d : list (string * string)) : option string :=
  match d with
  | [] => None
  | (k', v) :: rest => if String.eqb k k' then Some v else dict_get k rest
  end.

(** [{lib['pypi_package']: lib['name'] for lib in libraries}]. *)
Definition package_to_name (libraries : list Library) : list (string * string) :=
  fold_left (fun d lib => dict_set (lib_pypi_package lib) (lib_name lib) d) libraries [].

(** ["', '".join([lib['pypi_package'] for lib in libraries])]. *)
Definition package_list (libraries : list Library) : string :=
  String.concat "', '" (map lib_pypi_package libraries).

Definition line_feed : string := String (Ascii.ascii_of_nat 10) "".

(** The text of the query, line by line. *)
Definition query (libraries : list Library) : string :=
  String.concat line_feed
    [""; "    SELECT";
     "        file.project as pypi_name,";
     "        COUNT(" ++ "*" ++ ") as total_downloads_alltime,";
     "        -- note four weeks are used so that it matches with the Github";
     "        COUNTIF(DATE(timestamp) BETWEEN DATE_SUB(CURRENT_DATE(), INTERVAL 4 WEEK) AND CURRENT_DATE()) AS downloads_last_month,";
     "        COUNTIF(DATE(timestamp) BETWEEN DATE_SUB(CURRENT_DATE(), INTERVAL 1 YEAR) AND CURRENT_DATE()) AS downloads_last_year";
     "    FROM `bigquery-public-data.pypi.file_downloads`";
     "    WHERE file.project IN ('" ++ package_list libraries ++ "')";
     "    GROUP BY 1";
     "    ORDER BY pypi_name, total_downloads_alltime DESC";
     "    "].

(** [df['name'] = df['pypi_name'].map(package_to_name)], on one row. *)
Definition attach_name (mapping : list (string * string)) (r : QueryRow) : FrameRow :=
  {| pypi_name := q_pypi_name r;
     total_downloads_alltime := q_total_downloads_alltime r;
     downloads_last_month := q_downloads_last_month r;
     downloads_last_year := q_downloads_last_year r;
     name := dict_get (q_pypi_name r) mapping |}.

(** [get_pypi_stats]: the client is built first, before anything is
    printed; [client.query(query).to_dataframe()] is one step. *)
Definition get_pypi_stats
  (bigquery_client : option string -> result (string -> result (list QueryRow)))
  (libraries : list Library) (gcp_project : option string) : M (list FrameRow) :=
  match bigquery_client gcp_project with
  | Raised e => raise e
  | Returned client =>
      print "Fetching PyPI download stats..." ;;
      match client (query libraries) with
      | Raised e => raise e
      | Returned df =>
          print ("Retrieved " ++ show_nat (List.length df) ++ " rows") ;;
          ret (map (attach_name (package_to_name libraries)) df)
      end
  end.

End pypi_etl.

(** The last entry of the [libraries] list that declares the package. *)
Definition last_declaring (package : string) (libraries : list Library) : option Library :=
  find (fun l => String.eqb (lib_pypi_package l) package) (rev libraries).

(** The calls a script made to the connector, after those of [w]. *)
Definition only_calls (allowed : call -> bool) (before after : World) : Prop :=
  exists made, calls after = (calls before ++ made)%list /\ forallb allowed made = true.

(** A call that opens, writes or commits: neither a rollback nor a
    close. *)
Definition opens_or_writes (c : call) : bool :=
  match c with
  | Connect | Execute _ | Commit => true
  | Rollback | CursorClose | ConnectionClose => false
  end.

(** A configuration as [github_repo_etl.load_config] requires it. *)
Definition github_configured (env : Env) : bool :=
  match config_json env with
  | Some _ => truthy (getenv env "GITHUB_TOKEN") && all_set (snowflake_of_env env)
  | None => false
  end.

(** A configuration as [load_public.load_config] requires it. *)
Definition public_configured (env : Env) : bool :=
  match config_json env with
  | Some _ => all_set (snowflake_of_env env)
  | None => false
  end.

(** A configuration as [pypi_etl.load_config] requires it. *)
Definition pypi_configured (env : Env) : bool :=
  match config_json env with
  | Some _ =>
      truthy (getenv env "GOOGLE_CLOUD_PROJECT") &&
      truthy (getenv env "GOOGLE_APPLICATION_CREDENTIALS") &&
      all_set (snowflake_of_env env)
  | None => false
  end.

(** Nothing but the printed lines differs between the two worlds. *)
Definition only_printed (w w' : World) : Prop :=
  committed w' = committed w /\ working w' = working w /\
  ticks w' = ticks w /\ calls w' = calls w.

(** The warehouse refuses the commit. *)
Definition commit_fails (c : call) : option string :=
  match c with
  | Commit => Some "commit refused"
  | _ => None
  end.

(** An environment in which the only configured library is unknown to
    GitHub and the warehouse refuses every call. *)
Definition ghost_only_env : Env :=
  {| autocommit := false;
     truncate_commits := false;
     fails := fun _ => Some "warehouse down";
     config_json := Some [ghost];
     getenv := fun _ => Some "set";
     get_repo := get_repo (sample_env false no_failure);
     get_contributors := get_contributors (sample_env false no_failure);
     get_commit_activity := get_commit_activity (sample_env false no_failure);
     now := fun n => Z.of_nat n |}.

(** The metrics of one library, as [get_repo_metrics] builds them. *)
Definition sample_metrics : github_repo_etl.Metrics :=
  {| github_repo_etl.library_name := "numpy";
     github_repo_etl.owner := "numpy";
     github_repo_etl.repo_name := "numpy";
     github_repo_etl.stars := 30;
     github_repo_etl.forks := 4;
     github_repo_etl.watchers := 30;
     github_repo_etl.open_issues := 2;
     github_repo_etl.language := Some "Python";
     github_repo_etl.size_kb := 100;
     github_repo_etl.created_at := Some "2010-09-13T23:02:39Z";
     github_repo_etl.updated_at := Some "2025-08-01T00:00:00Z";
     github_repo_etl.collected_at := 0;
     github_repo_etl.total_contributors := None;
     github_repo_etl.total_commits := None;
     github_repo_etl.commits_last_year := Some 12;
     github_repo_etl.commits_last_month := Some 11 |}.

(** An environment without [config.json]. *)
Definition unconfigured_env : Env :=
  {| autocommit := false;
     truncate_commits := false;
     fails := no_failure;
     config_json := None;
     getenv := fun _ => Some "set";
     get_repo := get_repo (sample_env false no_failure);
     get_contributors := get_contributors (sample_env false no_failure);
     get_commit_activity := get_commit_activity (sample_env false no_failure);
     now := fun n => Z.of_nat n |}.

(** The configuration [github_repo_etl.load_config] returns when it is
    complete. *)
Definition github_config (env : Env) (libraries : list Library) : github_repo_etl.Config :=
  {| github_repo_etl.github_token := getenv env "GITHUB_TOKEN";
     github_repo_etl.libraries := libraries;
     github_repo_etl.snowflake := snowflake_of_env env |}.

(** The rows of identity [n] that carry the largest marker of the
    identity, in storage order. *)
Definition maximal_rows {R : Type} (key : R -> string) (marker : R -> Z) (n : string) (rows : list R) : list R :=
  filter (is_max_in key marker rows) (of_identity key n rows).

(** Library A pulled three times: twice at time 1 and once, later, at
    time 2.  The tie is below the maximum. *)
Definition github_lower_tie : list Github.row :=
  [github_snapshot "A" 5 1; github_snapshot "A" 6 1; github_snapshot "A" 10 2].

(** The fifteen GitHub-sourced columns of the published row [o] hold
    the values of the GitHub row [g]. *)
Definition copies_github (g : Github.row) (o : Public.row) : Prop :=
  Public.name o = Github.name g /\
  Public.github_owner o = Github.github_owner g /\
  Public.github_repository_name o = Github.github_repository_name g /\
  Public.language o = Github.language g /\
  Public.stars o = Github.stars g /\
  Public.forks o = Github.forks g /\
  Public.watchers o = Github.watchers g /\
  Public.open_issues o = Github.open_issues g /\
  Public.size_kb o = Github.size_kb g /\
  Public.created_at o = Github.created_at g /\
  Public.updated_at o = Github.updated_at g /\
  Public.total_contributors o = Github.total_contributors g /\
  Public.total_commits o = Github.total_commits g /\
  Public.commits_last_year o = Github.commits_last_year g /\
  Public.commits_last_month o = Github.commits_last_month g.

(** The four registry-sourced columns of the published row [o] hold
    the values of the registry row [p]. *)
Definition copies_registry (p : Pypi.row) (o : Public.row) : Prop :=
  Public.pypi_name o = Some (Pypi.pypi_name p) /\
  Public.total_downloads_alltime o = Some (Pypi.total_downloads_alltime p) /\
  Public.downloads_last_year o = Some (Pypi.downloads_last_year p) /\
  Public.downloads_last_month o = Some (Pypi.downloads_last_month p).

(** The four registry-sourced columns of [o] are null. *)
Definition registry_null (o : Public.row) : Prop :=
  Public.pypi_name o = None /\
  Public.total_downloads_alltime o = None /\
  Public.downloads_last_year o = None /\
  Public.downloads_last_month o = None.

(** Library A pulled twice and library C once; the registry of
    [pypi_history] knows A and B, so C is known to GitHub only and B to
    the registry only. *)
Definition github_with_c : list Github.row :=
  [github_snapshot "A" 5 1; github_snapshot "A" 10 2; github_snapshot "C" 3 1].

(** The message of the error that leaves the [except] block of
    [load_to_snowflake] when the step that failed raised [msg]: [msg]
    again after a rollback that went through, the rollback's own
    message when the rollback failed. *)
Definition error_after_rollback (env : Env) (msg : string) : string :=
  match fails env Rollback with
  | Some rollback_msg => rollback_msg
  | None => msg
  end.

(** The connection is lost while the [INSERT ... SELECT] runs, and the
    rollback fails too. *)
Definition insert_and_rollback_fail (c : call) : option string :=
  match c with
  | Execute InsertSelectPublic => Some "connection lost"
  | Rollback => Some "rollback failed"
  | _ => None
  end.

(** The warehouse cannot be reached. *)
Definition connect_fails (c : call) : option string :=
  match c with
  | Connect => Some "warehouse unreachable"
  | _ => None
  end.

(** The code with which the orchestrator script ends when a phase ends
    in an outcome no [except Exception] catches: the code of a
    [SystemExit], and 1 after a [KeyboardInterrupt]. *)
Definition escape_code {A : Type} (r : result A) : Z :=
  match r with
  | Raised (SystemExit code) => code
  | _ => 1
  end.

(** The configuration of [sample_env] without a GitHub token: the
    warehouse credentials are all set. *)
Definition tokenless_env : Env :=
  {| autocommit := false;
     truncate_commits := false;
     fails := no_failure;
     config_json := Some [numpy; ghost];
     getenv := fun k => if String.eqb k "GITHUB_TOKEN" then None else Some "set";
     get_repo := get_repo (sample_env false no_failure);
     get_contributors := get_contributors (sample_env false no_failure);
     get_commit_activity := get_commit_activity (sample_env false no_failure);
     now := fun n => Z.of_nat n |}.

Definition pandas : Library :=
  {| lib_name := "pandas"; lib_github_owner := "pandas-dev";
     lib_github_repo := "pandas"; lib_pypi_package := "pandas" |}.

(** Three configured libraries, the second of which GitHub does not
    know; the clock starts at 100. *)
Definition three_library_env : Env :=
  {| autocommit := false;
     truncate_commits := false;
     fails := no_failure;
     config_json := Some [numpy; ghost; pandas];
     getenv := fun _ => Some "set";
     get_repo := fun token owner repo =>
       if String.eqb owner "nobody"
       then {| status_code := 404; json := empty_repo |}
       else get_repo (sample_env false no_failure) token "numpy" repo;
     get_contributors := get_contributors (sample_env false no_failure);
     get_commit_activity := get_commit_activity (sample_env false no_failure);
     now := fun n => 100 + Z.of_nat n |}.

(** A warehouse that already holds a snapshot of numpy, taken at time
    50 with 7 stars. *)
Definition seen_world : World :=
  let d := {| github_repo_metrics := [github_snapshot "numpy" 7 50; github_snapshot "A" 10 2];
              pypi_download_stats := pypi_history;
              tech_metrics := [] |} in
  {| committed := d; working := d; ticks := 0; calls := []; stdout := [] |}.


(* ================================================================= *)
(** * Properties *)

(** ** The Resolver *)
Section ResolverFacts.
Variable R : Type.
Variable key : R -> string.
Variable marker : R -> Z.

Lemma assoc_upsert_max (n' n : string) (v : Z) (groups : list (string * Z)) :
  assoc n' (upsert_max n v groups) =
  if String.eqb n' n then
    Some match assoc n groups with
         | Some m => Z.max m v
         | None => v
         end
  else assoc n' groups.
Proof.
  induction groups as [| [k m] rest IH]; simpl.
  - destruct (String.eqb n' n); reflexivity.
  - destruct (String.eqb n k) eqn:Hnk; simpl.
    + apply String.eqb_eq in Hnk. subst k.
      destruct (String.eqb n' n); reflexivity.
    + rewrite IH.
      destruct (String.eqb n' k) eqn:Hn'k; [| reflexivity].
      apply String.eqb_eq in Hn'k. subst k.
      destruct (String.eqb n' n) eqn:Hn'n; [| reflexivity].
      apply String.eqb_eq in Hn'n. subst n'.
      now rewrite String.eqb_refl in Hnk.
Qed.

Lemma keys_upsert_max (n : string) (v : Z) (groups : list (string * Z)) :
  forall k, In k (map fst (upsert_max n v groups)) <-> k = n \/ In k (map fst groups).
Proof.
  induction groups as [| [k' m] rest IH]; intro k; simpl.
  - intuition congruence.
  - destruct (String.eqb n k') eqn:Hnk; simpl.
    + apply String.eqb_eq in Hnk. subst k'. intuition congruence.
    + rewrite IH. intuition congruence.
Qed.

Lemma NoDup_upsert_max (n : string) (v : Z) (groups : list (string * Z)) :
  NoDup (map fst groups) -> NoDup (map fst (upsert_max n v groups)).
Proof.
  induction groups as [| [k m] rest IH]; simpl; intro Hnd.
  - constructor; [intros [] | constructor].
  - inversion Hnd as [| ? ? Hnotin Hrest]; subst.
    destruct (String.eqb n k) eqn:Hnk; simpl.
    + now constructor.
    + constructor; [| now apply IH].
      rewrite keys_upsert_max. intros [-> | Hin]; [| contradiction].
      now rewrite String.eqb_refl in Hnk.
Qed.

Lemma NoDup_max_by_group (rows : list R) :
  NoDup (map fst (max_by_group key marker rows)).
Proof.
  induction rows as [| r rest IH]; simpl.
  - constructor.
  - now apply NoDup_upsert_max.
Qed.

(** The derived table holds, for every identity, the largest marker of
    its rows. *)
Lemma assoc_max_by_group (n : string) (rows : list R) :
  assoc n (max_by_group key marker rows) = max_of key marker n rows.
Proof.
  induction rows as [| r rest IH]; simpl.
  - reflexivity.
  - rewrite assoc_upsert_max.
    destruct (String.eqb n (key r)) eqn:Hn; [| exact IH].
    apply String.eqb_eq in Hn. subst n. now rewrite IH.
Qed.

Lemma assoc_absent (n : string) (groups : list (string * Z)) :
  ~ In n (map fst groups) -> assoc n groups = None.
Proof.
  induction groups as [| [k m] rest IH]; simpl; intro Hnotin.
  - reflexivity.
  - destruct (String.eqb n k) eqn:Hnk.
    + apply String.eqb_eq in Hnk. subst k. exfalso. apply Hnotin. now left.
    + apply IH. intro Hin. apply Hnotin. now right.
Qed.

(** Against a derived table with one row per identity, a row of the
    table joins at most once. *)
Lemma join_one_row (r : R) (groups : list (string * Z)) :
  NoDup (map fst groups) ->
  flat_map (fun g => if on_latest key marker r g then [r] else []) groups =
  if match assoc (key r) groups with
     | Some m => marker r =? m
     | None => false
     end
  then [r] else [].
Proof.
  induction groups as [| [k m] rest IH]; simpl; intro Hnd.
  - reflexivity.
  - inversion Hnd as [| ? ? Hnotin Hrest]; subst.
    unfold on_latest at 1. simpl.
    destruct (String.eqb (key r) k) eqn:Hk; simpl.
    + apply String.eqb_eq in Hk. subst k.
      rewrite (IH Hrest), (assoc_absent _ _ Hnotin).
      destruct (marker r =? m); reflexivity.
    + exact (IH Hrest).
Qed.

Lemma flat_map_singleton_filter (A : Type) (p : A -> bool) (l : list A) :
  flat_map (fun x => if p x then [x] else []) l = filter p l.
Proof.
  induction l as [| x l IH]; simpl.
  - reflexivity.
  - rewrite IH. destruct (p x); reflexivity.
Qed.

Lemma max_of_bounds (n : string) (rows : list R) (m : Z) :
  max_of key marker n rows = Some m ->
  (exists r, In r rows /\ key r = n /\ marker r = m) /\
  (forall r, In r rows -> key r = n -> marker r <= m).
Proof.
  revert m. induction rows as [| r rest IH]; simpl; intros m Hm.
  - discriminate.
  - destruct (String.eqb n (key r)) eqn:Hn.
    + apply String.eqb_eq in Hn.
      destruct (max_of key marker n rest) as [m0 |] eqn:Hrest.
      * destruct (IH m0 eq_refl) as [[r0 (Hin & Hk & Hv)] Hle].
        inversion Hm; subst m. split.
        -- destruct (Z.max_spec m0 (marker r)) as [[_ ->] | [_ ->]].
           ++ exists r. auto.
           ++ exists r0. auto.
        -- intros r' [<- | Hin'] Hk'; [lia |].
           specialize (Hle r' Hin' Hk'). lia.
      * inversion Hm; subst m. split.
        -- exists r. auto.
        -- intros r' [<- | Hin'] Hk'; [lia |].
           exfalso. clear - Hrest Hin' Hk'.
           induction rest as [| x rest IH]; [destruct Hin' |].
           simpl in Hrest.
           destruct (String.eqb n (key x)) eqn:Hx; [discriminate |].
           destruct Hin' as [<- | Hin']; [| now apply IH].
           rewrite <- Hk', String.eqb_refl in Hx. discriminate.
    + destruct (IH m Hm) as [[r0 (Hin & Hk & Hv)] Hle]. split.
      * exists r0. auto.
      * intros r' [<- | Hin'] Hk'; [| now apply Hle].
        rewrite <- Hk', String.eqb_refl in Hn. discriminate.
Qed.

Lemma max_of_present (r : R) (rows : list R) :
  In r rows -> exists m, max_of key marker (key r) rows = Some m.
Proof.
  induction rows as [| x rest IH]; simpl; intro Hin.
  - destruct Hin.
  - destruct (String.eqb (key r) (key x)) eqn:Hk; [eauto |].
    destruct Hin as [-> | Hin]; [| now apply IH].
    now rewrite String.eqb_refl in Hk.
Qed.

Lemma is_max_in_spec (rows : list R) (r : R) :
  is_max_in key marker rows r = true <->
  forall r', In r' rows -> key r' = key r -> marker r' <= marker r.
Proof.
  unfold is_max_in. rewrite forallb_forall. split.
  - intros H r' Hin Hk. specialize (H r' Hin).
    apply String.eqb_eq in Hk. rewrite Hk in H. simpl in H. lia.
  - intros H r' Hin.
    destruct (String.eqb (key r') (key r)) eqn:Hk; simpl; [| reflexivity].
    apply String.eqb_eq in Hk. specialize (H r' Hin Hk). lia.
Qed.

(** The inner join keeps exactly the rows that carry the largest marker
    of their identity, each once and in storage order. *)
Lemma latest_filter (rows : list R) :
  latest key marker rows = filter (is_max_in key marker rows) rows.
Proof.
  unfold latest.
  rewrite (flat_map_ext _ _ (fun r => join_one_row r _ (NoDup_max_by_group rows))).
  rewrite flat_map_singleton_filter.
  apply filter_ext_in. intros r Hin.
  rewrite assoc_max_by_group.
  destruct (max_of_present r rows Hin) as [m Hm]. rewrite Hm.
  destruct (max_of_bounds _ _ _ Hm) as [[r0 (Hin0 & Hk0 & Hv0)] Hle].
  destruct (marker r =? m) eqn:Hv; symmetry.
  - apply Z.eqb_eq in Hv. apply is_max_in_spec.
    intros r' Hin' Hk'. rewrite Hv. now apply Hle.
  - apply Z.eqb_neq in Hv. apply not_true_is_false. intro Hmax.
    rewrite is_max_in_spec in Hmax.
    specialize (Hmax r0 Hin0 Hk0). specialize (Hle r Hin eq_refl). lia.
Qed.

Lemma In_latest (rows : list R) (r : R) :
  In r (latest key marker rows) <->
  In r rows /\ forall r', In r' rows -> key r' = key r -> marker r' <= marker r.
Proof.
  rewrite latest_filter, filter_In, is_max_in_spec. reflexivity.
Qed.

(** Every identity of the table is represented in the result. *)
Lemma latest_covers (rows : list R) (r : R) :
  In r rows -> exists r0, In r0 (latest key marker rows) /\ key r0 = key r.
Proof.
  intro Hin.
  destruct (max_of_present r rows Hin) as [m Hm].
  destruct (max_of_bounds _ _ _ Hm) as [[r0 (Hin0 & Hk0 & Hv0)] Hle].
  exists r0. split; [| exact Hk0].
  apply In_latest. split; [exact Hin0 |].
  intros r' Hin' Hk'. rewrite Hv0. apply Hle; congruence.
Qed.

Lemma of_identity_latest (n : string) (rows : list R) :
  of_identity key n (latest key marker rows) =
  filter (is_max_in key marker rows) (of_identity key n rows).
Proof.
  unfold of_identity. rewrite latest_filter.
  induction rows as [| r rest IH] in |- * at 2 4; simpl.
  - reflexivity.
  - destruct (is_max_in key marker rows r) eqn:Hmax,
             (String.eqb (key r) n) eqn:Hk; simpl;
      rewrite ?Hmax, ?Hk, IH; reflexivity.
Qed.

(** Rows whose markers are pairwise different cannot all carry one
    marker, unless there is at most one of them. *)
Lemma same_marker_at_most_one (c : Z) (l : list R) :
  NoDup (map marker l) ->
  (forall r, In r l -> marker r = c) ->
  (List.length l <= 1)%nat.
Proof.
  destruct l as [| a [| b l]]; simpl; intros Hnd Hc; try lia.
  exfalso. inversion Hnd as [| ? ? Hnotin _]; subst.
  apply Hnotin. left.
  rewrite (Hc a), (Hc b); auto.
Qed.

Lemma markers_distinct_filter (keep : R -> bool) (rows : list R) :
  NoDup (map marker rows) -> NoDup (map marker (filter keep rows)).
Proof.
  induction rows as [| r rest IH]; simpl; intro Hdistinct.
  - constructor.
  - apply NoDup_cons_iff in Hdistinct. destruct Hdistinct as [Hfresh Hrest].
    destruct (keep r); simpl; [| now apply IH].
    apply NoDup_cons; [| now apply IH].
    intro Hin. apply Hfresh.
    apply in_map_iff in Hin. destruct Hin as (r' & Hmarker & Hin).
    apply filter_In in Hin. apply in_map_iff. exists r'. tauto.
Qed.

(** Without ties on the marker inside an identity, the identity keeps
    at most one row. *)
Lemma latest_at_most_one (n : string) (rows : list R) :
  NoDup (map marker (of_identity key n rows)) ->
  (List.length (of_identity key n (latest key marker rows)) <= 1)%nat.
Proof.
  intro Hnd. rewrite of_identity_latest.
  destruct (max_of key marker n rows) as [m |] eqn:Hm.
  - apply (same_marker_at_most_one m).
    + now apply markers_distinct_filter.
    + intros r Hin. apply filter_In in Hin. destruct Hin as [Hin Hmax].
      unfold of_identity in Hin. apply filter_In in Hin.
      destruct Hin as [Hin Hk]. apply String.eqb_eq in Hk.
      destruct (max_of_bounds _ _ _ Hm) as [[r0 (Hin0 & Hk0 & Hv0)] Hle].
      rewrite is_max_in_spec in Hmax.
      specialize (Hmax r0 Hin0 ltac:(congruence)).
      specialize (Hle r Hin Hk). lia.
  - destruct (filter _ (of_identity key n rows)) as [| r l] eqn:Hf; simpl; [lia |].
    exfalso.
    assert (Hin : In r (filter (is_max_in key marker rows) (of_identity key n rows)))
      by (rewrite Hf; now left).
    apply filter_In in Hin. destruct Hin as [Hin _].
    unfold of_identity in Hin. apply filter_In in Hin.
    destruct Hin as [Hin Hk]. apply String.eqb_eq in Hk.
    destruct (max_of_present r rows Hin) as [m' Hm']. congruence.
Qed.

End ResolverFacts.

Lemma is_max_in_map (R : Type) (key : R -> string) (marker : R -> Z) (f : R -> R) (rows : list R) (r : R) :
  (forall x, key (f x) = key x) ->
  (forall x, marker (f x) = marker x) ->
  is_max_in key marker (map f rows) (f r) = is_max_in key marker rows r.
Proof.
  intros Hk Hm. unfold is_max_in.
  induction rows as [| x rest IH]; simpl.
  - reflexivity.
  - now rewrite IH, !Hk, !Hm.
Qed.

(** The selection looks at the identity and at the marker only: a
    change to any other column of the rows changes nothing in which
    rows are selected. *)
Lemma latest_map (R : Type) (key : R -> string) (marker : R -> Z) (f : R -> R) (rows : list R) :
  (forall x, key (f x) = key x) ->
  (forall x, marker (f x) = marker x) ->
  latest key marker (map f rows) = map f (latest key marker rows).
Proof.
  intros Hk Hm. rewrite !latest_filter.
  generalize rows at 1 3. intro all.
  induction rows as [| r rest IH]; simpl.
  - reflexivity.
  - rewrite (is_max_in_map _ _ _ _ _ _ Hk Hm).
    destruct (is_max_in key marker all r); simpl; now rewrite IH.
Qed.

(** The rows kept for an identity, for a table of any shape: exactly
    its rows that carry the largest marker; at most one exactly when at
    most one row carries it; and every row that carries it is kept. *)
Lemma latest_keeps_maximal_rows (R : Type) (key : R -> string) (marker : R -> Z) (rows : list R) (n : string) :
  of_identity key n (latest key marker rows) = maximal_rows key marker n rows /\
  ((List.length (of_identity key n (latest key marker rows)) <= 1)%nat <->
   (List.length (maximal_rows key marker n rows) <= 1)%nat) /\
  (forall r, In r rows -> key r = n ->
     (forall r', In r' rows -> key r' = n -> marker r' <= marker r) ->
     In r (of_identity key n (latest key marker rows))).
Proof.
  split; [apply of_identity_latest |]. split.
  - rewrite of_identity_latest. reflexivity.
  - intros r Hin Hk Hmax. unfold of_identity. apply filter_In. split.
    + apply In_latest. split; [exact Hin |].
      intros r' Hin' Hk'. apply Hmax; congruence.
    + now apply String.eqb_eq.
Qed.

(** C2, as amended.  For each source on its own, the rows the Resolver
    keeps for an identity are exactly the snapshot rows of the identity
    that carry its maximal recency marker ([collected_at] on the GitHub
    side, [downloads_last_year] on the registry side), in storage
    order.  So the output has at most one row for the identity exactly
    when at most one of its snapshot rows carries the maximum, whatever
    ties there are below the maximum or in the other source; and
    snapshot rows that tie on the maximum are all kept. *)
Theorem resolver_keeps_exactly_the_maximal_rows
  (github_repo_metrics : list Github.row) (pypi_download_stats : list Pypi.row) (n : string) :
  (of_identity Github.name n (latest_github github_repo_metrics) =
     maximal_rows Github.name Github.collected_at n github_repo_metrics /\
   ((List.length (of_identity Github.name n (latest_github github_repo_metrics)) <= 1)%nat <->
    (List.length (maximal_rows Github.name Github.collected_at n github_repo_metrics) <= 1)%nat) /\
   (forall r, In r github_repo_metrics -> Github.name r = n ->
      (forall r', In r' github_repo_metrics -> Github.name r' = n ->
         Github.collected_at r' <= Github.collected_at r) ->
      In r (of_identity Github.name n (latest_github github_repo_metrics)))) /\
  (of_identity Pypi.name n (latest_pypi pypi_download_stats) =
     maximal_rows Pypi.name Pypi.downloads_last_year n pypi_download_stats /\
   ((List.length (of_identity Pypi.name n (latest_pypi pypi_download_stats)) <= 1)%nat <->
    (List.length (maximal_rows Pypi.name Pypi.downloads_last_year n pypi_download_stats) <= 1)%nat) /\
   (forall r, In r pypi_download_stats -> Pypi.name r = n ->
      (forall r', In r' pypi_download_stats -> Pypi.name r' = n ->
         Pypi.downloads_last_year r' <= Pypi.downloads_last_year r) ->
      In r (of_identity Pypi.name n (latest_pypi pypi_download_stats)))).
Proof.
  split.
  - exact (latest_keeps_maximal_rows Github.row Github.name Github.collected_at
             github_repo_metrics n).
  - exact (latest_keeps_maximal_rows Pypi.row Pypi.name Pypi.downloads_last_year
             pypi_download_stats n).
Qed.

(** Library A with a tie below the maximum on the GitHub side and a tie
    on the maximum on the registry side: one row is kept on the GitHub
    side, and both tied rows on the registry side. *)
Lemma resolver_keeps_exactly_the_maximal_rows_witness :
  (List.length (maximal_rows Github.name Github.collected_at "A" github_lower_tie) <= 1)%nat /\
  (List.length (of_identity Github.name "A" (latest_github github_lower_tie)) <= 1)%nat /\
  of_identity Pypi.name "A" (latest_pypi pypi_tied) = pypi_tied.
Proof.
  assert (Hone : (List.length (maximal_rows Github.name Github.collected_at "A" github_lower_tie) <= 1)%nat)
    by (vm_compute; lia).
  destruct (resolver_keeps_exactly_the_maximal_rows github_lower_tie pypi_tied "A")
    as [(_ & Hcount & _) (Hrows & _ & _)].
  split; [exact Hone |]. split.
  - apply Hcount. exact Hone.
  - rewrite Hrows. reflexivity.
Defined.

(** C2, as stated, fails: two snapshot rows of one identity that tie on
    the recency marker are both kept, on either side. *)
Lemma resolver_keeps_tied_rows :
  ~ (List.length (of_identity Github.name "A" (latest_github github_tied)) <= 1)%nat /\
  ~ (List.length (of_identity Pypi.name "A" (latest_pypi pypi_tied)) <= 1)%nat.
Proof.
  split; intro H; vm_compute in H; lia.
Qed.

(** What the inner join selects for an identity that is present: some
    row, and only rows of that identity with the largest marker; a row
    with a smaller marker than another of its identity is not selected. *)
Lemma latest_selects_max (R : Type) (key : R -> string) (marker : R -> Z) (rows : list R) (n : string) :
  (exists r, In r rows /\ key r = n) ->
  (exists r, In r (of_identity key n (latest key marker rows))) /\
  (forall r, In r (of_identity key n (latest key marker rows)) ->
     In r rows /\ key r = n /\
     forall r', In r' rows -> key r' = n -> marker r' <= marker r) /\
  (forall older newer, In older rows -> In newer rows ->
     key older = n -> key newer = n -> marker older < marker newer ->
     ~ In older (latest key marker rows)).
Proof.
  intros (r & Hin & Hk). split; [| split].
  - destruct (latest_covers R key marker rows r Hin) as (r0 & Hin0 & Hk0).
    exists r0. unfold of_identity. apply filter_In. split; [exact Hin0 |].
    apply String.eqb_eq. congruence.
  - intros r0 Hin0. unfold of_identity in Hin0. apply filter_In in Hin0.
    destruct Hin0 as [Hin0 Hk0]. apply String.eqb_eq in Hk0.
    apply In_latest in Hin0. destruct Hin0 as [Hin0 Hmax].
    split; [exact Hin0 |]. split; [exact Hk0 |].
    intros r' Hin' Hk'. apply Hmax; congruence.
  - intros older newer Ho Hn Hko Hkn Hlt Hsel.
    apply In_latest in Hsel. destruct Hsel as [_ Hmax].
    specialize (Hmax newer Hn ltac:(congruence)). lia.
Qed.

(** C3.  For a GitHub snapshot history and an identity present in it,
    the Resolver selects a row for the identity; every row it selects
    for the identity is a snapshot row of that identity whose
    [collected_at] is the maximum over the identity's rows; and an
    older snapshot is superseded by a newer one of the same identity. *)
Theorem latest_github_selects_max_collected_at
  (github_repo_metrics : list Github.row) (n : string) :
  (exists r, In r github_repo_metrics /\ Github.name r = n) ->
  (exists r, In r (of_identity Github.name n (latest_github github_repo_metrics))) /\
  (forall r, In r (of_identity Github.name n (latest_github github_repo_metrics)) ->
     In r github_repo_metrics /\ Github.name r = n /\
     forall r', In r' github_repo_metrics -> Github.name r' = n ->
       Github.collected_at r' <= Github.collected_at r) /\
  (forall older newer, In older github_repo_metrics -> In newer github_repo_metrics ->
     Github.name older = n -> Github.name newer = n ->
     Github.collected_at older < Github.collected_at newer ->
     ~ In older (latest_github github_repo_metrics)).
Proof.
  exact (latest_selects_max Github.row Github.name Github.collected_at github_repo_metrics n).
Qed.

Lemma latest_github_selects_max_collected_at_witness :
  (exists r, In r github_history /\ Github.name r = "A") /\
  latest_github github_history = [github_snapshot "A" 10 2] /\
  ~ In (github_snapshot "A" 5 1) (latest_github github_history).
Proof.
  assert (Hpresent : exists r, In r github_history /\ Github.name r = "A").
  { exists (github_snapshot "A" 5 1). split; [now left | reflexivity]. }
  split; [exact Hpresent |]. split; [reflexivity |].
  destruct (latest_github_selects_max_collected_at github_history "A" Hpresent)
    as (_ & _ & Hsupersede).
  apply (Hsupersede (github_snapshot "A" 5 1) (github_snapshot "A" 10 2)).
  - now left.
  - right. now left.
  - reflexivity.
  - reflexivity.
  - reflexivity.
Defined.

(** C4.  For a registry snapshot history and an identity present in it,
    the Resolver selects a row for the identity; every row it selects
    for the identity is a snapshot row of that identity whose
    [downloads_last_year] is the maximum over the identity's rows.  The
    selection reads the identity and the trailing-year count only: it
    commutes with any change to the other columns. *)
Theorem latest_pypi_selects_max_downloads_last_year
  (pypi_download_stats : list Pypi.row) (n : string) :
  (exists r, In r pypi_download_stats /\ Pypi.name r = n) ->
  (exists r, In r (of_identity Pypi.name n (latest_pypi pypi_download_stats))) /\
  (forall r, In r (of_identity Pypi.name n (latest_pypi pypi_download_stats)) ->
     In r pypi_download_stats /\ Pypi.name r = n /\
     forall r', In r' pypi_download_stats -> Pypi.name r' = n ->
       Pypi.downloads_last_year r' <= Pypi.downloads_last_year r) /\
  (forall f : Pypi.row -> Pypi.row,
     (forall x, Pypi.name (f x) = Pypi.name x) ->
     (forall x, Pypi.downloads_last_year (f x) = Pypi.downloads_last_year x) ->
     latest_pypi (map f pypi_download_stats) = map f (latest_pypi pypi_download_stats)).
Proof.
  intro Hpresent.
  destruct (latest_selects_max Pypi.row Pypi.name Pypi.downloads_last_year
              pypi_download_stats n Hpresent) as (Hsome & Hmax & _).
  split; [exact Hsome |]. split; [exact Hmax |].
  intros f Hk Hm. now apply latest_map.
Qed.

Lemma latest_pypi_selects_max_downloads_last_year_witness :
  (exists r, In r pypi_history /\ Pypi.name r = "A") /\
  latest_pypi pypi_history = [pypi_snapshot "A" 1000 1000; pypi_snapshot "B" 50 50] /\
  (exists r, In r (of_identity Pypi.name "A" (latest_pypi pypi_history))).
Proof.
  assert (Hpresent : exists r, In r pypi_history /\ Pypi.name r = "A").
  { exists (pypi_snapshot "A" 900 900). split; [now left | reflexivity]. }
  split; [exact Hpresent |]. split; [reflexivity |].
  exact (proj1 (latest_pypi_selects_max_downloads_last_year pypi_history "A" Hpresent)).
Defined.

(** ** The Consolidator *)

Lemma filter_permutation (A : Type) (p : A -> bool) (l l' : list A) :
  Permutation l l' -> Permutation (filter p l) (filter p l').
Proof.
  induction 1 as [| x l l' _ IH | x y l | l l' l'' _ IH1 _ IH2]; simpl.
  - constructor.
  - destruct (p x); [now constructor | exact IH].
  - destruct (p x), (p y); try reflexivity. constructor.
  - now transitivity (filter p l').
Qed.

Lemma no_match_when_absent (n : string) (ps : list Pypi.row) :
  ~ In n (map Pypi.name ps) ->
  filter (fun p => String.eqb n (Pypi.name p)) ps = [].
Proof.
  induction ps as [| p rest IH]; simpl; intro Hnotin.
  - reflexivity.
  - destruct (String.eqb n (Pypi.name p)) eqn:Hn.
    + apply String.eqb_eq in Hn. exfalso. apply Hnotin. now left.
    + apply IH. intro Hin. apply Hnotin. now right.
Qed.

(** When the right side has one row per identity, the rows matching a
    left row are the one [find] returns, if any. *)
Lemma matches_find (n : string) (ps : list Pypi.row) :
  NoDup (map Pypi.name ps) ->
  filter (fun p => String.eqb n (Pypi.name p)) ps =
  match find (fun p => String.eqb n (Pypi.name p)) ps with
  | Some p => [p]
  | None => []
  end.
Proof.
  induction ps as [| p rest IH]; simpl; intro Hnd.
  - reflexivity.
  - inversion Hnd as [| ? ? Hnotin Hrest]; subst.
    destruct (String.eqb n (Pypi.name p)) eqn:Hn.
    + apply String.eqb_eq in Hn. subst n.
      now rewrite no_match_when_absent.
    + now apply IH.
Qed.

Lemma left_join_of_mapping (gs : list Github.row) (ps : list Pypi.row) :
  NoDup (map Pypi.name ps) ->
  left_join gs ps =
  map (fun g => (g, find (fun p => String.eqb (Github.name g) (Pypi.name p)) ps)) gs.
Proof.
  intro Hnd. unfold left_join.
  rewrite flat_map_ext with
    (g := fun g => [(g, find (fun p => String.eqb (Github.name g) (Pypi.name p)) ps)]).
  - induction gs as [| g rest IH]; simpl; [reflexivity | now rewrite IH].
  - intro g. rewrite (matches_find _ _ Hnd).
    destruct (find _ ps); reflexivity.
Qed.

Lemma name_select_row (g : Github.row) (p : option Pypi.row) :
  Public.name (select_row g p) = Github.name g.
Proof. reflexivity. Qed.

(** Every joined row carries the identity of a left row. *)
Lemma left_join_names (gs : list Github.row) (ps : list Pypi.row) (gp : Github.row * option Pypi.row) :
  In gp (left_join gs ps) -> In (fst gp) gs.
Proof.
  unfold left_join. rewrite in_flat_map. intros (g & Hg & Hin).
  destruct (filter _ ps) as [| p matches].
  - destruct Hin as [<- | []]. exact Hg.
  - apply in_map_iff in Hin. destruct Hin as (q & <- & _). exact Hg.
Qed.

Lemma published_for_consolidate (n : string) (gs : list Github.row) (ps : list Pypi.row) :
  Permutation
    (published_for n (map (fun gp => select_row (fst gp) (snd gp)) (left_join gs ps)))
    (published_for n (consolidate gs ps)).
Proof.
  unfold published_for, consolidate.
  apply filter_permutation, NameSort.Permuted_sort.
Qed.

Lemma single_row_of_identity (g : Github.row) (gs : list Github.row) (f : Github.row -> Public.row) :
  (forall x, Public.name (f x) = Github.name x) ->
  NoDup (map Github.name gs) ->
  In g gs ->
  published_for (Github.name g) (map f gs) = [f g].
Proof.
  intros Hname. unfold published_for.
  induction gs as [| x rest IH]; simpl; intros Hnd Hin.
  - destruct Hin.
  - inversion Hnd as [| ? ? Hnotin Hrest]; subst.
    rewrite Hname.
    destruct Hin as [-> | Hin].
    + rewrite String.eqb_refl. f_equal.
      clear - Hnotin Hname.
      induction rest as [| y rest IH]; simpl; [reflexivity |].
      rewrite Hname.
      destruct (String.eqb (Github.name y) (Github.name g)) eqn:Hy.
      * apply String.eqb_eq in Hy. exfalso. apply Hnotin. now left.
      * apply IH. intro Hin. apply Hnotin. now right.
    + destruct (String.eqb (Github.name x) (Github.name g)) eqn:Hx.
      * apply String.eqb_eq in Hx. exfalso. apply Hnotin.
        rewrite Hx. now apply in_map.
      * now apply IH.
Qed.

(** Whatever the two sides hold, an identity absent from the left side
    has no output row. *)
Lemma consolidate_drops_absent_identities (gs : list Github.row) (ps : list Pypi.row) (n : string) :
  ~ In n (map Github.name gs) -> published_for n (consolidate gs ps) = [].
Proof.
  intro Hnotin.
  apply Permutation_nil. rewrite <- published_for_consolidate.
  unfold published_for.
  destruct (filter _ _) as [| o l] eqn:Hf; [reflexivity |].
  exfalso.
  assert (Hin : In o (filter (fun o => String.eqb (Public.name o) n)
                        (map (fun gp => select_row (fst gp) (snd gp)) (left_join gs ps))))
    by (rewrite Hf; now left).
  apply filter_In in Hin. destruct Hin as [Hin Hn].
  apply String.eqb_eq in Hn.
  apply in_map_iff in Hin. destruct Hin as (gp & <- & Hgp).
  apply left_join_names in Hgp. apply Hnotin.
  rewrite <- Hn, name_select_row. now apply in_map.
Qed.

(** Whatever the two sides hold, every left row is emitted, joined to
    a registry row of its identity or to none. *)
Lemma consolidate_emits_every_left_row (gs : list Github.row) (ps : list Pypi.row) (g : Github.row) :
  In g gs ->
  exists p,
    In (select_row g p) (consolidate gs ps) /\
    match p with
    | Some r => In r ps /\ Pypi.name r = Github.name g
    | None => ~ In (Github.name g) (map Pypi.name ps)
    end.
Proof.
  intro Hin.
  assert (Hjoin : exists p, In (g, p) (left_join gs ps) /\
                    match p with
                    | Some r => In r ps /\ Pypi.name r = Github.name g
                    | None => ~ In (Github.name g) (map Pypi.name ps)
                    end).
  { unfold left_join.
    destruct (filter (fun p => String.eqb (Github.name g) (Pypi.name p)) ps)
      as [| r matches] eqn:Hmatches.
    - exists None. split.
      + apply in_flat_map. exists g. split; [exact Hin |]. rewrite Hmatches. now left.
      + intro Hname. apply in_map_iff in Hname. destruct Hname as (r & Hr & Hinr).
        assert (Hin' : In r (filter (fun p => String.eqb (Github.name g) (Pypi.name p)) ps)).
        { apply filter_In. split; [exact Hinr |]. apply String.eqb_eq. now symmetry. }
        rewrite Hmatches in Hin'. destruct Hin'.
    - exists (Some r). split.
      + apply in_flat_map. exists g. split; [exact Hin |]. rewrite Hmatches. now left.
      + assert (Hin' : In r (filter (fun p => String.eqb (Github.name g) (Pypi.name p)) ps))
          by (rewrite Hmatches; now left).
        apply filter_In in Hin'. destruct Hin' as [Hinr Hname].
        apply String.eqb_eq in Hname. split; [exact Hinr | now symmetry]. }
  destruct Hjoin as (p & Hp & Hmatch). exists p. split; [| exact Hmatch].
  unfold consolidate.
  apply (Permutation_in _ (NameSort.Permuted_sort _)).
  apply in_map_iff. exists (g, p). split; [reflexivity | exact Hp].
Qed.

(** The select list copies its columns one by one: the fifteen GitHub
    columns from the left row, and the four registry columns from the
    right row, or nulls when there is none. *)
Lemma select_row_columns (g : Github.row) (p : option Pypi.row) :
  copies_github g (select_row g p) /\
  match p with
  | Some r => copies_registry r (select_row g p)
  | None => registry_null (select_row g p)
  end.
Proof.
  split.
  - unfold copies_github. repeat split; reflexivity.
  - destruct p as [r |].
    + unfold copies_registry. repeat split; reflexivity.
    + unfold registry_null. repeat split; reflexivity.
Qed.

(** The one registry row of an identity, when the registry side has
    one row per identity. *)
Lemma find_the_match (ps : list Pypi.row) (n : string) (p : Pypi.row) :
  NoDup (map Pypi.name ps) ->
  In p ps -> Pypi.name p = n ->
  find (fun q => String.eqb n (Pypi.name q)) ps = Some p.
Proof.
  intros Hp Hinp Hname.
  assert (Hsingle := matches_find n ps Hp).
  assert (Hinp' : In p (filter (fun q => String.eqb n (Pypi.name q)) ps)).
  { apply filter_In. split; [exact Hinp |]. apply String.eqb_eq. congruence. }
  rewrite Hsingle in Hinp'.
  destruct (find _ ps) as [q |]; [| destruct Hinp'].
  destruct Hinp' as [-> | []]. reflexivity.
Qed.

(** C5.  Over a GitHub-side and a registry-side latest mapping (one row
    per identity on each side), the Consolidator is a left outer join on
    the identity.  An identity of the GitHub side yields exactly one
    output row.  Each of the fifteen GitHub-sourced columns of that row
    holds the value of the GitHub row; when the registry has the
    identity, each of the four registry-sourced columns holds the value
    of the registry row, and otherwise all four are null.  An identity
    absent from the GitHub side yields no output row, whether the
    registry has it or not. *)
Theorem consolidate_is_left_outer_join (gs : list Github.row) (ps : list Pypi.row) :
  NoDup (map Github.name gs) ->
  NoDup (map Pypi.name ps) ->
  (forall g, In g gs ->
     exists o, published_for (Github.name g) (consolidate gs ps) = [o] /\
       copies_github g o /\
       (forall p, In p ps -> Pypi.name p = Github.name g -> copies_registry p o) /\
       (~ In (Github.name g) (map Pypi.name ps) -> registry_null o)) /\
  (forall n, ~ In n (map Github.name gs) -> published_for n (consolidate gs ps) = []).
Proof.
  intros Hg Hp. split.
  - intros g Hin.
    set (pick := fun g => find (fun p => String.eqb (Github.name g) (Pypi.name p)) ps).
    exists (select_row g (pick g)). split.
    + apply Permutation_length_1_inv.
      rewrite <- published_for_consolidate, (left_join_of_mapping _ _ Hp), map_map.
      change (map _ gs) with (map (fun x => select_row x (pick x)) gs).
      now rewrite (single_row_of_identity g gs (fun x => select_row x (pick x))).
    + split; [exact (proj1 (select_row_columns g (pick g))) |].
      pose proof (proj2 (select_row_columns g (pick g))) as Hcolumns.
      split.
      * intros p Hinp Hname.
        assert (Hpick : pick g = Some p) by (apply find_the_match; assumption).
        rewrite Hpick in Hcolumns. rewrite Hpick. exact Hcolumns.
      * intro Hnotin.
        destruct (pick g) as [q |] eqn:Hfind; [| exact Hcolumns].
        exfalso. apply find_some in Hfind. destruct Hfind as [Hinq Hq].
        apply String.eqb_eq in Hq. apply Hnotin. rewrite Hq. now apply in_map.
  - intros n Hnotin. now apply consolidate_drops_absent_identities.
Qed.

(** A known to both sides, C to GitHub only, B to the registry only:
    A is published with the registry's counts, C with nulls in the
    registry columns, and B is not published. *)
Lemma consolidate_is_left_outer_join_witness :
  NoDup (map Github.name (latest_github github_with_c)) /\
  NoDup (map Pypi.name (latest_pypi pypi_history)) /\
  (exists o, published_for "A" (combined_query github_with_c pypi_history) = [o] /\
             Public.stars o = 10 /\
             Public.downloads_last_year o = Some 1000) /\
  (exists o, published_for "C" (combined_query github_with_c pypi_history) = [o] /\
             Public.stars o = 3 /\
             registry_fields o = (None, None, None, None)) /\
  published_for "B" (combined_query github_with_c pypi_history) = [].
Proof.
  assert (Hg : NoDup (map Github.name (latest_github github_with_c))).
  { vm_compute. repeat constructor; simpl; intuition discriminate. }
  assert (Hp : NoDup (map Pypi.name (latest_pypi pypi_history))).
  { vm_compute. repeat constructor; simpl; intuition discriminate. }
  split; [exact Hg |]. split; [exact Hp |].
  destruct (consolidate_is_left_outer_join _ _ Hg Hp) as [Hleft Hdropped].
  split; [| split].
  - destruct (Hleft (github_snapshot "A" 10 2)) as (o & Ho & Hgithub & Hregistry & _).
    { vm_compute. auto. }
    exists o. split; [exact Ho |].
    destruct Hgithub as (_ & _ & _ & _ & Hstars & _).
    destruct (Hregistry (pypi_snapshot "A" 1000 1000)) as (_ & _ & Hyear & _).
    { vm_compute. auto. }
    { reflexivity. }
    split; [exact Hstars | exact Hyear].
  - destruct (Hleft (github_snapshot "C" 3 1)) as (o & Ho & Hgithub & _ & Hnull).
    { vm_compute. auto. }
    exists o. split; [exact Ho |].
    destruct Hgithub as (_ & _ & _ & _ & Hstars & _).
    destruct Hnull as (Hn1 & Hn2 & Hn3 & Hn4).
    { vm_compute. intuition discriminate. }
    split; [exact Hstars |].
    unfold registry_fields. now rewrite Hn1, Hn2, Hn3, Hn4.
  - apply Hdropped. vm_compute. intuition discriminate.
Defined.

(** The example of the specification: A pulled at two times, A and B in
    the registry, B unknown to GitHub.  One row is published, for A,
    with the stars of the newer pull and the registry's counts. *)
Example published_example :
  combined_query github_history pypi_history =
    [select_row (github_snapshot "A" 10 2) (Some (pypi_snapshot "A" 1000 1000))].
Proof. reflexivity. Qed.

(** Outside the premise of C5, when the registry side keeps two tied
    rows of an identity, the join emits the identity twice. *)
Example tied_registry_rows_repeat_the_identity :
  List.length (published_for "A" (combined_query github_history pypi_tied)) = 2%nat.
Proof. reflexivity. Qed.

Lemma Sorted_consecutive (A : Type) (le : A -> A -> Prop) (l : list A) :
  Sorted le l ->
  forall i a b, nth_error l i = Some a -> nth_error l (S i) = Some b -> le a b.
Proof.
  induction 1 as [| x l Hsorted IH Hhd]; intros i a b Ha Hb.
  - destruct i; discriminate.
  - destruct i as [| i]; simpl in Ha, Hb.
    + inversion Ha; subst x.
      destruct l as [| y l]; [discriminate |].
      simpl in Hb. inversion Hb; subst y.
      now inversion Hhd.
    + exact (IH i a b Ha Hb).
Qed.

(** C7.  The Consolidator emits its rows in ascending order of the
    identity: of two consecutive rows, the first one's identity is less
    than or equal to the second one's. *)
Theorem consolidate_ordered_by_name
  (gs : list Github.row) (ps : list Pypi.row) (i : nat) (a b : Public.row) :
  nth_error (consolidate gs ps) i = Some a ->
  nth_error (consolidate gs ps) (S i) = Some b ->
  String.leb (Public.name a) (Public.name b) = true.
Proof.
  intros Ha Hb.
  apply (Sorted_consecutive _ (fun x y => is_true (NameOrder.leb x y))
           (consolidate gs ps) (NameSort.Sorted_sort _) i a b Ha Hb).
Qed.

Lemma consolidate_ordered_by_name_witness :
  consolidate [github_snapshot "B" 1 1; github_snapshot "A" 2 1] [] =
    [select_row (github_snapshot "A" 2 1) None; select_row (github_snapshot "B" 1 1) None] /\
  String.leb "A" "B" = true.
Proof.
  split; [reflexivity |].
  exact (consolidate_ordered_by_name
           [github_snapshot "B" 1 1; github_snapshot "A" 2 1] [] 0
           (select_row (github_snapshot "A" 2 1) None)
           (select_row (github_snapshot "B" 1 1) None)
           eq_refl eq_refl).
Defined.

(** ** The Publisher *)

Ltac run_publisher :=
  unfold load_public.load_to_snowflake, load_public.publish_body,
    load_public.publish_handler, first_failure, error_after_rollback, published,
    connect, execute, commit, rollback, cursor_close, conn_close, print,
    bind, try_except, try_finally, ret, raise, commits_at_once in *;
  simpl in *.

(** The paths through [load_to_snowflake]: by the call that fails
    first and, when a step of the [try] block failed, by the outcome of
    the rollback. *)
Ltac publisher_paths env :=
  destruct (fails env Connect); simpl in *;
  [| destruct (fails env (Execute TruncatePublic)); simpl in *;
     [destruct (fails env Rollback); simpl in *
     | destruct (fails env (Execute InsertSelectPublic)); simpl in *;
       [destruct (fails env Rollback); simpl in *
       | destruct (fails env Commit); simpl in *;
         [destruct (fails env Rollback); simpl in * |]]]].

(** A run that returns has committed the result of the combined query
    over the committed snapshots, and has left the snapshots alone. *)
Lemma load_to_snowflake_returned (env : Env) (cfg : SnowflakeConfig) (w : World) :
  fst (load_public.load_to_snowflake env cfg w) = Returned tt ->
  committed (snd (load_public.load_to_snowflake env cfg w)) =
    {| github_repo_metrics := github_repo_metrics (committed w);
       pypi_download_stats := pypi_download_stats (committed w);
       tech_metrics :=
         combined_query (github_repo_metrics (committed w)) (pypi_download_stats (committed w)) |}.
Proof.
  run_publisher. publisher_paths env; intro H; try discriminate H.
  reflexivity.
Qed.

(** A run without failure returns. *)
Lemma load_to_snowflake_returns (env : Env) (cfg : SnowflakeConfig) (w : World) :
  fails env Connect = None ->
  first_failure env = None ->
  fst (load_public.load_to_snowflake env cfg w) = Returned tt.
Proof.
  run_publisher. intros Hconnect Hnone.
  publisher_paths env; try discriminate Hconnect; try discriminate Hnone.
  reflexivity.
Qed.

(** What a run does when a step of the [try] block fails: the steps up
    to the failing one, each once, then one rollback and the two
    closes; the error raised is the one of the failing step when the
    rollback went through, and the rollback's own otherwise. *)
Lemma load_to_snowflake_fails (env : Env) (cfg : SnowflakeConfig) (w : World) (msg : string) :
  fails env Connect = None ->
  first_failure env = Some msg ->
  fst (load_public.load_to_snowflake env cfg w) =
    Raised (Exception (error_after_rollback env msg)) /\
  exists attempted,
    calls (snd (load_public.load_to_snowflake env cfg w)) =
      (calls w ++ [Connect] ++ attempted ++ [Rollback; CursorClose; ConnectionClose])%list /\
    (attempted = [Execute TruncatePublic] \/
     attempted = [Execute TruncatePublic; Execute InsertSelectPublic] \/
     attempted = [Execute TruncatePublic; Execute InsertSelectPublic; Commit]).
Proof.
  run_publisher. intros Hconnect Hfail.
  publisher_paths env; try discriminate Hconnect; try discriminate Hfail;
    inversion Hfail; subst; (split; [reflexivity |]).
  1, 2: exists [Execute TruncatePublic]; rewrite <- !app_assoc; simpl; auto.
  1, 2: exists [Execute TruncatePublic; Execute InsertSelectPublic];
        rewrite <- !app_assoc; simpl; auto.
  1, 2: exists [Execute TruncatePublic; Execute InsertSelectPublic; Commit];
        rewrite <- !app_assoc; simpl; auto.
Qed.

(** A run that cannot open its connection raises the error of
    [connect] after this one call: the [try] block is not entered, so
    nothing is rolled back or closed. *)
Lemma load_to_snowflake_connect_fails (env : Env) (cfg : SnowflakeConfig) (w : World) (msg : string) :
  fails env Connect = Some msg ->
  fst (load_public.load_to_snowflake env cfg w) = Raised (Exception msg) /\
  calls (snd (load_public.load_to_snowflake env cfg w)) = (calls w ++ [Connect])%list.
Proof.
  run_publisher. intros ->. simpl. split; reflexivity.
Qed.

(** In a session where nothing commits before [conn.commit()], a
    failing run leaves the committed warehouse as it was. *)
Lemma load_to_snowflake_atomic_in_one_transaction (env : Env) (cfg : SnowflakeConfig) (w : World) (msg : string) :
  autocommit env = false ->
  truncate_commits env = false ->
  fails env Connect = None ->
  first_failure env = Some msg ->
  committed (snd (load_public.load_to_snowflake env cfg w)) = committed w.
Proof.
  run_publisher. intros -> -> Hconnect Hfail. simpl.
  publisher_paths env; try discriminate Hconnect; try discriminate Hfail; reflexivity.
Qed.

(** In a session where statements commit on their own, or where the
    truncation does, a failure of the insert leaves the published table
    empty: the rollback has nothing left to undo. *)
Lemma load_to_snowflake_not_undone_when_truncate_commits (env : Env) (cfg : SnowflakeConfig) (w : World) (msg : string) :
  autocommit env || truncate_commits env = true ->
  fails env Connect = None ->
  fails env (Execute TruncatePublic) = None ->
  fails env (Execute InsertSelectPublic) = Some msg ->
  published (snd (load_public.load_to_snowflake env cfg w)) = [].
Proof.
  run_publisher. intros Hmode -> -> ->. simpl.
  destruct (fails env Rollback); simpl;
    (destruct (autocommit env); simpl in *; [reflexivity |]);
    rewrite Hmode; reflexivity.
Qed.

(** C1.  The connection is opened with the credentials only and the
    script never leaves the connector's commit mode, in which every
    statement commits on its own.  In that mode, with one row published
    and a connection lost during the insert, the run raises, the
    rollback is called, and the published table is left empty instead
    of holding the row it held before the run.  The same run in a
    session that commits on [conn.commit()] only leaves the table as it
    was. *)
Theorem load_to_snowflake_failure_leaves_table_empty :
  fst (load_public.load_to_snowflake (sample_env true insert_fails) sample_credentials sample_world) =
    Raised (Exception "connection lost") /\
  In Rollback (calls (snd (load_public.load_to_snowflake (sample_env true insert_fails) sample_credentials sample_world))) /\
  published sample_world = [select_row (github_snapshot "A" 5 1) None] /\
  published (snd (load_public.load_to_snowflake (sample_env true insert_fails) sample_credentials sample_world)) = [] /\
  published (snd (load_public.load_to_snowflake (sample_env false insert_fails) sample_credentials sample_world)) =
    published sample_world.
Proof.
  split; [reflexivity |]. split; [| repeat split; reflexivity].
  vm_compute. tauto.
Qed.

(** C6.  Two runs of the Publisher in succession, both completing, with
    no change to the snapshots in between: the published table after the
    second run is the table the first run produced, and the snapshots
    are untouched. *)
Theorem load_to_snowflake_idempotent
  (env1 env2 : Env) (cfg1 cfg2 : SnowflakeConfig) (w : World) :
  fst (load_public.load_to_snowflake env1 cfg1 w) = Returned tt ->
  fst (load_public.load_to_snowflake env2 cfg2 (snd (load_public.load_to_snowflake env1 cfg1 w))) = Returned tt ->
  published (snd (load_public.load_to_snowflake env2 cfg2 (snd (load_public.load_to_snowflake env1 cfg1 w)))) =
    published (snd (load_public.load_to_snowflake env1 cfg1 w)) /\
  committed (snd (load_public.load_to_snowflake env2 cfg2 (snd (load_public.load_to_snowflake env1 cfg1 w)))) =
    committed (snd (load_public.load_to_snowflake env1 cfg1 w)).
Proof.
  intros H1 H2.
  pose proof (load_to_snowflake_returned env1 cfg1 w H1) as E1.
  pose proof (load_to_snowflake_returned env2 cfg2 _ H2) as E2.
  unfold published. rewrite E2, E1. simpl. split; reflexivity.
Qed.

Lemma load_to_snowflake_idempotent_witness :
  fst (load_public.load_to_snowflake (sample_env false no_failure) sample_credentials sample_world) = Returned tt /\
  published (snd (load_public.load_to_snowflake (sample_env true no_failure) sample_credentials
                    (snd (load_public.load_to_snowflake (sample_env false no_failure) sample_credentials sample_world)))) =
    published (snd (load_public.load_to_snowflake (sample_env false no_failure) sample_credentials sample_world)).
Proof.
  split; [reflexivity |].
  exact (proj1 (load_to_snowflake_idempotent
                  (sample_env false no_failure) (sample_env true no_failure)
                  sample_credentials sample_credentials sample_world
                  eq_refl eq_refl)).
Defined.

(** [load_to_snowflake] ends by returning or by raising an [Exception]. *)
Lemma load_to_snowflake_outcome (env : Env) (cfg : SnowflakeConfig) (w : World) :
  fst (load_public.load_to_snowflake env cfg w) = Returned tt \/
  exists msg, fst (load_public.load_to_snowflake env cfg w) = Raised (Exception msg).
Proof.
  run_publisher. publisher_paths env; eauto.
Qed.

(** [load_public.main] exits with code 1 on a missing configuration and
    otherwise ends as [load_to_snowflake] does. *)
Lemma load_public_main_outcome (env : Env) (w : World) :
  fst (load_public.main env w) = Raised (SystemExit 1) \/
  fst (load_public.main env w) =
    fst (load_public.load_to_snowflake env (snowflake_of_env env) w).
Proof.
  unfold load_public.main, load_public.load_config, bind, exit, raise, print, ret.
  destruct (config_json env); simpl; [| now left].
  destruct (all_set (snowflake_of_env env)); simpl; [| now left].
  right.
  destruct (load_public.load_to_snowflake env (snowflake_of_env env) w)
    as [[[] | e] w']; reflexivity.
Qed.

(** ** The orchestrator *)
Section OrchestratorFacts.
Variable env : Env.
Variable github_main : M unit.
Variable pypi_main : M unit.
Variable load_public_main : M unit.

Ltac step_orchestrator :=
  cbv beta iota zeta delta
    [fst snd bind ret raise try_except main_py.lift main_py.log main_py.sys_exit
     main_py.script main_py.main
     main_py.run_github_etl main_py.run_pypi_etl main_py.run_load_public
     datetime_now print main_py.world main_py.etl_orchestrator_log
     main_py.github_success main_py.pypi_success main_py.combine_success
     main_py.all_values committed working ticks calls stdout
     succeeded caught exit_status escape_code only_printed negb andb].

(** A record is in a log built by appending records one at a time. *)
Ltac find_logged :=
  first [ now (apply in_or_app; right; left)
        | apply in_or_app; left; find_logged ].

(** The exit status of the script, by the outcomes of the three phases,
    each run in the world its predecessor left. *)
Lemma script_exit_status (p : main_py.Process) :
  let g := github_main (snd (datetime_now env (main_py.world p))) in
  let y := pypi_main (snd g) in
  let c := load_public_main (snd y) in
  exit_status (fst (main_py.script env github_main pypi_main load_public_main p)) =
    match fst g with
    | Raised (SystemExit code) => code mod 256
    | Raised KeyboardInterrupt => 1
    | _ =>
        match fst y with
        | Raised (SystemExit code) => code mod 256
        | Raised KeyboardInterrupt => 1
        | _ =>
            match fst c with
            | Raised (SystemExit code) => code mod 256
            | Raised KeyboardInterrupt => 1
            | _ => if succeeded (fst g) && succeeded (fst y) && succeeded (fst c) then 0 else 1
            end
        end
    end.
Proof.
  step_orchestrator.
  destruct (github_main _) as [[[] | [m1 | c1 |]] w1];
    step_orchestrator; try reflexivity;
    destruct (pypi_main w1) as [[[] | [m2 | c2 |]] w2];
    step_orchestrator; try reflexivity;
    destruct (load_public_main w2) as [[[] | [m3 | c3 |]] w3];
    step_orchestrator; reflexivity.
Qed.

(** When no phase ends in [SystemExit] or [KeyboardInterrupt], the
    script runs the three phases in sequence, each in the world its
    predecessor left, logs the start of each, and exits through
    [sys.exit]. *)
Lemma script_runs_all_phases (p : main_py.Process) :
  let g := github_main (snd (datetime_now env (main_py.world p))) in
  let y := pypi_main (snd g) in
  let c := load_public_main (snd y) in
  caught (fst g) -> caught (fst y) -> caught (fst c) ->
  fst (main_py.script env github_main pypi_main load_public_main p) =
    Raised (SystemExit (if succeeded (fst g) && succeeded (fst y) && succeeded (fst c) then 0 else 1)) /\
  main_py.world (snd (main_py.script env github_main pypi_main load_public_main p)) =
    snd (datetime_now env (snd c)) /\
  incl [(main_py.INFO, "Starting GitHub ETL process...");
        (main_py.INFO, "Starting PyPI ETL process...");
        (main_py.INFO, "Starting metrics combination ETL process...")]
       (main_py.etl_orchestrator_log
          (snd (main_py.script env github_main pypi_main load_public_main p))).
Proof.
  step_orchestrator.
  destruct (github_main _) as [[[] | [m1 | c1 |]] w1];
    step_orchestrator; try contradiction;
    destruct (pypi_main w1) as [[[] | [m2 | c2 |]] w2];
    step_orchestrator; try contradiction;
    destruct (load_public_main w2) as [[[] | [m3 | c3 |]] w3];
    step_orchestrator; try contradiction;
    intros _ _ _; (split; [reflexivity |]); (split; [reflexivity |]);
    intros x [<- | [<- | [<- | []]]]; find_logged.
Qed.

(** An outcome of the first phase that [except Exception] does not
    catch ends the script: the phases after it are not run. *)
Lemma script_escapes_phase_1 (p : main_py.Process) :
  let g := github_main (snd (datetime_now env (main_py.world p))) in
  let run := main_py.script env github_main pypi_main load_public_main p in
  ~ caught (fst g) ->
  fst run = Raised (SystemExit (escape_code (fst g))) /\
  only_printed (snd g) (main_py.world (snd run)).
Proof.
  step_orchestrator.
  destruct (github_main _) as [[[] | [m1 | c1 |]] w1]; step_orchestrator;
    intro H; try (exfalso; apply H; exact I); now repeat split.
Qed.

Lemma script_escapes_phase_2 (p : main_py.Process) :
  let g := github_main (snd (datetime_now env (main_py.world p))) in
  let y := pypi_main (snd g) in
  let run := main_py.script env github_main pypi_main load_public_main p in
  caught (fst g) -> ~ caught (fst y) ->
  fst run = Raised (SystemExit (escape_code (fst y))) /\
  only_printed (snd y) (main_py.world (snd run)).
Proof.
  step_orchestrator.
  destruct (github_main _) as [[[] | [m1 | c1 |]] w1]; step_orchestrator;
    try (intro F; contradiction F);
    destruct (pypi_main w1) as [[[] | [m2 | c2 |]] w2]; step_orchestrator;
    intros _ H; try (exfalso; apply H; exact I); now repeat split.
Qed.

Lemma script_escapes_phase_3 (p : main_py.Process) :
  let g := github_main (snd (datetime_now env (main_py.world p))) in
  let y := pypi_main (snd g) in
  let c := load_public_main (snd y) in
  let run := main_py.script env github_main pypi_main load_public_main p in
  caught (fst g) -> caught (fst y) -> ~ caught (fst c) ->
  fst run = Raised (SystemExit (escape_code (fst c))) /\
  only_printed (snd c) (main_py.world (snd run)).
Proof.
  step_orchestrator.
  destruct (github_main _) as [[[] | [m1 | c1 |]] w1]; step_orchestrator;
    try (intro F; contradiction F);
    destruct (pypi_main w1) as [[[] | [m2 | c2 |]] w2]; step_orchestrator;
    try (intros _ F; contradiction F);
    destruct (load_public_main w2) as [[[] | [m3 | c3 |]] w3]; step_orchestrator;
    intros _ _ H; try (exfalso; apply H; exact I); now repeat split.
Qed.

End OrchestratorFacts.

(** A run of [load_to_snowflake] returns only if nothing failed. *)
Lemma load_to_snowflake_returned_no_failure (env : Env) (cfg : SnowflakeConfig) (w : World) :
  fst (load_public.load_to_snowflake env cfg w) = Returned tt ->
  fails env Connect = None /\ first_failure env = None.
Proof.
  run_publisher. publisher_paths env; intro H; try discriminate H.
  auto.
Qed.

(** [load_public.main] ends with status 0 only by returning, and it
    returns only if no call of the publish failed; any other end has
    status 1. *)
Lemma load_public_main_exit_status (env : Env) (w : World) :
  (exit_status (fst (load_public.main env w)) = 0 /\
   fst (load_public.main env w) = Returned tt /\
   fails env Connect = None /\ first_failure env = None) \/
  (exit_status (fst (load_public.main env w)) = 1 /\
   exists e, fst (load_public.main env w) = Raised e /\
             (e = SystemExit 1 \/ exists msg, e = Exception msg)).
Proof.
  destruct (load_public_main_outcome env w) as [Hexit | Hsame].
  - right. rewrite Hexit. split; [reflexivity |]. eauto.
  - rewrite Hsame.
    destruct (load_to_snowflake_outcome env (snowflake_of_env env) w) as [Hr | [msg Hr]].
    + left. destruct (load_to_snowflake_returned_no_failure env _ w Hr) as [Hc Hf].
      rewrite Hr. auto.
    + right. rewrite Hr. split; [reflexivity |]. eauto.
Qed.

(** C8, as amended.  When a step of the publish transaction (the
    clear, the insert or the commit) fails, the Publisher has called
    the steps up to the failing one once each (no retry), calls the
    rollback once, closes, and raises an error to its caller: the error
    of the failing step when the rollback went through, the error of
    the rollback when the rollback failed too.  When the connection
    cannot be opened, the error of [connect] propagates and no rollback
    is called.  In all these cases the process, run alone or under the
    orchestrator, exits with a non-zero status; and it exits with
    status 0 only when no call of the publish failed (under the
    orchestrator: and all three phases returned).  The two ingestion
    phases are any computations that do not themselves exit with
    status 0. *)
Theorem publish_failure_rolls_back_and_exits_nonzero
  (env : Env) (cfg : SnowflakeConfig) (github_main pypi_main : M unit)
  (p : main_py.Process) (w : World) :
  (forall w' code, fst (github_main w') = Raised (SystemExit code) -> code mod 256 <> 0) ->
  (forall w' code, fst (pypi_main w') = Raised (SystemExit code) -> code mod 256 <> 0) ->
  let run := load_public.load_to_snowflake env cfg w in
  let alone := load_public.main env w in
  let orchestrated := main_py.script env github_main pypi_main (load_public.main env) p in
  (forall msg, fails env Connect = None -> first_failure env = Some msg ->
     fst run = Raised (Exception (error_after_rollback env msg)) /\
     exists attempted,
       calls (snd run) =
         (calls w ++ [Connect] ++ attempted ++ [Rollback; CursorClose; ConnectionClose])%list /\
       (attempted = [Execute TruncatePublic] \/
        attempted = [Execute TruncatePublic; Execute InsertSelectPublic] \/
        attempted = [Execute TruncatePublic; Execute InsertSelectPublic; Commit])) /\
  (forall msg, fails env Connect = Some msg ->
     fst run = Raised (Exception msg) /\
     calls (snd run) = (calls w ++ [Connect])%list) /\
  (fails env Connect <> None \/ first_failure env <> None ->
     exit_status (fst alone) <> 0 /\ exit_status (fst orchestrated) <> 0) /\
  (exit_status (fst alone) = 0 ->
     fails env Connect = None /\ first_failure env = None /\ fst alone = Returned tt) /\
  (exit_status (fst orchestrated) = 0 ->
     fails env Connect = None /\ first_failure env = None /\
     let g := github_main (snd (datetime_now env (main_py.world p))) in
     let y := pypi_main (snd g) in
     let c := load_public.main env (snd y) in
     fst g = Returned tt /\ fst y = Returned tt /\ fst c = Returned tt).
Proof.
  intros Hg Hy run alone orchestrated.
  split; [intros msg Hconnect Hfail; exact (load_to_snowflake_fails env cfg w msg Hconnect Hfail) |].
  split; [intros msg Hconnect; exact (load_to_snowflake_connect_fails env cfg w msg Hconnect) |].
  assert (Hfailed : forall w', fails env Connect <> None \/ first_failure env <> None ->
            exit_status (fst (load_public.main env w')) = 1 /\
            fst (load_public.main env w') <> Returned tt).
  { intros w' Hsome.
    destruct (load_public_main_exit_status env w') as [(_ & _ & Hc & Hf) | (Hone & e & He & _)].
    - exfalso. destruct Hsome as [H | H]; apply H; assumption.
    - split; [exact Hone |]. rewrite He. discriminate. }
  assert (Hzero : forall w', exit_status (fst (load_public.main env w')) = 0 ->
            fails env Connect = None /\ first_failure env = None /\
            fst (load_public.main env w') = Returned tt).
  { intros w' Hstatus.
    destruct (load_public_main_exit_status env w') as [(_ & Hr & Hc & Hf) | (Hone & _)].
    - auto.
    - rewrite Hone in Hstatus. discriminate Hstatus. }
  split; [| split; [exact (Hzero w) |]].
  - intro Hsome. split.
    + unfold alone. rewrite (proj1 (Hfailed w Hsome)). discriminate.
    + unfold orchestrated. rewrite script_exit_status.
      pose proof (Hg (snd (datetime_now env (main_py.world p)))) as Hg1.
      destruct (github_main _) as [[[] | [m1 | c1 |]] w1]; cbn [fst snd succeeded andb] in *;
        try (apply (Hg1 c1); reflexivity); try discriminate;
        pose proof (Hy w1) as Hy1;
        destruct (pypi_main w1) as [[[] | [m2 | c2 |]] w2]; cbn [fst snd succeeded andb] in *;
        try (apply (Hy1 c2); reflexivity); try discriminate;
        destruct (Hfailed w2 Hsome) as [_ Hnot];
        destruct (load_public_main_exit_status env w2)
          as [(_ & Hr & _) | (_ & e & He & [-> | [msg ->]])];
        try (exfalso; apply Hnot; exact Hr);
        rewrite He; cbn [succeeded]; discriminate.
  - unfold orchestrated. rewrite script_exit_status.
    pose proof (Hg (snd (datetime_now env (main_py.world p)))) as Hg1.
    destruct (github_main _) as [[[] | [m1 | c1 |]] w1]; cbn [fst snd succeeded andb] in *;
      try (intro Hstatus; exfalso; apply (Hg1 c1); [reflexivity | exact Hstatus]);
      try discriminate;
      pose proof (Hy w1) as Hy1;
      destruct (pypi_main w1) as [[[] | [m2 | c2 |]] w2]; cbn [fst snd succeeded andb] in *;
      try (intro Hstatus; exfalso; apply (Hy1 c2); [reflexivity | exact Hstatus]);
      try discriminate;
      (destruct (load_public_main_exit_status env w2)
         as [(_ & Hr & Hc & Hf) | (_ & e & He & [-> | [msg ->]])];
       [rewrite Hr | rewrite He | rewrite He]);
      cbn [succeeded andb];
      intro Hstatus; try discriminate Hstatus; auto.
Qed.

(** The connection is lost during the insert and the rollback goes
    through: the caller gets the error of the insert, and the process
    exits with a non-zero status. *)
Lemma publish_failure_rolls_back_and_exits_nonzero_witness :
  (forall w' code, fst (quiet_phase w') = Raised (SystemExit code) -> code mod 256 <> 0) /\
  first_failure (sample_env false insert_fails) = Some "connection lost" /\
  fst (load_public.load_to_snowflake (sample_env false insert_fails) sample_credentials sample_world) =
    Raised (Exception "connection lost") /\
  exit_status
    (fst (main_py.script (sample_env false insert_fails) quiet_phase quiet_phase
            (load_public.main (sample_env false insert_fails)) sample_process)) <> 0.
Proof.
  assert (Hquiet : forall w' code, fst (quiet_phase w') = Raised (SystemExit code) -> code mod 256 <> 0)
    by (intros w' code H; discriminate H).
  split; [exact Hquiet |]. split; [reflexivity |].
  pose proof (publish_failure_rolls_back_and_exits_nonzero
                (sample_env false insert_fails) sample_credentials quiet_phase quiet_phase
                sample_process sample_world Hquiet Hquiet) as H.
  cbv zeta in H. destruct H as (Hstep & _ & Hexit & _).
  split.
  - exact (proj1 (Hstep "connection lost" eq_refl eq_refl)).
  - apply Hexit. right. discriminate.
Defined.

(** C8, as stated, fails on two inputs.  When the insert fails and the
    rollback fails too, the error the caller gets is the rollback's,
    not the one of the publish step, and "Rollback complete" is not
    printed.  When the connection cannot be opened, the error
    propagates and no rollback is performed. *)
Lemma failed_rollback_replaces_the_error :
  first_failure (sample_env false insert_and_rollback_fail) = Some "connection lost" /\
  fst (load_public.load_to_snowflake (sample_env false insert_and_rollback_fail)
         sample_credentials sample_world) = Raised (Exception "rollback failed") /\
  ~ In "Rollback complete"
       (stdout (snd (load_public.load_to_snowflake (sample_env false insert_and_rollback_fail)
                       sample_credentials sample_world))) /\
  fst (load_public.load_to_snowflake (sample_env false connect_fails)
         sample_credentials sample_world) = Raised (Exception "warehouse unreachable") /\
  ~ In Rollback
       (calls (snd (load_public.load_to_snowflake (sample_env false connect_fails)
                      sample_credentials sample_world))).
Proof.
  split; [reflexivity |]. split; [reflexivity |]. split; [| split; [reflexivity |]].
  - vm_compute. intuition discriminate.
  - vm_compute. intuition discriminate.
Qed.

(** C9, as amended.  The orchestrator catches what derives from
    [Exception] and nothing else.  When each phase ends by returning or
    by raising an [Exception], the three phases run in sequence, each
    in the world its predecessor left, the start of each is logged, and
    the process exits with status 0 exactly when all three phases
    returned, and with status 1 otherwise.  A phase that ends in
    [SystemExit], as each [load_config] does with [exit(1)], or in
    [KeyboardInterrupt] is not caught: the script ends at once, with
    the code of the [SystemExit] or with code 1 after an interrupt, and
    the phases after it, the publish included, are not run: but for
    printed lines the world is as that phase left it. *)
Theorem orchestrator_runs_every_phase_unless_one_exits
  (env : Env) (github_main pypi_main load_public_main : M unit) (p : main_py.Process) :
  let g := github_main (snd (datetime_now env (main_py.world p))) in
  let y := pypi_main (snd g) in
  let c := load_public_main (snd y) in
  let run := main_py.script env github_main pypi_main load_public_main p in
  (caught (fst g) -> caught (fst y) -> caught (fst c) ->
   main_py.world (snd run) = snd (datetime_now env (snd c)) /\
   incl [(main_py.INFO, "Starting GitHub ETL process...");
         (main_py.INFO, "Starting PyPI ETL process...");
         (main_py.INFO, "Starting metrics combination ETL process...")]
        (main_py.etl_orchestrator_log (snd run)) /\
   (exit_status (fst run) = 0 <->
      fst g = Returned tt /\ fst y = Returned tt /\ fst c = Returned tt) /\
   (exit_status (fst run) = 0 \/ exit_status (fst run) = 1)) /\
  (~ caught (fst g) ->
   fst run = Raised (SystemExit (escape_code (fst g))) /\
   only_printed (snd g) (main_py.world (snd run))) /\
  (caught (fst g) -> ~ caught (fst y) ->
   fst run = Raised (SystemExit (escape_code (fst y))) /\
   only_printed (snd y) (main_py.world (snd run))) /\
  (caught (fst g) -> caught (fst y) -> ~ caught (fst c) ->
   fst run = Raised (SystemExit (escape_code (fst c))) /\
   only_printed (snd c) (main_py.world (snd run))).
Proof.
  intros g y c run. split; [| split; [| split]].
  - intros Hg Hy Hc.
    destruct (script_runs_all_phases env github_main pypi_main load_public_main p Hg Hy Hc)
      as (Hexit & Hworld & Hlog).
    split; [exact Hworld |]. split; [exact Hlog |].
    unfold run. rewrite Hexit. fold g y c. clear Hexit Hworld Hlog.
    destruct (fst g) as [[] | e1], (fst y) as [[] | e2], (fst c) as [[] | e3];
      cbn [succeeded andb exit_status]; change (0 mod 256) with 0; change (1 mod 256) with 1;
      (split; [split; [intuition congruence | intuition discriminate] | auto]).
  - exact (script_escapes_phase_1 env github_main pypi_main load_public_main p).
  - exact (script_escapes_phase_2 env github_main pypi_main load_public_main p).
  - exact (script_escapes_phase_3 env github_main pypi_main load_public_main p).
Qed.

(** A first phase that raises an [Exception] does not stop the
    publish; a first phase that exits does. *)
Lemma orchestrator_runs_every_phase_unless_one_exits_witness :
  published
    (main_py.world
       (snd (main_py.script (sample_env false no_failure) failing_phase quiet_phase
               (load_public.main (sample_env false no_failure)) sample_process))) =
    combined_query github_history pypi_history /\
  fst (main_py.script tokenless_env (github_repo_etl.main tokenless_env) quiet_phase
         (load_public.main tokenless_env) sample_process) = Raised (SystemExit 1).
Proof.
  split.
  - pose proof (orchestrator_runs_every_phase_unless_one_exits
                  (sample_env false no_failure) failing_phase quiet_phase
                  (load_public.main (sample_env false no_failure)) sample_process) as H.
    cbv zeta in H. destruct H as (Hall & _).
    destruct (Hall I I I) as (Hworld & _).
    rewrite Hworld. reflexivity.
  - pose proof (orchestrator_runs_every_phase_unless_one_exits
                  tokenless_env (github_repo_etl.main tokenless_env) quiet_phase
                  (load_public.main tokenless_env) sample_process) as H.
    cbv zeta in H. destruct H as (_ & Hfirst & _).
    destruct Hfirst as [Hexit _].
    + intro Hcaught. vm_compute in Hcaught. exact Hcaught.
    + exact Hexit.
Defined.

(** C9, as stated, fails when a phase exits.  Without a GitHub token
    the first phase calls [exit(1)]; the orchestrator does not catch
    it: the script ends with code 1, no call is made to the warehouse
    and the published table is the stale one, though the publish phase
    on its own would have replaced it in this configuration. *)
Lemma orchestrator_stops_when_a_phase_exits :
  fst (github_repo_etl.main tokenless_env (snd (datetime_now tokenless_env sample_world))) =
    Raised (SystemExit 1) /\
  fst (main_py.script tokenless_env (github_repo_etl.main tokenless_env) quiet_phase
         (load_public.main tokenless_env) sample_process) = Raised (SystemExit 1) /\
  calls (main_py.world
           (snd (main_py.script tokenless_env (github_repo_etl.main tokenless_env) quiet_phase
                   (load_public.main tokenless_env) sample_process))) = [] /\
  published (main_py.world
               (snd (main_py.script tokenless_env (github_repo_etl.main tokenless_env) quiet_phase
                       (load_public.main tokenless_env) sample_process))) =
    [select_row (github_snapshot "A" 5 1) None] /\
  published (snd (load_public.main tokenless_env sample_world)) =
    combined_query github_history pypi_history.
Proof.
  repeat split; vm_compute; reflexivity.
Qed.

(** ** The GitHub ingestion *)

Lemma bind_returned {S A B : Type} (m : Eff S A) (k : A -> Eff S B) (s s' : S) (a : A) :
  m s = (Returned a, s') -> bind m k s = k a s'.
Proof. intro H. unfold bind. now rewrite H. Qed.


Lemma same_store_refl (w : World) : same_store w w.
Proof. now repeat split. Qed.

Lemma same_store_trans (w1 w2 w3 : World) :
  same_store w1 w2 -> same_store w2 w3 -> same_store w1 w3.
Proof.
  unfold same_store. intros (-> & -> & ->) (-> & -> & ->). now repeat split.
Qed.

Ltac run_github :=
  cbv beta iota zeta delta
    [bind ret raise print datetime_now fst snd
     committed working ticks calls stdout same_store].

(** [get_repo_metrics] always returns, without touching the warehouse:
    [None] when the repository request does not return 200, and
    otherwise the metrics of the library it was asked for. *)
Lemma get_repo_metrics_spec
  (env : Env) (library_name owner repo : string) (token : option string) (w : World) :
  same_store w (snd (github_repo_etl.get_repo_metrics env library_name owner repo token w)) /\
  if status_code (get_repo env token owner repo) =? 200 then
    exists m,
      fst (github_repo_etl.get_repo_metrics env library_name owner repo token w) =
        Returned (Some m) /\
      github_repo_etl.library_name m = library_name /\
      github_repo_etl.owner m = owner /\
      github_repo_etl.repo_name m = repo
  else
    fst (github_repo_etl.get_repo_metrics env library_name owner repo token w) = Returned None.
Proof.
  unfold github_repo_etl.get_repo_metrics. cbv zeta.
  destruct (status_code (get_repo env token owner repo) =? 200); cbn [negb].
  - destruct (negb (status_code (get_contributors env token owner repo) =? 200)),
             (negb (status_code (get_commit_activity env token owner repo) =? 200));
      run_github; (split; [now repeat split |]); eexists; (split; [reflexivity |]);
      now repeat split.
  - run_github. split; [now repeat split | reflexivity].
Qed.

(** The loop of [main] always returns, without touching the warehouse;
    it adds the metrics of the libraries found, in order. *)
Lemma collect_metrics_spec
  (env : Env) (config : github_repo_etl.Config) (libraries : list Library) :
  forall (all_metrics : list github_repo_etl.Metrics) (w : World),
  exists batch,
    fst (github_repo_etl.collect_metrics env config libraries all_metrics w) =
      Returned (all_metrics ++ batch)%list /\
    same_store w (snd (github_repo_etl.collect_metrics env config libraries all_metrics w)) /\
    map (fun m => (github_repo_etl.library_name m, github_repo_etl.owner m,
                   github_repo_etl.repo_name m)) batch =
    map (fun l => (lib_name l, lib_github_owner l, lib_github_repo l))
        (filter (repo_found env (github_repo_etl.github_token config)) libraries).
Proof.
  induction libraries as [| library rest IH]; intros all_metrics w.
  - exists []. simpl. rewrite app_nil_r. split; [reflexivity |].
    split; [apply same_store_refl | reflexivity].
  - cbn [filter].
    set (w1 := snd (print ("Fetching metrics for " ++ lib_name library ++ " ("
                           ++ lib_github_owner library ++ "/" ++ lib_github_repo library
                           ++ ")...") w)).
    assert (Hw1 : same_store w w1) by now repeat split.
    destruct (get_repo_metrics_spec env (lib_name library) (lib_github_owner library)
                (lib_github_repo library) (github_repo_etl.github_token config) w1)
      as [Hstore Hres].
    unfold repo_found at 1.
    destruct (github_repo_etl.get_repo_metrics env (lib_name library)
                (lib_github_owner library) (lib_github_repo library)
                (github_repo_etl.github_token config) w1)
      as [r w2] eqn:Hget.
    cbn [fst snd] in Hstore, Hres.
    destruct (status_code (get_repo env (github_repo_etl.github_token config)
                             (lib_github_owner library) (lib_github_repo library)) =? 200).
    + destruct Hres as (m & -> & Hn & Ho & Hr).
      assert (Hstep : github_repo_etl.collect_metrics env config (library :: rest) all_metrics w =
                      github_repo_etl.collect_metrics env config rest (all_metrics ++ [m])%list w2).
      { cbn [github_repo_etl.collect_metrics]. unfold bind at 1. cbn [print].
        exact (bind_returned _ _ _ _ _ Hget). }
      rewrite Hstep.
      destruct (IH (all_metrics ++ [m])%list w2) as (batch & Hfst & Hsame & Hmap).
      exists (m :: batch). rewrite Hfst, <- app_assoc. split; [reflexivity |].
      split.
      * exact (same_store_trans _ _ _ (same_store_trans _ _ _ Hw1 Hstore) Hsame).
      * cbn [map]. now rewrite Hn, Ho, Hr, Hmap.
    + subst r.
      assert (Hstep : github_repo_etl.collect_metrics env config (library :: rest) all_metrics w =
                      github_repo_etl.collect_metrics env config rest all_metrics w2).
      { cbn [github_repo_etl.collect_metrics]. unfold bind at 1. cbn [print].
        exact (bind_returned _ _ _ _ _ Hget). }
      rewrite Hstep.
      destruct (IH all_metrics w2) as (batch & Hfst & Hsame & Hmap).
      exists batch. split; [exact Hfst |]. split; [| exact Hmap].
      exact (same_store_trans _ _ _ (same_store_trans _ _ _ Hw1 Hstore) Hsame).
Qed.

(** The insertion loop, when the warehouse accepts every statement:
    the rows are appended to the session's GitHub table, in order. *)
Lemma insert_loop_spec (env : Env) (metrics_list : list github_repo_etl.Metrics) :
  (forall c, fails env c = None) ->
  forall w,
    fst (for_each metrics_list
           (fun metrics => execute env (InsertGithub (github_repo_etl.row_of metrics)) ;; ret tt) w) =
      Returned tt /\
    github_repo_metrics
      (working (snd (for_each metrics_list
                       (fun metrics => execute env (InsertGithub (github_repo_etl.row_of metrics)) ;; ret tt) w))) =
      (github_repo_metrics (working w) ++ map github_repo_etl.row_of metrics_list)%list.
Proof.
  intro Hok. induction metrics_list as [| m rest IH]; intro w.
  - simpl. now rewrite app_nil_r.
  - cbn [for_each map].
    set (w1 := snd (execute env (InsertGithub (github_repo_etl.row_of m)) w)).
    assert (Hstep : (execute env (InsertGithub (github_repo_etl.row_of m)) ;; ret tt) w =
                    (Returned tt, w1)).
    { unfold w1, bind, execute, ret. now rewrite Hok. }
    rewrite (bind_returned _ _ _ _ _ Hstep).
    destruct (IH w1) as [Hfst Hrows]. split; [exact Hfst |].
    rewrite Hrows. unfold w1, execute. rewrite Hok. simpl.
    now rewrite <- app_assoc.
Qed.

(** [insert_metrics], when the warehouse accepts every call: it returns
    and the batch is committed after the rows already there. *)
Lemma insert_metrics_spec
  (env : Env) (metrics_list : list github_repo_etl.Metrics) (cfg : SnowflakeConfig) (w : World) :
  (forall c, fails env c = None) ->
  fst (github_repo_etl.insert_metrics env metrics_list cfg w) = Returned tt /\
  github_repo_metrics (committed (snd (github_repo_etl.insert_metrics env metrics_list cfg w))) =
    (github_repo_metrics (committed w) ++ map github_repo_etl.row_of metrics_list)%list.
Proof.
  intro Hok. unfold github_repo_etl.insert_metrics.
  destruct metrics_list as [| m rest].
  - simpl. now rewrite app_nil_r.
  - set (ms := m :: rest).
    set (w0 := snd (connect env cfg w)).
    assert (Hconnect : connect env cfg w = (Returned tt, w0)).
    { unfold w0, connect. now rewrite Hok. }
    rewrite (bind_returned _ _ _ _ _ Hconnect).
    destruct (insert_loop_spec env ms Hok w0) as [Hloop Hrows].
    destruct (for_each ms _ w0) as [r w1] eqn:Hfor.
    cbn [fst snd] in Hloop, Hrows. subst r.
    rewrite (bind_returned _ _ _ _ _ Hfor).
    unfold bind, commit, cursor_close, conn_close, print. rewrite Hok.
    cbn [fst snd committed working record_call set_databases].
    split; [reflexivity |].
    rewrite Hrows. unfold w0, connect. rewrite Hok. reflexivity.
Qed.

(** C10.  When the repository request of a configured library does not
    return 200, [get_repo_metrics] returns [None] for it; the run, in a
    warehouse that accepts the batch, returns without raising, and the
    batch it appends to the GitHub snapshot table has one row for each
    library whose request returned 200 and no row for this one. *)
Theorem failed_repository_request_is_skipped
  (env : Env) (libraries : list Library) (library : Library) (w : World) :
  config_json env = Some libraries ->
  truthy (getenv env "GITHUB_TOKEN") = true ->
  all_set (snowflake_of_env env) = true ->
  (forall c, fails env c = None) ->
  In library libraries ->
  status_code (get_repo env (getenv env "GITHUB_TOKEN")
                 (lib_github_owner library) (lib_github_repo library)) <> 200 ->
  (forall w', fst (github_repo_etl.get_repo_metrics env (lib_name library)
                     (lib_github_owner library) (lib_github_repo library)
                     (getenv env "GITHUB_TOKEN") w') = Returned None) /\
  fst (github_repo_etl.main env w) = Returned tt /\
  exists batch,
    github_repo_metrics (committed (snd (github_repo_etl.main env w))) =
      (github_repo_metrics (committed w) ++ batch)%list /\
    map (fun r => (Github.name r, Github.github_owner r, Github.github_repository_name r)) batch =
      map (fun l => (lib_name l, lib_github_owner l, lib_github_repo l))
          (filter (repo_found env (getenv env "GITHUB_TOKEN")) libraries) /\
    forall r, In r batch ->
      ~ (Github.github_owner r = lib_github_owner library /\
         Github.github_repository_name r = lib_github_repo library).
Proof.
  intros Hconfig Htoken Hsnow Hok Hin Hstatus.
  apply Z.eqb_neq in Hstatus.
  split.
  { intro w'.
    pose proof (proj2 (get_repo_metrics_spec env (lib_name library)
                         (lib_github_owner library) (lib_github_repo library)
                         (getenv env "GITHUB_TOKEN") w')) as H.
    now rewrite Hstatus in H. }
  set (config := {| github_repo_etl.github_token := getenv env "GITHUB_TOKEN";
                    github_repo_etl.libraries := libraries;
                    github_repo_etl.snowflake := snowflake_of_env env |}).
  assert (Hload : github_repo_etl.load_config env w = (Returned config, w)).
  { unfold github_repo_etl.load_config. rewrite Hconfig. cbv zeta.
    cbn [github_repo_etl.github_token github_repo_etl.snowflake].
    now rewrite Htoken, Hsnow. }
  unfold github_repo_etl.main.
  rewrite (bind_returned _ _ _ _ _ Hload).
  cbn [github_repo_etl.libraries github_repo_etl.snowflake config].
  destruct (collect_metrics_spec env config libraries [] w) as (ms & Hfst & Hsame & Hmap).
  destruct (github_repo_etl.collect_metrics env config libraries [] w) as [r w1] eqn:Hcollect.
  cbn [fst snd app] in Hfst, Hsame. subst r.
  rewrite (bind_returned _ _ _ _ _ Hcollect).
  destruct (insert_metrics_spec env ms (snowflake_of_env env) w1 Hok) as [Hins Hrows].
  destruct (github_repo_etl.insert_metrics env ms (snowflake_of_env env) w1)
    as [r w2] eqn:Hinsert.
  cbn [fst snd] in Hins, Hrows. subst r.
  rewrite (bind_returned _ _ _ _ _ Hinsert).
  cbn [print fst snd committed].
  split; [reflexivity |].
  exists (map github_repo_etl.row_of ms).
  destruct Hsame as (Hcommitted & _ & _). rewrite Hrows, Hcommitted.
  split; [reflexivity |].
  assert (Hbatch : map (fun r => (Github.name r, Github.github_owner r,
                                  Github.github_repository_name r))
                       (map github_repo_etl.row_of ms) =
                   map (fun l => (lib_name l, lib_github_owner l, lib_github_repo l))
                       (filter (repo_found env (getenv env "GITHUB_TOKEN")) libraries)).
  { rewrite map_map. exact Hmap. }
  split; [exact Hbatch |].
  intros r Hr [Howner Hrepo].
  apply (in_map (fun r => (Github.name r, Github.github_owner r,
                           Github.github_repository_name r))) in Hr.
  rewrite Hbatch in Hr. apply in_map_iff in Hr.
  destruct Hr as (l & Hl & Hfound). apply filter_In in Hfound.
  destruct Hfound as [_ Hfound]. unfold repo_found in Hfound.
  inversion Hl as [[Hname Ho Hp]].
  rewrite Ho, Hp, Howner, Hrepo, Hstatus in Hfound. discriminate.
Qed.

Lemma failed_repository_request_is_skipped_witness :
  config_json (sample_env false no_failure) = Some [numpy; ghost] /\
  status_code (get_repo (sample_env false no_failure) (Some "set")
                 (lib_github_owner ghost) (lib_github_repo ghost)) <> 200 /\
  fst (github_repo_etl.main (sample_env false no_failure) sample_world) = Returned tt /\
  map Github.name
    (github_repo_metrics (committed (snd (github_repo_etl.main (sample_env false no_failure) sample_world)))) =
    ["A"; "A"; "numpy"].
Proof.
  assert (Hstatus : status_code (get_repo (sample_env false no_failure)
                                   (getenv (sample_env false no_failure) "GITHUB_TOKEN")
                                   (lib_github_owner ghost) (lib_github_repo ghost)) <> 200)
    by (simpl; discriminate).
  split; [reflexivity |]. split; [exact Hstatus |].
  destruct (failed_repository_request_is_skipped
              (sample_env false no_failure) [numpy; ghost] ghost sample_world
              eq_refl eq_refl eq_refl (fun c => eq_refl) (or_intror (or_introl eq_refl)) Hstatus)
    as (_ & Hreturned & _).
  split; [exact Hreturned | reflexivity].
Defined.

(* ================================================================= *)
(** * Further properties *)

(** ** The combined query *)

Section AppendOnly.
Variable R : Type.
Variable key : R -> string.
Variable marker : R -> Z.

Lemma is_max_in_app (rows more : list R) (y : R) :
  is_max_in key marker (rows ++ more) y =
  is_max_in key marker rows y && is_max_in key marker more y.
Proof. unfold is_max_in. apply forallb_app. Qed.

(** A row appended with a marker below that of an existing row of its
    identity changes nothing in the selection. *)
Lemma latest_append_stale (rows : list R) (r : R) :
  (exists x, In x rows /\ key x = key r /\ marker r < marker x) ->
  latest key marker (rows ++ [r]) = latest key marker rows.
Proof.
  intros (x & Hx & Hkey & Hlt).
  rewrite !latest_filter, filter_app.
  assert (Hr : is_max_in key marker (rows ++ [r]) r = false).
  { apply not_true_is_false. intro Hmax. rewrite is_max_in_spec in Hmax.
    specialize (Hmax x (in_or_app _ _ _ (or_introl Hx)) Hkey). lia. }
  simpl. rewrite Hr, app_nil_r.
  apply filter_ext_in. intros y Hy.
  rewrite is_max_in_app.
  destruct (is_max_in key marker rows y) eqn:Hmax; [| reflexivity].
  simpl. unfold is_max_in. simpl. rewrite andb_true_r.
  destruct (String.eqb (key r) (key y)) eqn:Hk; [| reflexivity].
  apply String.eqb_eq in Hk. simpl. apply Z.leb_le.
  rewrite is_max_in_spec in Hmax.
  specialize (Hmax x Hx ltac:(congruence)). lia.
Qed.

(** A row appended with a marker above those of all existing rows of
    its identity replaces them in the selection. *)
Lemma latest_append_newer (rows : list R) (r : R) :
  (forall x, In x rows -> key x = key r -> marker x < marker r) ->
  latest key marker (rows ++ [r]) =
  (filter (fun y => negb (String.eqb (key y) (key r))) (latest key marker rows) ++ [r])%list.
Proof.
  intro Hnewer.
  rewrite !latest_filter, filter_app.
  assert (Hr : is_max_in key marker (rows ++ [r]) r = true).
  { apply is_max_in_spec. intros y Hy Hk.
    apply in_app_or in Hy. destruct Hy as [Hy | [<- | []]]; [| lia].
    specialize (Hnewer y Hy Hk). lia. }
  simpl. rewrite Hr. f_equal.
  clear Hr. revert Hnewer. generalize rows at 1 3 5 as part.
  induction part as [| y rest IH]; intro Hnewer; simpl; [reflexivity |].
  rewrite is_max_in_app, IH by (intros x Hx; apply Hnewer; now right).
  assert (Hy : is_max_in key marker [r] y = negb (String.eqb (key y) (key r))).
  { unfold is_max_in. simpl. rewrite andb_true_r.
    destruct (String.eqb (key r) (key y)) eqn:Hk.
    - apply String.eqb_eq in Hk. rewrite <- Hk, String.eqb_refl. simpl.
      apply Z.leb_gt. apply Hnewer; [now left | congruence].
    - rewrite String.eqb_sym, Hk. reflexivity. }
  rewrite Hy.
  destruct (is_max_in key marker rows y); simpl; [| reflexivity].
  destruct (String.eqb (key y) (key r)); reflexivity.
Qed.

(** At most one row per identity means pairwise different identities. *)
Lemma at_most_one_NoDup (l : list R) :
  (forall n, (List.length (of_identity key n l) <= 1)%nat) -> NoDup (map key l).
Proof.
  induction l as [| x rest IH]; simpl; intro Hone.
  - constructor.
  - constructor.
    + intro Hin. apply in_map_iff in Hin. destruct Hin as (y & Hk & Hy).
      specialize (Hone (key x)). unfold of_identity in Hone. simpl in Hone.
      rewrite String.eqb_refl in Hone. simpl in Hone.
      assert (Hin : In y (filter (fun r => String.eqb (key r) (key x)) rest)).
      { apply filter_In. split; [exact Hy |]. now apply String.eqb_eq. }
      destruct (filter _ rest); [destruct Hin | simpl in Hone; lia].
    + apply IH. intro n. specialize (Hone n). unfold of_identity in *. simpl in Hone.
      destruct (String.eqb (key x) n); simpl in Hone; lia.
Qed.

End AppendOnly.

Lemma In_left_join (gs : list Github.row) (ps : list Pypi.row) (g : Github.row) (p : option Pypi.row) :
  In (g, p) (left_join gs ps) <->
  In g gs /\
  match p with
  | Some r => In r ps /\ Pypi.name r = Github.name g
  | None => ~ In (Github.name g) (map Pypi.name ps)
  end.
Proof.
  unfold left_join. rewrite in_flat_map. split.
  - intros (g' & Hg' & Hin).
    destruct (filter (fun q => String.eqb (Github.name g') (Pypi.name q)) ps)
      as [| r matches] eqn:Hmatches.
    + destruct Hin as [Heq | []]. inversion Heq; subst g' p. split; [exact Hg' |].
      intro Hname. apply in_map_iff in Hname. destruct Hname as (r & Hr & Hinr).
      assert (Hin' : In r (filter (fun q => String.eqb (Github.name g) (Pypi.name q)) ps)).
      { apply filter_In. split; [exact Hinr |]. apply String.eqb_eq. now symmetry. }
      rewrite Hmatches in Hin'. destruct Hin'.
    + apply in_map_iff in Hin. destruct Hin as (q & Heq & Hq).
      inversion Heq; subst g' p. split; [exact Hg' |].
      rewrite <- Hmatches in Hq. apply filter_In in Hq. destruct Hq as [Hq Hname].
      apply String.eqb_eq in Hname. split; [exact Hq | now symmetry].
  - intros [Hg Hp]. exists g. split; [exact Hg |].
    destruct p as [r |].
    + destruct Hp as [Hr Hname].
      assert (Hin : In r (filter (fun q => String.eqb (Github.name g) (Pypi.name q)) ps)).
      { apply filter_In. split; [exact Hr |]. apply String.eqb_eq. now symmetry. }
      destruct (filter _ ps) as [| r0 matches]; [destruct Hin |].
      apply in_map_iff. exists r. split; [reflexivity | exact Hin].
    + destruct (filter (fun q => String.eqb (Github.name g) (Pypi.name q)) ps)
        as [| r matches] eqn:Hmatches; [now left |].
      exfalso. apply Hp.
      assert (Hin : In r (filter (fun q => String.eqb (Github.name g) (Pypi.name q)) ps))
        by (rewrite Hmatches; now left).
      apply filter_In in Hin. destruct Hin as [Hr Hname].
      apply String.eqb_eq in Hname. rewrite Hname. now apply in_map.
Qed.

(** Sorting keeps the rows of the join. *)
Lemma In_consolidate_join (gs : list Github.row) (ps : list Pypi.row) (o : Public.row) :
  In o (consolidate gs ps) <->
  In o (map (fun gp => select_row (fst gp) (snd gp)) (left_join gs ps)).
Proof.
  unfold consolidate. split; intro Hin.
  - exact (Permutation_in _ (Permutation_sym (NameSort.Permuted_sort _)) Hin).
  - exact (Permutation_in _ (NameSort.Permuted_sort _) Hin).
Qed.

(** X1.  The rows the Consolidator emits are exactly the pairs of the
    left outer join: a row is emitted if and only if it is the select
    list over a GitHub-side row and either a registry-side row of the
    same identity, or no registry row when the registry side does not
    have the identity.  No other row is ever made up. *)
Theorem consolidate_rows (gs : list Github.row) (ps : list Pypi.row) (o : Public.row) :
  In o (consolidate gs ps) <->
  exists g p,
    In g gs /\ o = select_row g p /\
    match p with
    | Some r => In r ps /\ Pypi.name r = Github.name g
    | None => ~ In (Github.name g) (map Pypi.name ps)
    end.
Proof.
  rewrite In_consolidate_join, in_map_iff. split.
  - intros ([g p] & <- & Hgp).
    apply In_left_join in Hgp. destruct Hgp as [Hg Hp].
    exists g, p. auto.
  - intros (g & p & Hg & -> & Hp).
    exists (g, p). split; [reflexivity |].
    apply In_left_join. auto.
Qed.

(** Every published row comes from a selected GitHub row. *)
Lemma published_row_origin (gs : list Github.row) (ps : list Pypi.row) (o : Public.row) :
  In o (consolidate gs ps) ->
  exists g p, In g gs /\ o = select_row g p.
Proof.
  intro Hin. apply In_consolidate_join in Hin.
  apply in_map_iff in Hin. destruct Hin as ([g p] & <- & Hgp).
  apply In_left_join in Hgp. exists g, p. tauto.
Qed.

(** Every identity of the GitHub table is published. *)
Lemma github_identity_is_published
  (github_repo_metrics : list Github.row) (pypi_download_stats : list Pypi.row) (r : Github.row) :
  In r github_repo_metrics ->
  In (Github.name r)
     (map Public.name (combined_query github_repo_metrics pypi_download_stats)).
Proof.
  intro Hr. unfold combined_query.
  destruct (latest_covers _ Github.name Github.collected_at _ r Hr) as (r0 & Hr0 & Hk).
  destruct (consolidate_emits_every_left_row _ (latest_pypi pypi_download_stats) r0 Hr0)
    as (p & Hin & _).
  apply in_map_iff. exists (select_row r0 p). split; [exact Hk | exact Hin].
Qed.

(** X2.  The identities of the rows produced by the combined query are
    exactly the identities of the GitHub snapshot table: every library
    ever pulled from GitHub is published, and a library known to the
    registry only never is. *)
Theorem combined_query_identities
  (github_repo_metrics : list Github.row) (pypi_download_stats : list Pypi.row) (n : string) :
  In n (map Public.name (combined_query github_repo_metrics pypi_download_stats)) <->
  In n (map Github.name github_repo_metrics).
Proof.
  split.
  - intro Hin. apply in_map_iff in Hin. destruct Hin as (o & <- & Hin).
    unfold combined_query in Hin.
    destruct (published_row_origin _ _ _ Hin) as (g & p & Hg & ->).
    apply In_latest in Hg. rewrite name_select_row. apply in_map. tauto.
  - intro Hin. apply in_map_iff in Hin. destruct Hin as (r & <- & Hr).
    now apply github_identity_is_published.
Qed.

(** X3.  When no two snapshot rows of one identity share a recency
    marker, on either side, the combined query produces exactly one row
    per identity: no identity is published twice. *)
Theorem combined_query_one_row_per_identity
  (github_repo_metrics : list Github.row) (pypi_download_stats : list Pypi.row) :
  (forall n, NoDup (map Github.collected_at (of_identity Github.name n github_repo_metrics))) ->
  (forall n, NoDup (map Pypi.downloads_last_year (of_identity Pypi.name n pypi_download_stats))) ->
  NoDup (map Public.name (combined_query github_repo_metrics pypi_download_stats)).
Proof.
  intros Hg Hp. unfold combined_query, consolidate.
  assert (Hgs : NoDup (map Github.name (latest_github github_repo_metrics))).
  { apply at_most_one_NoDup. intro n. now apply latest_at_most_one. }
  assert (Hps : NoDup (map Pypi.name (latest_pypi pypi_download_stats))).
  { apply at_most_one_NoDup. intro n. now apply latest_at_most_one. }
  eapply Permutation_NoDup.
  - apply Permutation_map, NameSort.Permuted_sort.
  - rewrite (left_join_of_mapping _ _ Hps), !map_map. simpl. exact Hgs.
Qed.

Lemma combined_query_one_row_per_identity_witness :
  (forall n, NoDup (map Github.collected_at (of_identity Github.name n github_history))) /\
  NoDup (map Public.name (combined_query github_history pypi_history)).
Proof.
  assert (Hg : forall n, NoDup (map Github.collected_at (of_identity Github.name n github_history))).
  { intro n. unfold of_identity. apply (markers_distinct_filter _ Github.name). simpl.
    repeat (apply NoDup_cons; [simpl; lia |]). apply NoDup_nil. }
  assert (Hp : forall n, NoDup (map Pypi.downloads_last_year (of_identity Pypi.name n pypi_history))).
  { intro n. unfold of_identity. apply (markers_distinct_filter _ Pypi.name). simpl.
    repeat (apply NoDup_cons; [simpl; lia |]). apply NoDup_nil. }
  split; [exact Hg |].
  exact (combined_query_one_row_per_identity github_history pypi_history Hg Hp).
Defined.

(** X4.  Appending to the GitHub snapshot table a row older than an
    existing snapshot of the same library changes nothing in what the
    combined query produces. *)
Theorem stale_github_snapshot_is_ignored
  (github_repo_metrics : list Github.row) (pypi_download_stats : list Pypi.row) (r : Github.row) :
  (exists x, In x github_repo_metrics /\ Github.name x = Github.name r /\
             Github.collected_at r < Github.collected_at x) ->
  combined_query (github_repo_metrics ++ [r]) pypi_download_stats =
  combined_query github_repo_metrics pypi_download_stats.
Proof.
  intro Hstale. unfold combined_query, latest_github.
  now rewrite latest_append_stale.
Qed.

Lemma stale_github_snapshot_is_ignored_witness :
  (exists x, In x github_history /\ Github.name x = "A" /\ 0 < Github.collected_at x) /\
  combined_query (github_history ++ [github_snapshot "A" 99 0]) pypi_history =
  combined_query github_history pypi_history.
Proof.
  assert (Hstale : exists x, In x github_history /\
                     Github.name x = Github.name (github_snapshot "A" 99 0) /\
                     Github.collected_at (github_snapshot "A" 99 0) < Github.collected_at x).
  { exists (github_snapshot "A" 5 1). split; [now left |]. split; reflexivity. }
  split; [exact Hstale |].
  exact (stale_github_snapshot_is_ignored github_history pypi_history _ Hstale).
Defined.

(** X5.  A registry extraction appended with a trailing-year count
    below that of an earlier extraction of the same library is ignored,
    however recent it is: the combined query keeps producing the
    earlier extraction's figures. *)
Theorem smaller_registry_extraction_is_ignored
  (github_repo_metrics : list Github.row) (pypi_download_stats : list Pypi.row) (r : Pypi.row) :
  (exists x, In x pypi_download_stats /\ Pypi.name x = Pypi.name r /\
             Pypi.downloads_last_year r < Pypi.downloads_last_year x) ->
  combined_query github_repo_metrics (pypi_download_stats ++ [r]) =
  combined_query github_repo_metrics pypi_download_stats.
Proof.
  intro Hsmaller. unfold combined_query, latest_pypi.
  now rewrite latest_append_stale.
Qed.

Lemma smaller_registry_extraction_is_ignored_witness :
  (exists x, In x pypi_history /\ Pypi.name x = "A" /\ 800 < Pypi.downloads_last_year x) /\
  combined_query github_history (pypi_history ++ [pypi_snapshot "A" 2000 800]) =
  combined_query github_history pypi_history.
Proof.
  assert (Hsmaller : exists x, In x pypi_history /\
                       Pypi.name x = Pypi.name (pypi_snapshot "A" 2000 800) /\
                       Pypi.downloads_last_year (pypi_snapshot "A" 2000 800) <
                       Pypi.downloads_last_year x).
  { exists (pypi_snapshot "A" 900 900). split; [now left |]. split; reflexivity. }
  split; [exact Hsmaller |].
  exact (smaller_registry_extraction_is_ignored github_history pypi_history _ Hsmaller).
Defined.

(** X6.  A GitHub snapshot appended with a [collected_at] above those
    of all earlier snapshots of its library becomes the only row the
    Resolver selects for that library; the rows selected for the other
    libraries stay as they were. *)
Theorem newer_github_snapshot_supersedes
  (github_repo_metrics : list Github.row) (r : Github.row) :
  (forall x, In x github_repo_metrics -> Github.name x = Github.name r ->
             Github.collected_at x < Github.collected_at r) ->
  latest_github (github_repo_metrics ++ [r]) =
  (filter (fun y => negb (String.eqb (Github.name y) (Github.name r)))
          (latest_github github_repo_metrics) ++ [r])%list.
Proof.
  intro Hnewer. unfold latest_github. now apply latest_append_newer.
Qed.

Lemma newer_github_snapshot_supersedes_witness :
  (forall x, In x github_history -> Github.name x = "A" -> Github.collected_at x < 3) /\
  latest_github (github_history ++ [github_snapshot "A" 20 3]) = [github_snapshot "A" 20 3].
Proof.
  assert (Hnewer : forall x, In x github_history ->
                     Github.name x = Github.name (github_snapshot "A" 20 3) ->
                     Github.collected_at x < Github.collected_at (github_snapshot "A" 20 3)).
  { intros x [<- | [<- | []]] _; reflexivity. }
  split; [exact Hnewer |].
  rewrite (newer_github_snapshot_supersedes github_history _ Hnewer). reflexivity.
Defined.

(** X7.  When the registry-side latest set has one row per identity,
    the Consolidator emits as many rows as the GitHub-side latest set
    has: no GitHub row is lost and none is repeated. *)
Theorem consolidate_row_count (gs : list Github.row) (ps : list Pypi.row) :
  NoDup (map Pypi.name ps) ->
  List.length (consolidate gs ps) = List.length gs.
Proof.
  intro Hps. unfold consolidate.
  rewrite <- (Permutation_length (NameSort.Permuted_sort _)).
  now rewrite (left_join_of_mapping _ _ Hps), !length_map.
Qed.

Lemma consolidate_row_count_witness :
  NoDup (map Pypi.name (latest_pypi pypi_history)) /\
  List.length (consolidate github_tied (latest_pypi pypi_history)) = 2%nat.
Proof.
  assert (Hps : NoDup (map Pypi.name (latest_pypi pypi_history))).
  { vm_compute. repeat constructor; simpl; intuition discriminate. }
  split; [exact Hps |].
  exact (consolidate_row_count github_tied (latest_pypi pypi_history) Hps).
Defined.

(** ** The Publisher, on every exit path *)

(** X8.  In a session where nothing commits before [conn.commit()]
    (autocommit off, transactional truncate), a run of the Publisher is
    all or nothing: either it returns and the committed published table
    is the result of the combined query, or it raises an [Exception]
    and the committed warehouse is exactly what it was, whichever call
    failed, the connection included. *)
Theorem load_to_snowflake_all_or_nothing (env : Env) (cfg : SnowflakeConfig) (w : World) :
  autocommit env = false ->
  truncate_commits env = false ->
  (fst (load_public.load_to_snowflake env cfg w) = Returned tt /\
   published (snd (load_public.load_to_snowflake env cfg w)) =
     combined_query (github_repo_metrics (committed w)) (pypi_download_stats (committed w))) \/
  ((exists msg, fst (load_public.load_to_snowflake env cfg w) = Raised (Exception msg)) /\
   committed (snd (load_public.load_to_snowflake env cfg w)) = committed w).
Proof.
  run_publisher. intros -> ->.
  publisher_paths env; solve [right; eauto | left; auto].
Qed.

Lemma load_to_snowflake_all_or_nothing_witness :
  autocommit (sample_env false insert_fails) = false /\
  committed (snd (load_public.load_to_snowflake (sample_env false insert_fails)
                    sample_credentials sample_world)) = committed sample_world.
Proof.
  split; [reflexivity |].
  destruct (load_to_snowflake_all_or_nothing (sample_env false insert_fails)
              sample_credentials sample_world eq_refl eq_refl) as [[Hret _] | [_ Hsame]].
  - discriminate Hret.
  - exact Hsame.
Defined.

(** X9.  The Publisher releases what it acquired on every exit path:
    once the connection is open, the calls it makes end with exactly
    one [cursor.close()] followed by one [conn.close()], whether the
    run returns or raises; when the connection cannot be opened, the
    error propagates and nothing is rolled back or closed. *)
Theorem load_to_snowflake_closes_on_every_path (env : Env) (cfg : SnowflakeConfig) (w : World) :
  match fails env Connect with
  | Some msg =>
      fst (load_public.load_to_snowflake env cfg w) = Raised (Exception msg) /\
      calls (snd (load_public.load_to_snowflake env cfg w)) = (calls w ++ [Connect])%list
  | None =>
      exists during,
        calls (snd (load_public.load_to_snowflake env cfg w)) =
          (calls w ++ [Connect] ++ during ++ [CursorClose; ConnectionClose])%list /\
        ~ In Connect during /\ ~ In CursorClose during /\ ~ In ConnectionClose during
  end.
Proof.
  run_publisher.
  destruct (fails env Connect); simpl; [auto |].
  destruct (fails env (Execute TruncatePublic)); simpl.
  { exists [Execute TruncatePublic; Rollback].
    destruct (fails env Rollback); simpl; rewrite <- !app_assoc; simpl;
      (split; [reflexivity |]); repeat split; intuition discriminate. }
  destruct (fails env (Execute InsertSelectPublic)); simpl.
  { exists [Execute TruncatePublic; Execute InsertSelectPublic; Rollback].
    destruct (fails env Rollback); simpl; rewrite <- !app_assoc; simpl;
      (split; [reflexivity |]); repeat split; intuition discriminate. }
  destruct (fails env Commit); simpl.
  { exists [Execute TruncatePublic; Execute InsertSelectPublic; Commit; Rollback].
    destruct (fails env Rollback); simpl; rewrite <- !app_assoc; simpl;
      (split; [reflexivity |]); repeat split; intuition discriminate. }
  exists [Execute TruncatePublic; Execute InsertSelectPublic; Commit].
  rewrite <- !app_assoc. simpl.
  split; [reflexivity |]. repeat split; intuition discriminate.
Qed.

(** X10.  The Publisher never changes the two snapshot tables: in
    every commit mode and whatever fails, the committed GitHub and
    registry snapshots after the run are those before it. *)
Theorem load_to_snowflake_keeps_snapshots (env : Env) (cfg : SnowflakeConfig) (w : World) :
  github_repo_metrics (committed (snd (load_public.load_to_snowflake env cfg w))) =
    github_repo_metrics (committed w) /\
  pypi_download_stats (committed (snd (load_public.load_to_snowflake env cfg w))) =
    pypi_download_stats (committed w).
Proof.
  run_publisher.
  publisher_paths env; destruct (autocommit env), (truncate_commits env); simpl; auto.
Qed.

(** X11.  A run of the Publisher that returns has printed, as its one
    line, the number of rows it inserted, and that number is the number
    of rows of the published table it leaves. *)
Theorem load_to_snowflake_reports_row_count (env : Env) (cfg : SnowflakeConfig) (w : World) :
  fst (load_public.load_to_snowflake env cfg w) = Returned tt ->
  stdout (snd (load_public.load_to_snowflake env cfg w)) =
    (stdout w ++
     [("Successfully inserted "
       ++ show_nat (List.length (published (snd (load_public.load_to_snowflake env cfg w))))
       ++ " records into public.tech_metrics")%string])%list.
Proof.
  run_publisher. publisher_paths env; intro H; try discriminate H.
  reflexivity.
Qed.

Lemma load_to_snowflake_reports_row_count_witness :
  fst (load_public.load_to_snowflake (sample_env false no_failure)
         sample_credentials sample_world) = Returned tt /\
  stdout (snd (load_public.load_to_snowflake (sample_env false no_failure)
                 sample_credentials sample_world)) =
    ["Successfully inserted 1 records into public.tech_metrics"].
Proof.
  split; [reflexivity |].
  rewrite (load_to_snowflake_reports_row_count (sample_env false no_failure)
             sample_credentials sample_world eq_refl).
  reflexivity.
Defined.

(** X12.  [load_public.main] exits with a status code only because of
    its configuration: it raises [SystemExit] exactly when [config.json]
    is missing or one of the six warehouse credentials is unset or
    empty, the code is then 1, and it has only printed: no connection
    was opened and the warehouse is untouched. *)
Theorem load_public_main_exits_on_configuration (env : Env) (w : World) :
  (forall code,
     fst (load_public.main env w) = Raised (SystemExit code) <->
     code = 1 /\ public_configured env = false) /\
  (public_configured env = false -> only_printed w (snd (load_public.main env w))).
Proof.
  unfold public_configured, only_printed, load_public.main, load_public.load_config,
    bind, exit, raise, print, ret.
  destruct (config_json env); simpl.
  2: { split; [| now repeat split]. intro code. split.
       - intro H. inversion H. auto.
       - intros [-> _]. reflexivity. }
  destruct (all_set (snowflake_of_env env)); simpl.
  2: { split; [| now repeat split]. intro code. split.
       - intro H. inversion H. auto.
       - intros [-> _]. reflexivity. }
  split; [| discriminate].
  intro code. split; [| intros [_ H]; discriminate].
  destruct (load_to_snowflake_outcome env (snowflake_of_env env) w) as [Hr | [msg Hr]];
    destruct (load_public.load_to_snowflake env (snowflake_of_env env) w) as [r w'];
    simpl in Hr; subst r; discriminate.
Qed.

(** ** The GitHub ingestion, call by call *)

Lemma fold_left_add_from (l : list Z) (a : Z) :
  fold_left Z.add l a = a + fold_left Z.add l 0.
Proof.
  revert a. induction l as [| x l IH]; intro a; simpl.
  - lia.
  - rewrite (IH (a + x)), (IH x). lia.
Qed.

Lemma sum_total_app (xs ys : list (option Z)) :
  github_repo_etl.sum_total (xs ++ ys) =
  github_repo_etl.sum_total xs + github_repo_etl.sum_total ys.
Proof.
  unfold github_repo_etl.sum_total.
  rewrite map_app, fold_left_app. apply fold_left_add_from.
Qed.

Lemma sum_total_nonneg (xs : list (option Z)) :
  Forall (fun v => 0 <= github_repo_etl.get_or_zero v) xs ->
  0 <= github_repo_etl.sum_total xs.
Proof.
  induction 1 as [| x xs Hx _ IH].
  - unfold github_repo_etl.sum_total. simpl. lia.
  - change (x :: xs) with ([x] ++ xs)%list. rewrite sum_total_app.
    unfold github_repo_etl.sum_total at 1. simpl. lia.
Qed.

(** The weeks kept for the trailing month are the last ones. *)
Lemma recent_weeks_suffix (xs : list (option Z)) :
  exists earlier, xs = (earlier ++ github_repo_etl.recent_weeks xs)%list /\
                  (List.length xs <= 4 -> earlier = [])%nat /\
                  (4 <= List.length xs -> List.length (github_repo_etl.recent_weeks xs) = 4)%nat.
Proof.
  unfold github_repo_etl.recent_weeks.
  destruct (4 <=? List.length xs)%nat eqn:Hlen.
  - apply Nat.leb_le in Hlen.
    exists (firstn (List.length xs - 4) xs). split; [now rewrite firstn_skipn |].
    split.
    + intro Hle. replace (List.length xs - 4)%nat with 0%nat by lia. reflexivity.
    + intros _. rewrite length_skipn. lia.
  - apply Nat.leb_gt in Hlen. exists []. split; [reflexivity |].
    split; [reflexivity | lia].
Qed.

(** What [get_repo_metrics] returns for a repository that is found:
    the clock is read once, nothing else in the world changes but the
    printed lines, and each pair of aggregates is filled when its
    request returned 200 and null otherwise. *)
Lemma get_repo_metrics_found
  (env : Env) (library_name owner repo : string) (token : option string) (w : World) :
  status_code (get_repo env token owner repo) = 200 ->
  exists m,
    fst (github_repo_etl.get_repo_metrics env library_name owner repo token w) =
      Returned (Some m) /\
    ticks (snd (github_repo_etl.get_repo_metrics env library_name owner repo token w)) =
      S (ticks w) /\
    github_repo_etl.library_name m = library_name /\
    github_repo_etl.stars m =
      github_repo_etl.get_or_zero (stargazers_count (json (get_repo env token owner repo))) /\
    github_repo_etl.collected_at m = now env (ticks w) /\
    (github_repo_etl.total_contributors m, github_repo_etl.total_commits m) =
      (if status_code (get_contributors env token owner repo) =? 200
       then (Some (Z.of_nat (List.length (json (get_contributors env token owner repo)))),
             Some (github_repo_etl.sum_total (json (get_contributors env token owner repo))))
       else (None, None)) /\
    (github_repo_etl.commits_last_year m, github_repo_etl.commits_last_month m) =
      (if status_code (get_commit_activity env token owner repo) =? 200
       then (Some (github_repo_etl.sum_total (json (get_commit_activity env token owner repo))),
             Some (github_repo_etl.sum_total
                     (github_repo_etl.recent_weeks (json (get_commit_activity env token owner repo)))))
       else (None, None)).
Proof.
  intro Hfound. apply Z.eqb_eq in Hfound.
  unfold github_repo_etl.get_repo_metrics. cbv zeta. rewrite Hfound. cbn [negb].
  destruct (status_code (get_contributors env token owner repo) =? 200),
           (status_code (get_commit_activity env token owner repo) =? 200);
    cbn [negb]; run_github; eexists; (split; [reflexivity |]);
    cbn; repeat split; reflexivity.
Qed.

Lemma get_repo_metrics_not_found
  (env : Env) (library_name owner repo : string) (token : option string) (w : World) :
  status_code (get_repo env token owner repo) <> 200 ->
  fst (github_repo_etl.get_repo_metrics env library_name owner repo token w) = Returned None /\
  only_printed w (snd (github_repo_etl.get_repo_metrics env library_name owner repo token w)).
Proof.
  intro Hmissing. apply Z.eqb_neq in Hmissing.
  unfold github_repo_etl.get_repo_metrics. cbv zeta. rewrite Hmissing. cbn [negb].
  unfold only_printed. run_github. now repeat split.
Qed.

(** X13.  A statistics request that does not return 200 does not lose
    the library: when the repository request returned 200,
    [get_repo_metrics] returns a row in any case; the two contributor
    aggregates are null exactly when the contributors request failed,
    and the two commit aggregates exactly when the commit-activity
    request failed. *)
Theorem get_repo_metrics_survives_failed_stats
  (env : Env) (library_name owner repo : string) (token : option string) (w : World) :
  status_code (get_repo env token owner repo) = 200 ->
  exists m,
    fst (github_repo_etl.get_repo_metrics env library_name owner repo token w) =
      Returned (Some m) /\
    (github_repo_etl.total_contributors m = None <->
       status_code (get_contributors env token owner repo) <> 200) /\
    (github_repo_etl.total_commits m = None <->
       status_code (get_contributors env token owner repo) <> 200) /\
    (github_repo_etl.commits_last_year m = None <->
       status_code (get_commit_activity env token owner repo) <> 200) /\
    (github_repo_etl.commits_last_month m = None <->
       status_code (get_commit_activity env token owner repo) <> 200).
Proof.
  intro Hfound.
  destruct (get_repo_metrics_found env library_name owner repo token w Hfound)
    as (m & Hm & _ & _ & _ & _ & Hcontributors & Hcommits).
  exists m. split; [exact Hm |].
  destruct (Z.eqb_spec (status_code (get_contributors env token owner repo)) 200) as [Hc | Hc];
    destruct (Z.eqb_spec (status_code (get_commit_activity env token owner repo)) 200) as [Ha | Ha];
    inversion Hcontributors as [[Hc1 Hc2]]; inversion Hcommits as [[Ha1 Ha2]];
    repeat split; intros; try congruence; try discriminate.
Qed.

Lemma get_repo_metrics_survives_failed_stats_witness :
  status_code (get_repo (sample_env false no_failure) (Some "set") "numpy" "numpy") = 200 /\
  exists m,
    fst (github_repo_etl.get_repo_metrics (sample_env false no_failure)
           "numpy" "numpy" "numpy" (Some "set") sample_world) = Returned (Some m) /\
    github_repo_etl.total_contributors m = None.
Proof.
  split; [reflexivity |].
  destruct (get_repo_metrics_survives_failed_stats (sample_env false no_failure)
              "numpy" "numpy" "numpy" (Some "set") sample_world eq_refl)
    as (m & Hm & Hnull & _).
  exists m. split; [exact Hm |].
  apply Hnull. simpl. discriminate.
Defined.

(** X14.  When no week of the commit activity has a negative total, the
    commits of the trailing month returned by [get_repo_metrics] are
    between 0 and the commits of the trailing year, and the two are
    equal when at most four weeks are reported. *)
Theorem commits_last_month_within_last_year
  (env : Env) (library_name owner repo : string) (token : option string) (w : World)
  (m : github_repo_etl.Metrics) (year month : Z) :
  Forall (fun v => 0 <= github_repo_etl.get_or_zero v)
         (json (get_commit_activity env token owner repo)) ->
  fst (github_repo_etl.get_repo_metrics env library_name owner repo token w) =
    Returned (Some m) ->
  github_repo_etl.commits_last_year m = Some year ->
  github_repo_etl.commits_last_month m = Some month ->
  0 <= month <= year /\
  ((List.length (json (get_commit_activity env token owner repo)) <= 4)%nat -> month = year).
Proof.
  intros Hnonneg Hm Hyear Hmonth.
  destruct (Z.eqb_spec (status_code (get_repo env token owner repo)) 200) as [Hfound | Hmissing].
  2: { destruct (get_repo_metrics_not_found env library_name owner repo token w Hmissing)
         as [Hnone _]. congruence. }
  destruct (get_repo_metrics_found env library_name owner repo token w Hfound)
    as (m' & Hm' & _ & _ & _ & _ & _ & Hcommits).
  assert (m' = m) by congruence. subst m'.
  rewrite Hyear, Hmonth in Hcommits.
  destruct (status_code (get_commit_activity env token owner repo) =? 200); [| discriminate].
  inversion Hcommits as [[Hy Hmo]]. clear Hcommits.
  destruct (recent_weeks_suffix (json (get_commit_activity env token owner repo)))
    as (earlier & Hsplit & Hshort & _).
  set (weeks := json (get_commit_activity env token owner repo)) in *.
  assert (Hsum : github_repo_etl.sum_total weeks =
                 github_repo_etl.sum_total earlier +
                 github_repo_etl.sum_total (github_repo_etl.recent_weeks weeks)).
  { rewrite Hsplit at 1. apply sum_total_app. }
  rewrite Hsplit in Hnonneg. apply Forall_app in Hnonneg. destruct Hnonneg as [He Hr].
  pose proof (sum_total_nonneg _ He). pose proof (sum_total_nonneg _ Hr).
  split; [lia |].
  intro Hlen. specialize (Hshort Hlen). subst earlier.
  unfold github_repo_etl.sum_total at 2 in Hsum. simpl in Hsum. lia.
Qed.

Lemma commits_last_month_within_last_year_witness :
  exists m,
    fst (github_repo_etl.get_repo_metrics (sample_env false no_failure)
           "numpy" "numpy" "numpy" (Some "set") sample_world) = Returned (Some m) /\
    github_repo_etl.commits_last_year m = Some 12 /\
    github_repo_etl.commits_last_month m = Some 11 /\
    0 <= 11 <= 12.
Proof.
  eexists. split; [reflexivity |]. split; [reflexivity |]. split; [reflexivity |].
  refine (proj1 (commits_last_month_within_last_year (sample_env false no_failure)
                   "numpy" "numpy" "numpy" (Some "set") sample_world _ 12 11 _ eq_refl
                   eq_refl eq_refl)).
  simpl. repeat constructor; simpl; lia.
Defined.

Lemma bind_raised {S A B : Type} (m : Eff S A) (k : A -> Eff S B) (s s' : S) (e : exn) :
  m s = (Raised e, s') -> bind m k s = (Raised e, s').
Proof. intro H. unfold bind. now rewrite H. Qed.

(** The loop of [main] stamps the libraries it finds with successive
    readings of the clock and copies the stars GitHub reported. *)
Lemma collect_metrics_clock
  (env : Env) (config : github_repo_etl.Config) (libraries : list Library) :
  forall (all_metrics : list github_repo_etl.Metrics) (w : World),
  exists batch,
    fst (github_repo_etl.collect_metrics env config libraries all_metrics w) =
      Returned (all_metrics ++ batch)%list /\
    ticks (snd (github_repo_etl.collect_metrics env config libraries all_metrics w)) =
      (ticks w + List.length batch)%nat /\
    map github_repo_etl.collected_at batch =
      map (now env) (seq (ticks w) (List.length batch)) /\
    map (fun m => (github_repo_etl.library_name m, github_repo_etl.stars m)) batch =
      map (fun l => (lib_name l,
                     github_repo_etl.get_or_zero
                       (stargazers_count
                          (json (get_repo env (github_repo_etl.github_token config)
                                   (lib_github_owner l) (lib_github_repo l))))))
          (filter (repo_found env (github_repo_etl.github_token config)) libraries).
Proof.
  induction libraries as [| library rest IH]; intros all_metrics w.
  - exists []. simpl. rewrite app_nil_r, Nat.add_0_r. auto.
  - cbn [filter].
    set (w1 := snd (print ("Fetching metrics for " ++ lib_name library ++ " ("
                           ++ lib_github_owner library ++ "/" ++ lib_github_repo library
                           ++ ")...") w)).
    assert (Hw1 : ticks w1 = ticks w) by reflexivity.
    unfold repo_found at 1.
    destruct (Z.eqb_spec (status_code (get_repo env (github_repo_etl.github_token config)
                                         (lib_github_owner library) (lib_github_repo library)))
                         200) as [Hfound | Hmissing].
    + destruct (get_repo_metrics_found env (lib_name library) (lib_github_owner library)
                  (lib_github_repo library) (github_repo_etl.github_token config) w1 Hfound)
        as (m & Hm & Hticks & Hname & Hstars & Hstamp & _).
      destruct (github_repo_etl.get_repo_metrics env (lib_name library)
                  (lib_github_owner library) (lib_github_repo library)
                  (github_repo_etl.github_token config) w1) as [r w2] eqn:Hget.
      cbn [fst snd] in Hm, Hticks. subst r.
      assert (Hstep : github_repo_etl.collect_metrics env config (library :: rest) all_metrics w =
                      github_repo_etl.collect_metrics env config rest (all_metrics ++ [m])%list w2).
      { cbn [github_repo_etl.collect_metrics]. unfold bind at 1. cbn [print].
        exact (bind_returned _ _ _ _ _ Hget). }
      rewrite Hstep.
      destruct (IH (all_metrics ++ [m])%list w2) as (batch & Hfst & Hclock & Hstamps & Hrows).
      exists (m :: batch). rewrite Hfst, <- app_assoc. split; [reflexivity |].
      split; [rewrite Hclock, Hticks, Hw1; simpl; lia |].
      split.
      * cbn [map List.length seq]. rewrite Hstamp, Hw1, Hstamps, Hticks, Hw1. reflexivity.
      * cbn [map]. now rewrite Hname, Hstars, Hrows.
    + destruct (get_repo_metrics_not_found env (lib_name library) (lib_github_owner library)
                  (lib_github_repo library) (github_repo_etl.github_token config) w1 Hmissing)
        as (Hnone & _ & _ & Hticks & _).
      destruct (github_repo_etl.get_repo_metrics env (lib_name library)
                  (lib_github_owner library) (lib_github_repo library)
                  (github_repo_etl.github_token config) w1) as [r w2] eqn:Hget.
      cbn [fst snd] in Hnone, Hticks. subst r.
      assert (Hstep : github_repo_etl.collect_metrics env config (library :: rest) all_metrics w =
                      github_repo_etl.collect_metrics env config rest all_metrics w2).
      { cbn [github_repo_etl.collect_metrics]. unfold bind at 1. cbn [print].
        exact (bind_returned _ _ _ _ _ Hget). }
      rewrite Hstep.
      destruct (IH all_metrics w2) as (batch & Hfst & Hclock & Hstamps & Hrows).
      exists batch. rewrite Hfst, Hclock, Hstamps, Hticks, Hw1. auto.
Qed.

Lemma github_load_config_returns (env : Env) (w : World) :
  github_configured env = true ->
  exists libraries,
    config_json env = Some libraries /\
    github_repo_etl.load_config env w = (Returned (github_config env libraries), w).
Proof.
  unfold github_configured, github_repo_etl.load_config.
  destruct (config_json env) as [libraries |]; [| discriminate].
  intro Hok. apply andb_true_iff in Hok. destruct Hok as [Htoken Hsnow].
  exists libraries. split; [reflexivity |].
  cbv zeta. cbn [github_repo_etl.github_token github_repo_etl.snowflake].
  now rewrite Htoken, Hsnow.
Qed.

(** A complete run: the metrics collected are inserted after the rows
    already stored, as the rows [row_of] makes of them. *)
Lemma github_main_spec (env : Env) (w : World) :
  github_configured env = true ->
  (forall c, fails env c = None) ->
  exists libraries ms,
    config_json env = Some libraries /\
    fst (github_repo_etl.collect_metrics env (github_config env libraries) libraries [] w) =
      Returned ms /\
    fst (github_repo_etl.main env w) = Returned tt /\
    github_repo_metrics (committed (snd (github_repo_etl.main env w))) =
      (github_repo_metrics (committed w) ++ map github_repo_etl.row_of ms)%list.
Proof.
  intros Hconfigured Hok.
  destruct (github_load_config_returns env w Hconfigured) as (libraries & Hjson & Hload).
  exists libraries.
  destruct (collect_metrics_spec env (github_config env libraries) libraries [] w)
    as (ms & Hfst & Hsame & _).
  exists ms. split; [exact Hjson |]. split; [exact Hfst |].
  unfold github_repo_etl.main.
  rewrite (bind_returned _ _ _ _ _ Hload).
  cbn [github_repo_etl.libraries github_repo_etl.snowflake github_config].
  fold (github_config env libraries).
  destruct (github_repo_etl.collect_metrics env (github_config env libraries) libraries [] w)
    as [r w1] eqn:Hcollect.
  cbn [fst snd app] in Hfst, Hsame. subst r.
  rewrite (bind_returned _ _ _ _ _ Hcollect).
  destruct (insert_metrics_spec env ms (snowflake_of_env env) w1 Hok) as [Hins Hrows].
  destruct (github_repo_etl.insert_metrics env ms (snowflake_of_env env) w1)
    as [r w2] eqn:Hinsert.
  cbn [fst snd] in Hins, Hrows. subst r.
  rewrite (bind_returned _ _ _ _ _ Hinsert).
  cbn [print fst snd committed].
  destruct Hsame as (Hcommitted & _ & _). rewrite Hrows, Hcommitted.
  split; reflexivity.
Qed.

Lemma map_pair_combine (A B C : Type) (f : A -> B) (g : A -> C) (l : list A) :
  map (fun x => (f x, g x)) l = combine (map f l) (map g l).
Proof.
  induction l as [| x l IH]; simpl; [reflexivity | now rewrite IH].
Qed.

(** X15.  In a complete ingestion run, the rows appended to the GitHub
    snapshot table are one per configured library that GitHub knows, in
    the order of the configuration, and they are stamped with
    successive readings of the clock: the first library found gets the
    first reading taken after the start of the run, the second one the
    next, and so on.  A library that is not found gets no row and
    consumes no reading. *)
Theorem github_main_stamps_successive_readings
  (env : Env) (libraries : list Library) (w : World) :
  config_json env = Some libraries ->
  github_configured env = true ->
  (forall c, fails env c = None) ->
  exists batch,
    github_repo_metrics (committed (snd (github_repo_etl.main env w))) =
      (github_repo_metrics (committed w) ++ batch)%list /\
    map (fun r => (Github.name r, Github.collected_at r)) batch =
      combine
        (map lib_name (filter (repo_found env (getenv env "GITHUB_TOKEN")) libraries))
        (map (now env)
           (seq (ticks w)
              (List.length (filter (repo_found env (getenv env "GITHUB_TOKEN")) libraries)))).
Proof.
  intros Hjson Hconfigured Hok.
  destruct (github_main_spec env w Hconfigured Hok) as (libraries' & ms & Hjson' & Hms & _ & Hrows).
  assert (libraries' = libraries) by congruence. subst libraries'.
  destruct (collect_metrics_clock env (github_config env libraries) libraries [] w)
    as (batch & Hfst & _ & Hstamps & Hstars).
  rewrite Hms in Hfst. inversion Hfst; subst ms. clear Hfst.
  cbn [github_repo_etl.github_token github_config] in Hstars.
  exists (map github_repo_etl.row_of batch). split; [exact Hrows |].
  rewrite map_map.
  change (map (fun m => (github_repo_etl.library_name m, github_repo_etl.collected_at m)) batch =
          combine
            (map lib_name (filter (repo_found env (getenv env "GITHUB_TOKEN")) libraries))
            (map (now env)
               (seq (ticks w)
                  (List.length (filter (repo_found env (getenv env "GITHUB_TOKEN")) libraries))))).
  assert (Hnames : map github_repo_etl.library_name batch =
                   map lib_name (filter (repo_found env (getenv env "GITHUB_TOKEN")) libraries)).
  { apply (f_equal (map fst)) in Hstars. rewrite !map_map in Hstars. exact Hstars. }
  assert (Hlen : List.length batch =
                 List.length (filter (repo_found env (getenv env "GITHUB_TOKEN")) libraries)).
  { rewrite <- (length_map github_repo_etl.library_name batch), Hnames. apply length_map. }
  rewrite map_pair_combine, Hstamps, Hnames, Hlen. reflexivity.
Qed.

(** numpy, an unknown library and pandas, with a clock that starts at
    100: numpy is stamped 100 and pandas 101. *)
Lemma github_main_stamps_successive_readings_witness :
  github_configured three_library_env = true /\
  map (fun r => (Github.name r, Github.collected_at r))
      (skipn 2 (github_repo_metrics
                  (committed (snd (github_repo_etl.main three_library_env sample_world))))) =
    [("numpy", 100); ("pandas", 101)].
Proof.
  split; [reflexivity |].
  destruct (github_main_stamps_successive_readings three_library_env [numpy; ghost; pandas]
              sample_world eq_refl eq_refl (fun c => eq_refl)) as (batch & Hrows & Hstamps).
  rewrite Hrows. exact Hstamps.
Defined.

(** X16.  When no configured library is found on GitHub (or none is
    configured), the ingestion run returns without opening a connection:
    it has only printed, and the warehouse and the clock are as they
    were, whether or not the warehouse would have accepted anything. *)
Theorem github_main_without_found_library (env : Env) (w : World) :
  github_configured env = true ->
  (forall libraries library,
     config_json env = Some libraries -> In library libraries ->
     repo_found env (getenv env "GITHUB_TOKEN") library = false) ->
  fst (github_repo_etl.main env w) = Returned tt /\
  only_printed w (snd (github_repo_etl.main env w)).
Proof.
  intros Hconfigured Hnone.
  destruct (github_load_config_returns env w Hconfigured) as (libraries & Hjson & Hload).
  destruct (collect_metrics_spec env (github_config env libraries) libraries [] w)
    as (ms & Hfst & Hsame & Hnames).
  destruct (collect_metrics_clock env (github_config env libraries) libraries [] w)
    as (batch & Hfst' & Hclock & _).
  rewrite Hfst in Hfst'. inversion Hfst'; subst batch. clear Hfst'.
  assert (Hempty : filter (repo_found env (getenv env "GITHUB_TOKEN")) libraries = []).
  { assert (Hall : forall l, In l libraries ->
                     repo_found env (getenv env "GITHUB_TOKEN") l = false)
      by (intros l Hl; exact (Hnone libraries l Hjson Hl)).
    clear - Hall. induction libraries as [| l rest IH]; simpl; [reflexivity |].
    rewrite (Hall l (or_introl eq_refl)). apply IH. intros x Hx. apply Hall. now right. }
  cbn [github_repo_etl.github_token github_config] in Hnames.
  rewrite Hempty in Hnames. destruct ms as [| m ms]; [| discriminate].
  unfold github_repo_etl.main.
  rewrite (bind_returned _ _ _ _ _ Hload).
  cbn [github_repo_etl.libraries github_repo_etl.snowflake github_config].
  fold (github_config env libraries).
  destruct (github_repo_etl.collect_metrics env (github_config env libraries) libraries [] w)
    as [r w1] eqn:Hcollect.
  cbn [fst snd app List.length] in Hfst, Hsame, Hclock. subst r.
  rewrite (bind_returned _ _ _ _ _ Hcollect).
  unfold github_repo_etl.insert_metrics, bind, print. cbn [fst snd].
  split; [reflexivity |].
  destruct Hsame as (Hcommitted & Hworking & Hcalls).
  unfold only_printed. cbn [committed working ticks calls].
  rewrite Hcommitted, Hworking, Hcalls, Hclock. repeat split. lia.
Qed.

Lemma github_main_without_found_library_witness :
  github_configured ghost_only_env = true /\
  fails ghost_only_env Connect = Some "warehouse down" /\
  fst (github_repo_etl.main ghost_only_env sample_world) = Returned tt.
Proof.
  split; [reflexivity |]. split; [reflexivity |].
  refine (proj1 (github_main_without_found_library ghost_only_env sample_world eq_refl _)).
  intros libraries library Hjson Hin. simpl in Hjson. inversion Hjson; subst libraries.
  destruct Hin as [<- | []]. reflexivity.
Defined.

(** The insertion loop makes [execute] calls only, ends by returning or
    by raising an [Exception], and commits nothing when statements do
    not commit on their own. *)
Lemma insert_loop_calls (env : Env) (metrics_list : list github_repo_etl.Metrics) :
  forall w,
    let run := for_each metrics_list
                 (fun metrics => execute env (InsertGithub (github_repo_etl.row_of metrics)) ;; ret tt) w in
    only_calls opens_or_writes w (snd run) /\
    (fst run = Returned tt \/ exists msg, fst run = Raised (Exception msg)) /\
    (autocommit env = false -> committed (snd run) = committed w).
Proof.
  induction metrics_list as [| m rest IH]; intro w; cbn zeta.
  - simpl. split; [exists []; now rewrite app_nil_r |]. auto.
  - destruct (fails env (Execute (InsertGithub (github_repo_etl.row_of m)))) as [msg |] eqn:Hf.
    + assert (Hrun : for_each (m :: rest)
                       (fun metrics => execute env (InsertGithub (github_repo_etl.row_of metrics)) ;; ret tt) w =
                     (Raised (Exception msg),
                      record_call (Execute (InsertGithub (github_repo_etl.row_of m))) w)).
      { cbn [for_each]. unfold bind, execute. now rewrite Hf. }
      rewrite Hrun. simpl. split.
      { exists [Execute (InsertGithub (github_repo_etl.row_of m))]. split; reflexivity. }
      split; [right; eauto | reflexivity].
    + set (w1 := snd (execute env (InsertGithub (github_repo_etl.row_of m)) w)).
      assert (Hrun : for_each (m :: rest)
                       (fun metrics => execute env (InsertGithub (github_repo_etl.row_of metrics)) ;; ret tt) w =
                     for_each rest
                       (fun metrics => execute env (InsertGithub (github_repo_etl.row_of metrics)) ;; ret tt) w1).
      { cbn [for_each]. unfold w1, bind, execute, ret. now rewrite Hf. }
      rewrite Hrun. specialize (IH w1). cbn zeta in IH.
      destruct IH as ((made & Hmade & Hallowed) & Hout & Hcommitted).
      assert (Hcalls : calls w1 = (calls w ++ [Execute (InsertGithub (github_repo_etl.row_of m))])%list).
      { unfold w1, execute. now rewrite Hf. }
      split; [| split; [exact Hout |]].
      * exists (Execute (InsertGithub (github_repo_etl.row_of m)) :: made).
        rewrite Hmade, Hcalls, <- app_assoc. split; [reflexivity | exact Hallowed].
      * intro Hauto. rewrite (Hcommitted Hauto).
        unfold w1, execute, commits_at_once. rewrite Hf, Hauto. reflexivity.
Qed.


(** X17.  When [insert_metrics] fails, at the connection, at an insert
    or at the commit, the error it raises is an [Exception] that
    propagates as it is: the function has made no rollback and has
    closed neither the cursor nor the connection; and when statements
    do not commit on their own, no row of the batch has been
    committed. *)
Theorem insert_metrics_failure_leaves_connection_open
  (env : Env) (metrics_list : list github_repo_etl.Metrics) (cfg : SnowflakeConfig)
  (w : World) (e : exn) :
  fst (github_repo_etl.insert_metrics env metrics_list cfg w) = Raised e ->
  (exists msg, e = Exception msg) /\
  only_calls opens_or_writes w (snd (github_repo_etl.insert_metrics env metrics_list cfg w)) /\
  (autocommit env = false ->
   committed (snd (github_repo_etl.insert_metrics env metrics_list cfg w)) = committed w).
Proof.
  unfold github_repo_etl.insert_metrics.
  destruct metrics_list as [| m rest]; [discriminate |].
  set (ms := m :: rest).
  destruct (fails env Connect) as [msg |] eqn:Hconnect.
  { assert (Hrun : connect env cfg w = (Raised (Exception msg), record_call Connect w)).
    { unfold connect. now rewrite Hconnect. }
    rewrite (bind_raised _ _ _ _ _ Hrun). simpl. intro H. inversion H; subst e. split; [eauto |].
    split; [exists [Connect]; split; reflexivity | reflexivity]. }
  set (w0 := snd (connect env cfg w)).
  assert (Hw0 : connect env cfg w = (Returned tt, w0)).
  { unfold w0, connect. now rewrite Hconnect. }
  assert (Hcalls0 : calls w0 = (calls w ++ [Connect])%list /\ committed w0 = committed w).
  { unfold w0, connect. rewrite Hconnect. split; reflexivity. }
  destruct Hcalls0 as [Hcalls0 Hcommitted0].
  rewrite (bind_returned _ _ _ _ _ Hw0).
  pose proof (insert_loop_calls env ms w0) as Hloop. cbn zeta in Hloop.
  destruct (for_each ms _ w0) as [r w1] eqn:Hfor. cbn [fst snd] in Hloop.
  destruct Hloop as ((made & Hmade & Hallowed) & Hout & Hcommitted).
  destruct Hout as [-> | [msg ->]].
  2: { rewrite (bind_raised _ _ _ _ _ Hfor). simpl.
       intro H. inversion H; subst e. split; [eauto |]. split.
       - exists (Connect :: made). rewrite Hmade, Hcalls0, <- app_assoc. simpl. auto.
       - intro Hauto. now rewrite (Hcommitted Hauto). }
  rewrite (bind_returned _ _ _ _ _ Hfor).
  destruct (fails env Commit) as [msg |] eqn:Hcommit.
  { assert (Hrun : commit env w1 = (Raised (Exception msg), record_call Commit w1)).
    { unfold commit. now rewrite Hcommit. }
    rewrite (bind_raised _ _ _ _ _ Hrun). simpl. intro H. inversion H; subst e. split; [eauto |]. split.
    - exists (Connect :: made ++ [Commit])%list. simpl.
      rewrite Hmade, Hcalls0, <- !app_assoc. simpl. split; [reflexivity |].
      rewrite forallb_app, Hallowed. reflexivity.
    - intro Hauto. now rewrite (Hcommitted Hauto). }
  unfold bind, commit, cursor_close, conn_close, print. rewrite Hcommit. simpl.
  discriminate.
Qed.

Lemma insert_metrics_failure_leaves_connection_open_witness :
  fst (github_repo_etl.insert_metrics (sample_env false commit_fails) [sample_metrics]
         sample_credentials sample_world) = Raised (Exception "commit refused") /\
  committed (snd (github_repo_etl.insert_metrics (sample_env false commit_fails) [sample_metrics]
                    sample_credentials sample_world)) = committed sample_world.
Proof.
  split; [reflexivity |].
  exact (proj2 (proj2 (insert_metrics_failure_leaves_connection_open
                         (sample_env false commit_fails) [sample_metrics] sample_credentials
                         sample_world (Exception "commit refused") eq_refl)) eq_refl).
Defined.

(** With an incomplete configuration, [github_repo_etl.main] prints
    and exits with code 1. *)
Lemma github_main_unconfigured (env : Env) (w : World) :
  github_configured env = false ->
  fst (github_repo_etl.main env w) = Raised (SystemExit 1) /\
  only_printed w (snd (github_repo_etl.main env w)).
Proof.
  intro Hconfigured. unfold github_configured in Hconfigured.
  unfold only_printed, github_repo_etl.main, github_repo_etl.load_config,
    bind, exit, raise, print, ret.
  destruct (config_json env); cbv zeta;
    cbn [github_repo_etl.github_token github_repo_etl.snowflake];
    [| simpl; now repeat split].
  destruct (truthy (getenv env "GITHUB_TOKEN")); simpl in *; [| now repeat split].
  rewrite Hconfigured. simpl. now repeat split.
Qed.



Lemma In_map_pair (A B C : Type) (f : A -> B) (g : C -> B) (l : list A) (l' : list C) (x : A) :
  map f l = map g l' -> In x l -> exists y, In y l' /\ g y = f x.
Proof.
  intros Hmap Hx. apply (in_map f) in Hx. rewrite Hmap in Hx.
  apply in_map_iff in Hx. destruct Hx as (y & Hy & Hin). eauto.
Qed.

(** X19.  Ingestion and publication compose: after a complete
    ingestion run followed by a run of the Publisher, in a warehouse
    that accepts every call, each configured library that GitHub knows
    has a row in the published table. *)
Theorem ingested_library_is_published
  (env : Env) (cfg : SnowflakeConfig) (w : World) (libraries : list Library) (library : Library) :
  github_configured env = true ->
  (forall c, fails env c = None) ->
  config_json env = Some libraries ->
  In library libraries ->
  repo_found env (getenv env "GITHUB_TOKEN") library = true ->
  fst (load_public.load_to_snowflake env cfg (snd (github_repo_etl.main env w))) = Returned tt /\
  In (lib_name library)
     (map Public.name
        (published (snd (load_public.load_to_snowflake env cfg (snd (github_repo_etl.main env w)))))).
Proof.
  intros Hconfigured Hok Hjson Hin Hfound.
  assert (Hreturned : fst (load_public.load_to_snowflake env cfg (snd (github_repo_etl.main env w))) =
                      Returned tt).
  { apply load_to_snowflake_returns; [apply Hok |].
    unfold first_failure. now rewrite !Hok. }
  split; [exact Hreturned |].
  unfold published. rewrite (load_to_snowflake_returned _ _ _ Hreturned). cbn [tech_metrics].
  destruct (github_main_spec env w Hconfigured Hok) as (libraries' & ms & Hjson' & Hms & _ & Hrows).
  assert (libraries' = libraries) by congruence. subst libraries'.
  assert (Hstored : exists r, In r (github_repo_metrics (committed (snd (github_repo_etl.main env w)))) /\
                              Github.name r = lib_name library).
  2: { destruct Hstored as (r & Hr & <-). now apply github_identity_is_published. }
  rewrite Hrows. setoid_rewrite in_app_iff.
  destruct (collect_metrics_spec env (github_config env libraries) libraries [] w)
    as (batch & Hfst & _ & Hnames).
  rewrite Hms in Hfst. inversion Hfst; subst batch. clear Hfst.
  assert (Hlib : In library (filter (repo_found env (getenv env "GITHUB_TOKEN")) libraries))
    by (apply filter_In; auto).
  cbn [github_repo_etl.github_token github_config] in Hnames.
  symmetry in Hnames.
  destruct (In_map_pair _ _ _ _ _ _ _ library Hnames Hlib) as (m & Hm & Heq).
  injection Heq as Hname _ _.
  exists (github_repo_etl.row_of m). split; [| exact Hname].
  right. now apply in_map.
Qed.

Lemma ingested_library_is_published_witness :
  github_configured (sample_env false no_failure) = true /\
  repo_found (sample_env false no_failure) (Some "set") numpy = true /\
  In "numpy"
     (map Public.name
        (published (snd (load_public.load_to_snowflake (sample_env false no_failure)
                           sample_credentials
                           (snd (github_repo_etl.main (sample_env false no_failure) sample_world)))))).
Proof.
  split; [reflexivity |]. split; [reflexivity |].
  exact (proj2 (ingested_library_is_published (sample_env false no_failure) sample_credentials
                  sample_world [numpy; ghost] numpy eq_refl (fun c => eq_refl) eq_refl
                  (or_introl eq_refl) eq_refl)).
Defined.

Lemma NoDup_map_injective (A B : Type) (f : A -> B) (l : list A) (x y : A) :
  NoDup (map f l) -> In x l -> In y l -> f x = f y -> x = y.
Proof.
  induction l as [| a l IH]; simpl; intros Hnd Hx Hy Heq; [destruct Hx |].
  inversion Hnd as [| ? ? Hfresh Hrest]; subst.
  destruct Hx as [-> | Hx], Hy as [-> | Hy]; auto.
  - exfalso. apply Hfresh. rewrite Heq. now apply in_map.
  - exfalso. apply Hfresh. rewrite <- Heq. now apply in_map.
Qed.

(** X20.  The freshly ingested figures are the ones published.  For a
    configured library with a name of its own that GitHub knows and for
    which it reports a star count, when the clock readings of the run
    are above the [collected_at] of the library's stored snapshots,
    every row the Publisher then publishes for the library carries the
    star count GitHub just reported, not one of a stored snapshot. *)
Theorem fresh_stars_are_published
  (env : Env) (cfg : SnowflakeConfig) (w : World) (libraries : list Library)
  (library : Library) (o : Public.row) (reported : Z) :
  github_configured env = true ->
  (forall c, fails env c = None) ->
  config_json env = Some libraries ->
  NoDup (map lib_name libraries) ->
  In library libraries ->
  repo_found env (getenv env "GITHUB_TOKEN") library = true ->
  stargazers_count (json (get_repo env (getenv env "GITHUB_TOKEN")
                            (lib_github_owner library) (lib_github_repo library))) =
    Some reported ->
  (forall x k, In x (github_repo_metrics (committed w)) ->
               Github.name x = lib_name library -> (ticks w <= k)%nat ->
               Github.collected_at x < now env k) ->
  In o (published (snd (load_public.load_to_snowflake env cfg (snd (github_repo_etl.main env w))))) ->
  Public.name o = lib_name library ->
  Public.stars o = reported.
Proof.
  intros Hconfigured Hok Hjson Hnames Hin Hfound Hreported Hclock Ho Hname.
  assert (Hcount : github_repo_etl.get_or_zero
                     (stargazers_count (json (get_repo env (getenv env "GITHUB_TOKEN")
                                                (lib_github_owner library) (lib_github_repo library)))) =
                   reported)
    by (rewrite Hreported; reflexivity).
  rewrite <- Hcount. clear Hcount Hreported.
  assert (Hreturned : fst (load_public.load_to_snowflake env cfg (snd (github_repo_etl.main env w))) =
                      Returned tt).
  { apply load_to_snowflake_returns; [apply Hok |].
    unfold first_failure. now rewrite !Hok. }
  unfold published in Ho. rewrite (load_to_snowflake_returned _ _ _ Hreturned) in Ho.
  cbn [tech_metrics] in Ho. unfold combined_query in Ho.
  apply published_row_origin in Ho. destruct Ho as (g & p & Hg & ->).
  rewrite name_select_row in Hname. change (Public.stars (select_row g p)) with (Github.stars g).
  apply In_latest in Hg. destruct Hg as [Hg Hmax].
  destruct (github_main_spec env w Hconfigured Hok) as (libraries' & ms & Hjson' & Hms & _ & Hrows).
  assert (libraries' = libraries) by congruence. subst libraries'.
  destruct (collect_metrics_clock env (github_config env libraries) libraries [] w)
    as (batch & Hfst & _ & Hstamps & Hstars).
  rewrite Hms in Hfst. inversion Hfst; subst batch. clear Hfst.
  cbn [github_repo_etl.github_token github_config] in Hstars.
  rewrite Hrows in Hg, Hmax.
  assert (Hlib : In library (filter (repo_found env (getenv env "GITHUB_TOKEN")) libraries))
    by (apply filter_In; auto).
  (* the row ingested for the library *)
  symmetry in Hstars.
  destruct (In_map_pair _ _ _ _ _ _ _ library Hstars Hlib) as (m0 & Hm0 & Heq0).
  injection Heq0 as Hname0 Hstars0. symmetry in Hstars.
  assert (Hstamp0 : exists k, (ticks w <= k)%nat /\ github_repo_etl.collected_at m0 = now env k).
  { apply (in_map github_repo_etl.collected_at) in Hm0. rewrite Hstamps in Hm0.
    apply in_map_iff in Hm0. destruct Hm0 as (k & Hk & Hseq).
    apply in_seq in Hseq. exists k. split; [lia | now symmetry]. }
  destruct Hstamp0 as (k0 & Hk0 & Hstamp0).
  apply in_app_or in Hg. destruct Hg as [Hold | Hnew].
  - exfalso.
    specialize (Hmax (github_repo_etl.row_of m0)
                  (in_or_app _ _ _ (or_intror (in_map _ _ _ Hm0)))).
    cbn [github_repo_etl.row_of Github.name Github.collected_at] in Hmax.
    specialize (Hmax ltac:(congruence)).
    specialize (Hclock g k0 Hold Hname Hk0). lia.
  - apply in_map_iff in Hnew. destruct Hnew as (m & <- & Hm).
    cbn [github_repo_etl.row_of Github.name Github.stars] in *.
    destruct (In_map_pair _ _ _ _ _ _ _ m Hstars Hm) as (l & Hl & Heq).
    injection Heq as Hnamel Hstarsl.
    apply filter_In in Hl. destruct Hl as [Hl _].
    assert (l = library).
    { apply (NoDup_map_injective _ _ lib_name libraries); auto. congruence. }
    subst l. now symmetry.
Qed.

(** The warehouse holds a snapshot of numpy taken at time 50 with 7
    stars; the run reads the clock at 100 and GitHub reports 30 stars:
    the row published for numpy carries 30. *)
Lemma fresh_stars_are_published_witness :
  In (github_snapshot "numpy" 7 50) (github_repo_metrics (committed seen_world)) /\
  (forall k, Github.collected_at (github_snapshot "numpy" 7 50) < now three_library_env k) /\
  map (fun o => (Public.name o, Public.stars o))
      (published (snd (load_public.load_to_snowflake three_library_env
                         sample_credentials
                         (snd (github_repo_etl.main three_library_env seen_world))))) =
    [("A", 10); ("numpy", 30); ("pandas", 30)] /\
  Public.stars
    (select_row (github_repo_etl.row_of sample_metrics) None) = 30.
Proof.
  assert (Hnames : NoDup (map lib_name [numpy; ghost; pandas])).
  { simpl. repeat constructor; simpl; intuition discriminate. }
  assert (Hclock : forall k, Github.collected_at (github_snapshot "numpy" 7 50) <
                             now three_library_env k).
  { intro k. change (50 < 100 + Z.of_nat k). lia. }
  split; [now left |]. split; [exact Hclock |]. split; [reflexivity |].
  refine (fresh_stars_are_published three_library_env sample_credentials
            seen_world [numpy; ghost; pandas] numpy
            (select_row (github_repo_etl.row_of sample_metrics) None) 30
            eq_refl (fun c => eq_refl) eq_refl Hnames (or_introl eq_refl) eq_refl eq_refl
            _ _ eq_refl).
  - intros x k [<- | [<- | []]] Hx Hk; [apply Hclock | discriminate Hx].
  - vm_compute. right. left. reflexivity.
Defined.

(** ** The orchestrator, when a phase does not come back *)

Ltac step_script :=
  cbv beta iota zeta delta
    [fst snd bind ret raise try_except main_py.lift main_py.log main_py.sys_exit
     main_py.script main_py.main
     main_py.run_github_etl main_py.run_pypi_etl main_py.run_load_public
     datetime_now print main_py.world main_py.etl_orchestrator_log
     main_py.github_success main_py.pypi_success main_py.combine_success
     main_py.all_values committed working ticks calls stdout
     succeeded caught exit_status negb andb].

Ltac find_record :=
  first [ now (apply in_or_app; right; left)
        | apply in_or_app; left; find_record ].

(** The script, when its first phase raises [SystemExit]. *)
Lemma script_first_phase_exit
  (env : Env) (github_main pypi_main load_public_main : M unit) (p : main_py.Process) (code : Z) :
  fst (github_main (snd (datetime_now env (main_py.world p)))) = Raised (SystemExit code) ->
  fst (main_py.script env github_main pypi_main load_public_main p) = Raised (SystemExit code) /\
  main_py.world (snd (main_py.script env github_main pypi_main load_public_main p)) =
    snd (github_main (snd (datetime_now env (main_py.world p)))).
Proof.
  step_script.
  destruct (github_main _) as [[[] | [m1 | c1 |]] w1]; step_script;
    intro H; try discriminate H. inversion H; subst. auto.
Qed.

(** X21.  A phase that exits, as each [load_config] does with
    [exit(1)], ends the orchestrator at once: the script ends with the
    phase's own exit code, in the world the phase left, and the phases
    after it are not run.  This holds for the first, for the second
    after a first that returned or raised an [Exception], and for the
    third after two such phases. *)
Theorem phase_exit_ends_the_script
  (env : Env) (github_main pypi_main load_public_main : M unit) (p : main_py.Process) (code : Z) :
  let g := github_main (snd (datetime_now env (main_py.world p))) in
  let y := pypi_main (snd g) in
  let c := load_public_main (snd y) in
  let run := main_py.script env github_main pypi_main load_public_main p in
  (fst g = Raised (SystemExit code) ->
   fst run = Raised (SystemExit code) /\ main_py.world (snd run) = snd g) /\
  (caught (fst g) -> fst y = Raised (SystemExit code) ->
   fst run = Raised (SystemExit code) /\ main_py.world (snd run) = snd y) /\
  (caught (fst g) -> caught (fst y) -> fst c = Raised (SystemExit code) ->
   fst run = Raised (SystemExit code) /\ main_py.world (snd run) = snd c).
Proof.
  step_script.
  destruct (github_main _) as [[[] | [m1 | c1 |]] w1]; step_script;
    (split; [intro H; try discriminate H; inversion H; subst; auto |]);
    (split; [try (intro F; contradiction F) | try (intro F; contradiction F)]);
    destruct (pypi_main w1) as [[[] | [m2 | c2 |]] w2]; step_script;
    try (intros _ H; try discriminate H; inversion H; subst; now auto);
    try (intros _ F; contradiction F);
    destruct (load_public_main w2) as [[[] | [m3 | c3 |]] w3]; step_script;
    intros _ _ H; try discriminate H; inversion H; subst; auto.
Qed.


(** X22.  A [KeyboardInterrupt] raised in a phase is caught at the top
    of the script only: the script prints that the process was
    interrupted and exits with code 1, the phases after the interrupted
    one are not run, and the world is otherwise as the phase left it. *)
Theorem keyboard_interrupt_exits_with_code_1
  (env : Env) (github_main pypi_main load_public_main : M unit) (p : main_py.Process) :
  let g := github_main (snd (datetime_now env (main_py.world p))) in
  let y := pypi_main (snd g) in
  let c := load_public_main (snd y) in
  let run := main_py.script env github_main pypi_main load_public_main p in
  let interrupted := print (main_py.newline ++ "ETL process interrupted by user") in
  (fst g = Raised KeyboardInterrupt ->
   fst run = Raised (SystemExit 1) /\ main_py.world (snd run) = snd (interrupted (snd g))) /\
  (caught (fst g) -> fst y = Raised KeyboardInterrupt ->
   fst run = Raised (SystemExit 1) /\ main_py.world (snd run) = snd (interrupted (snd y))) /\
  (caught (fst g) -> caught (fst y) -> fst c = Raised KeyboardInterrupt ->
   fst run = Raised (SystemExit 1) /\ main_py.world (snd run) = snd (interrupted (snd c))).
Proof.
  step_script.
  destruct (github_main _) as [[[] | [m1 | c1 |]] w1]; step_script;
    (split; [intro H; try discriminate H; auto |]);
    (split; [try (intro F; contradiction F) | try (intro F; contradiction F)]);
    destruct (pypi_main w1) as [[[] | [m2 | c2 |]] w2]; step_script;
    try (intros _ H; try discriminate H; now auto);
    try (intros _ F; contradiction F);
    destruct (load_public_main w2) as [[[] | [m3 | c3 |]] w3]; step_script;
    intros _ _ H; try discriminate H; auto.
Qed.

(** X23.  With the real first phase: when the configuration of the
    GitHub ingestion is incomplete (no [config.json], no token, or a
    missing credential), the orchestrator exits with code 1 during
    phase 1; the registry ingestion and the Publisher are not run, no
    call is made to the connector and the warehouse is untouched,
    whatever the other two phases would have done. *)
Theorem incomplete_github_configuration_stops_the_pipeline
  (env : Env) (pypi_main load_public_main : M unit) (p : main_py.Process) :
  github_configured env = false ->
  let run := main_py.script env (github_repo_etl.main env) pypi_main load_public_main p in
  exit_status (fst run) = 1 /\
  committed (main_py.world (snd run)) = committed (main_py.world p) /\
  calls (main_py.world (snd run)) = calls (main_py.world p).
Proof.
  intros Hconfigured run.
  destruct (github_main_unconfigured env (snd (datetime_now env (main_py.world p))) Hconfigured)
    as [Hexit (Hcommitted & _ & _ & Hcalls)].
  destruct (script_first_phase_exit env (github_repo_etl.main env) pypi_main load_public_main
              p 1 Hexit) as [Hrun Hworld].
  unfold run. rewrite Hrun, Hworld, Hcommitted, Hcalls. repeat split.
Qed.

Lemma incomplete_github_configuration_stops_the_pipeline_witness :
  github_configured unconfigured_env = false /\
  exit_status
    (fst (main_py.script unconfigured_env (github_repo_etl.main unconfigured_env)
            quiet_phase (load_public.main unconfigured_env) sample_process)) = 1.
Proof.
  split; [reflexivity |].
  exact (proj1 (incomplete_github_configuration_stops_the_pipeline unconfigured_env
                  quiet_phase (load_public.main unconfigured_env) sample_process eq_refl)).
Defined.

(** X24.  When the three phases end by returning or by raising an
    [Exception] and at least one of them failed, the orchestrator logs
    a warning that lists the failed ones, [GITHUB], [PYPI] and
    [COMBINE] in this order, each listed exactly when its phase did not
    return. *)
Theorem failed_processes_are_logged
  (env : Env) (github_main pypi_main load_public_main : M unit) (p : main_py.Process) :
  let g := github_main (snd (datetime_now env (main_py.world p))) in
  let y := pypi_main (snd g) in
  let c := load_public_main (snd y) in
  let failed :=
    ((if succeeded (fst g) then [] else ["GITHUB"]) ++
     (if succeeded (fst y) then [] else ["PYPI"]) ++
     (if succeeded (fst c) then [] else ["COMBINE"]))%list in
  caught (fst g) -> caught (fst y) -> caught (fst c) ->
  failed <> [] ->
  In (main_py.WARNING, "Failed processes: " ++ String.concat ", " failed)
     (main_py.etl_orchestrator_log
        (snd (main_py.script env github_main pypi_main load_public_main p))).
Proof.
  step_script.
  destruct (github_main _) as [[[] | [m1 | c1 |]] w1];
    step_script; try contradiction;
    destruct (pypi_main w1) as [[[] | [m2 | c2 |]] w2];
    step_script; try contradiction;
    destruct (load_public_main w2) as [[[] | [m3 | c3 |]] w3];
    step_script; try contradiction;
    intros _ _ _ Hfailed; try (exfalso; apply Hfailed; reflexivity);
    find_record.
Qed.

Lemma failed_processes_are_logged_witness :
  caught (fst (failing_phase (snd (datetime_now (sample_env false no_failure) sample_world)))) /\
  In (main_py.WARNING, "Failed processes: GITHUB")
     (main_py.etl_orchestrator_log
        (snd (main_py.script (sample_env false no_failure) failing_phase quiet_phase
                quiet_phase sample_process))).
Proof.
  split; [exact I |].
  refine (failed_processes_are_logged (sample_env false no_failure) failing_phase quiet_phase
            quiet_phase sample_process I I I _).
  discriminate.
Defined.

(** ** The registry extraction *)

(** X25.  [pypi_etl.load_config] returns the configuration, without
    any effect, exactly when [config.json] exists and the project, the
    credentials path and the six warehouse credentials are all set and
    not empty; otherwise it exits with code 1, having only printed. *)
Theorem pypi_load_config_checks (env : Env) (w : World) :
  if pypi_configured env then
    exists libraries,
      config_json env = Some libraries /\
      pypi_etl.load_config env w =
        (Returned {| pypi_etl.gcp_project := getenv env "GOOGLE_CLOUD_PROJECT";
                     pypi_etl.gcp_credentials := getenv env "GOOGLE_APPLICATION_CREDENTIALS";
                     pypi_etl.libraries := libraries;
                     pypi_etl.snowflake := snowflake_of_env env |}, w)
  else
    fst (pypi_etl.load_config env w) = Raised (SystemExit 1) /\
    only_printed w (snd (pypi_etl.load_config env w)).
Proof.
  unfold pypi_configured, pypi_etl.load_config, only_printed, bind, exit, raise, print, ret.
  destruct (config_json env) as [libraries |]; cbv zeta;
    cbn [pypi_etl.gcp_project pypi_etl.gcp_credentials pypi_etl.snowflake];
    [| simpl; now repeat split].
  destruct (truthy (getenv env "GOOGLE_CLOUD_PROJECT")); simpl; [| now repeat split].
  destruct (truthy (getenv env "GOOGLE_APPLICATION_CREDENTIALS")); simpl; [| now repeat split].
  destruct (all_set (snowflake_of_env env)); simpl; [| now repeat split].
  exists libraries. split; reflexivity.
Qed.

Lemma dict_get_set (k k' v : string) (d : list (string * string)) :
  pypi_etl.dict_get k (pypi_etl.dict_set k' v d) =
  if String.eqb k k' then Some v else pypi_etl.dict_get k d.
Proof.
  induction d as [| [k0 v0] rest IH]; simpl.
  - reflexivity.
  - destruct (String.eqb k' k0) eqn:Hk'; simpl.
    + apply String.eqb_eq in Hk'. subst k0.
      destruct (String.eqb k k'); reflexivity.
    + rewrite IH. destruct (String.eqb k k0) eqn:Hk; [| reflexivity].
      apply String.eqb_eq in Hk. subst k0.
      destruct (String.eqb k k') eqn:Hkk'; [| reflexivity].
      apply String.eqb_eq in Hkk'. subst k'. now rewrite String.eqb_refl in Hk'.
Qed.

(** The mapping gives a package the name of the last library of the
    configuration that declares it. *)
Lemma dict_get_package_to_name (package : string) (libraries : list Library) :
  pypi_etl.dict_get package (pypi_etl.package_to_name libraries) =
  option_map lib_name (last_declaring package libraries).
Proof.
  unfold pypi_etl.package_to_name, last_declaring.
  induction libraries as [| l rest IH] using rev_ind; [reflexivity |].
  rewrite fold_left_app, rev_app_distr. simpl.
  rewrite dict_get_set, IH, String.eqb_sym.
  destruct (String.eqb (lib_pypi_package l) package); reflexivity.
Qed.

Lemma last_declaring_none (package : string) (libraries : list Library) :
  last_declaring package libraries = None <->
  ~ In package (map lib_pypi_package libraries).
Proof.
  unfold last_declaring. split.
  - intros Hnone Hin. apply in_map_iff in Hin. destruct Hin as (l & Hl & Hin).
    apply in_rev in Hin.
    apply (find_none _ _ Hnone) in Hin. rewrite Hl, String.eqb_refl in Hin. discriminate.
  - intro Hnotin.
    destruct (find _ (rev libraries)) as [l |] eqn:Hfind; [| reflexivity].
    exfalso. apply find_some in Hfind. destruct Hfind as [Hin Hl].
    apply String.eqb_eq in Hl. apply Hnotin. rewrite <- Hl.
    apply in_map. now apply in_rev.
Qed.

(** X26.  [get_pypi_stats] keeps the rows of the query as they come,
    one frame row per result row with the same package and counts, and
    names each after the last library of the configuration that
    declares its package; the name is missing exactly for a package no
    library declares.  When the client cannot be built, the error
    propagates before anything is printed; when the query raises, the
    error propagates.  In every case the function has only printed. *)
Theorem get_pypi_stats_names_rows
  (bigquery_client : option string -> result (string -> result (list pypi_etl.QueryRow)))
  (libraries : list Library) (gcp_project : option string) (w : World) :
  only_printed w (snd (pypi_etl.get_pypi_stats bigquery_client libraries gcp_project w)) /\
  match bigquery_client gcp_project with
  | Raised e =>
      pypi_etl.get_pypi_stats bigquery_client libraries gcp_project w = (Raised e, w)
  | Returned client =>
      match client (pypi_etl.query libraries) with
      | Raised e =>
          fst (pypi_etl.get_pypi_stats bigquery_client libraries gcp_project w) = Raised e
      | Returned df =>
          exists frame,
            fst (pypi_etl.get_pypi_stats bigquery_client libraries gcp_project w) = Returned frame /\
            map (fun r => (pypi_etl.pypi_name r, pypi_etl.total_downloads_alltime r,
                           pypi_etl.downloads_last_month r, pypi_etl.downloads_last_year r)) frame =
              map (fun q => (pypi_etl.q_pypi_name q, pypi_etl.q_total_downloads_alltime q,
                             pypi_etl.q_downloads_last_month q, pypi_etl.q_downloads_last_year q)) df /\
            map pypi_etl.name frame =
              map (fun q => option_map lib_name (last_declaring (pypi_etl.q_pypi_name q) libraries)) df /\
            Forall (fun r => pypi_etl.name r = None <->
                             ~ In (pypi_etl.pypi_name r) (map lib_pypi_package libraries)) frame
      end
  end.
Proof.
  unfold pypi_etl.get_pypi_stats, only_printed, bind, print, raise, ret.
  destruct (bigquery_client gcp_project) as [client | e]; simpl.
  2: { split; [now repeat split | reflexivity]. }
  destruct (client (pypi_etl.query libraries)) as [df | e]; simpl.
  2: { split; [now repeat split | reflexivity]. }
  split; [now repeat split |].
  eexists. split; [reflexivity |].
  rewrite !map_map. cbn [pypi_etl.attach_name pypi_etl.pypi_name pypi_etl.name
                           pypi_etl.total_downloads_alltime pypi_etl.downloads_last_month
                           pypi_etl.downloads_last_year].
  split; [reflexivity |]. split.
  - apply map_ext. intro q. apply dict_get_package_to_name.
  - apply Forall_forall. intros r Hr. apply in_map_iff in Hr.
    destruct Hr as (q & <- & _). cbn [pypi_etl.attach_name pypi_etl.pypi_name pypi_etl.name].
    rewrite dict_get_package_to_name, <- last_declaring_none.
    destruct (last_declaring (pypi_etl.q_pypi_name q) libraries); simpl;
      split; intro H; try discriminate; reflexivity.
Qed.
